(** * PsycheVoyage: the retrying delivery step, the content-type rotation
      and the Discord client singleton

    A shallow embedding of
    - [app/pipelines/message/send_reply.py]   ([SendReply.process]),
    - [app/wellness_content_manager.py]       ([determine_content_type],
      [update_content_posted_status], [post_content]),
    - [app/services/discord_bot.py]           ([send_message_sync],
      [get_discord_bot]),
    and of the constructors of [SendReply] and [WellnessContentManager],
    [prepare_context], [store_content_mock], [generate_and_post], the
    scheduled task of [app/tasks/wellness_tasks.py] and the removal of
    duplicate chunks of [data/site_extraction.py],
    followed by the properties of the pipeline specification stated over it
    and by further properties of the code. *)

From Stdlib Require Import ZArith String Ascii DecimalString.
From Stdlib Require DecimalPos DecimalZ.
From stdpp Require Import base option list gmap.

Local Open Scope Z_scope.

(** ** The fragment of the Python runtime the sources rely on *)

Module Py.

(** A Python [str] is a sequence of Unicode code points. *)
Definition str := list N.

(** ASCII literals of the source text. *)
Definition lit (s : string) : str := N_of_ascii <$> list_ascii_of_string s.

(** [Py_UNICODE_ISSPACE]: the characters [str.strip()] removes. *)
Definition isspace (c : N) : bool :=
  ((9 <=? c) && (c <=? 13) || (28 <=? c) && (c <=? 32)
   || (c =? 133) || (c =? 160) || (c =? 5760)
   || (8192 <=? c) && (c <=? 8202)
   || (c =? 8232) || (c =? 8233) || (c =? 8239) || (c =? 8287)
   || (c =? 12288))%N.

Fixpoint lstrip (s : str) : str :=
  match s with
  | c :: s' => if isspace c then lstrip s' else s
  | [] => []
  end.

Definition rstrip (s : str) : str := reverse (lstrip (reverse s)).

(** [s.strip()] *)
Definition strip (s : str) : str := rstrip (lstrip s).

(** Truth value of a [str]: non-empty. *)
Definition truthy (s : str) : bool :=
  match s with [] => false | _ :: _ => true end.

(** The classes of [Exception] raised in the modelled code; each of them
    is caught by [except Exception]. *)
Inductive exn_class :=
| ValueError | KeyError | AttributeError | RuntimeError | OtherException.

Record exn := Exn { exn_type : exn_class; exn_arg : str }.

(** [str(e)]: the message, except for [KeyError], which shows the
    [repr] of the missing key. *)
Definition str_of_exn (e : exn) : str :=
  match exn_type e with
  | KeyError => lit "'" ++ exn_arg e ++ lit "'"
  | _ => exn_arg e
  end.

(** Outcome of running a piece of code: a value, or a raised exception. *)
Inductive result (A : Type) :=
| Return (a : A)
| Raise (e : exn).
Global Arguments Return {A} a.
Global Arguments Raise {A} e.

(** Code running against a state [Σ]. *)
Definition M (Σ A : Type) : Type := Σ → result A * Σ.

Definition ret {Σ A} (a : A) : M Σ A := λ σ, (Return a, σ).

Definition bind {Σ A B} (m : M Σ A) (k : A → M Σ B) : M Σ B :=
  λ σ, match m σ with
       | (Return a, σ') => k a σ'
       | (Raise e, σ') => (Raise e, σ')
       end.

Definition raise {Σ A} (c : exn_class) (msg : str) : M Σ A :=
  λ σ, (Raise (Exn c msg), σ).

(** [try: body except Exception as e: handler]. The state reached when
    the exception was raised is the one the handler starts from. *)
Definition try_except {Σ A} (body : M Σ A) (handler : exn → M Σ A) : M Σ A :=
  λ σ, match body σ with
       | (Return a, σ') => (Return a, σ')
       | (Raise e, σ') => handler e σ'
       end.

Definition gets {Σ A} (f : Σ → A) : M Σ A := λ σ, (Return (f σ), σ).
Definition modify {Σ} (f : Σ → Σ) : M Σ unit := λ σ, (Return tt, f σ).

(** [for x in xs: body], threading the loop-carried variables [s]; the
    body answers [inr r] for [return r] and [inl s'] for falling
    through to the next iteration. *)
Fixpoint for_each {Σ X S R} (xs : list X) (body : X → S → M Σ (S + R)) (s : S)
  : M Σ (S + R) :=
  match xs with
  | [] => ret (inl s)
  | x :: xs' =>
      bind (body x s) (λ o,
        match o with
        | inl s' => for_each xs' body s'
        | inr r => ret (inr r)
        end)
  end.

(** [if b: m] *)
Definition when {Σ} (b : bool) (m : M Σ unit) : M Σ unit :=
  if b then m else ret tt.

(** Truth value of an [Optional[str]]: neither [None] nor empty. *)
Definition truthy_opt (o : option str) : bool :=
  match o with Some s => truthy s | None => false end.

(** [str(n)] and [f"{n}"] for an [int]. *)
Definition str_of_int (n : Z) : str :=
  lit (DecimalString.NilZero.string_of_int (Z.to_int n)).

(** [f"{x}"] for an [Optional[str]]. *)
Definition format_opt (o : option str) : str :=
  match o with Some s => s | None => lit "None" end.

(** [xs.index(x)]: the first position holding [x]; [None] stands for
    the [ValueError] of an absent element. *)
Fixpoint index `{EqDecision A} (x : A) (xs : list A) : option nat :=
  match xs with
  | [] => None
  | y :: ys => if decide (y = x) then Some 0%nat else S <$> index x ys
  end.

(** [range(n)] *)
Definition range (n : Z) : list Z := Z.of_nat <$> seq 0 (Z.to_nat n).

End Py.

Import Py.

Global Instance M_ret {Σ} : MRet (M Σ) := λ A, @Py.ret Σ A.
Global Instance M_bind {Σ} : MBind (M Σ) := λ A B k m, @Py.bind Σ A B m k.

(** ** Data *)

(** A [datetime], as a count of time units since some epoch. A [datetime]
    object is always true in a boolean context. *)
Definition datetime := Z.

(** [services/discord_bot.py]: the fields of a [DiscordBot] object.
    [bot_id] is the identity of the object (the number of [DiscordBot]
    objects constructed before it). [is_ready] and [is_connected] are the
    flags as [__init__] and [enable_test_mode] set them: the handlers
    [on_ready], [on_connect] and [on_disconnect] also write them, from
    the thread of the bot and at times the Discord connection decides,
    and what they write is not followed here. *)
Record DiscordBot := {
  bot_id : nat;
  command_prefix : str;
  token : str;
  is_ready : bool;
  is_connected : bool;
  test_mode : bool;
  api_url : str;
}.

(** [api/event_schema.py]: the fields of [EventSchema] the delivery step
    reads. *)
Record EventSchema := {
  event_id : Z;
  channel_id : Z;
  content : str;
}.

Module AnalyzeMessage.
Inductive MessageIntent :=
| PLATFORM_BUSINESS_INFO
| PERSONAL_GROWTH_CREATIVITY
| MINDFULNESS
| BREATHWORK
| HYPNOSIS
| TRAUMA_SOMATIC_THERAPY
| IGNORE.

Definition value (i : MessageIntent) : str :=
  match i with
  | PLATFORM_BUSINESS_INFO => lit "platform and business info"
  | PERSONAL_GROWTH_CREATIVITY => lit "personal growth and creativity"
  | MINDFULNESS => lit "mindfulness"
  | BREATHWORK => lit "breathwork"
  | HYPNOSIS => lit "hypnosis"
  | TRAUMA_SOMATIC_THERAPY => lit "trauma and somatic therapy"
  | IGNORE => lit "ignore"
  end.

(** The float field [confidence] is not read by the delivery step and
    is left out. *)
Record ResponseModel := {
  reasoning : str;
  intent : MessageIntent;
  escalate : bool;
}.
End AnalyzeMessage.

Module GenerateResponse.
Record ResponseModel := {
  reasoning : str;
  response : str;
}.
End GenerateResponse.

Module SendReply.
Record ResponseModel := {
  success : bool;
  error_message : option str;
  channel_id : option Z;
  message_sent : option str;
}.

(** The attributes of a [SendReply] node: its name and its client. *)
Record t := {
  node_name : str;
  discord_bot : option DiscordBot;
}.
End SendReply.

(** What a node stores under the key ["response_model"]. *)
Inductive response_model :=
| AnalyzeMessageModel (r : AnalyzeMessage.ResponseModel)
| GenerateResponseModel (r : GenerateResponse.ResponseModel)
| SendReplyModel (r : SendReply.ResponseModel).

(** The dictionary a node stores under its name. [None] for
    ["response_model"] is a dictionary without that key. *)
Record node_output := {
  out_response_model : option response_model;
  out_rag_context : option (list str);
}.

(** Modelled from the spec: [core/task.py] is not part of the sources.
    A [TaskContext] holds the originating event and a mapping from node
    name to that node's output. *)
Record TaskContext := {
  event : EventSchema;
  nodes : gmap str node_output;
}.

Module Wellness.
Inductive ContentType :=
| MEDITATION_TIP
| WEEKLY_CHALLENGE
| MINDFULNESS_PRACTICE
| EMOTIONAL_WELLNESS
| SOMATIC_EXERCISE
| BREATHWORK_TECHNIQUE
| SLEEP_OPTIMIZATION
| GRATITUDE_PRACTICE
| BOUNDARY_SETTING
| STRESS_MANAGEMENT.

Definition value (t : ContentType) : str :=
  match t with
  | MEDITATION_TIP => lit "meditation tip"
  | WEEKLY_CHALLENGE => lit "weekly challenge"
  | MINDFULNESS_PRACTICE => lit "mindfulness practice"
  | EMOTIONAL_WELLNESS => lit "emotional wellness"
  | SOMATIC_EXERCISE => lit "somatic exercise"
  | BREATHWORK_TECHNIQUE => lit "breathwork technique"
  | SLEEP_OPTIMIZATION => lit "sleep optimization"
  | GRATITUDE_PRACTICE => lit "gratitude practice"
  | BOUNDARY_SETTING => lit "boundary setting"
  | STRESS_MANAGEMENT => lit "stress management"
  end.

(** [list(ContentType)]: the members in definition order. *)
Definition all_types : list ContentType :=
  [ MEDITATION_TIP; WEEKLY_CHALLENGE; MINDFULNESS_PRACTICE;
    EMOTIONAL_WELLNESS; SOMATIC_EXERCISE; BREATHWORK_TECHNIQUE;
    SLEEP_OPTIMIZATION; GRATITUDE_PRACTICE; BOUNDARY_SETTING;
    STRESS_MANAGEMENT ].

Record PostResult := {
  success : bool;
  error_message : option str;
  channel_id : str;
  content_id : option str;
  posted_at : option datetime;
}.

(** A stored piece of wellness content: an entry of
    [mock_content_store], or a row of the [wellness_content] table.
    Modelled from the spec: [database/wellness_content.py] is not part
    of the sources; the table holds content, content type, channel id,
    posted flag and timestamps. *)
Record item := {
  item_id : str;
  item_content : str;
  item_content_type : str;
  item_channel_id : str;
  posted : bool;
  item_posted_at : option datetime;
}.

(** The attributes of a [WellnessContentManager]. *)
Record t := {
  discord_bot : option DiscordBot;
}.
End Wellness.

Global Instance MessageIntent_eq_dec : EqDecision AnalyzeMessage.MessageIntent.
Proof. solve_decision. Defined.
Global Instance ContentType_eq_dec : EqDecision Wellness.ContentType.
Proof. solve_decision. Defined.

(** ** The process state and its environment *)

(** What the process does to the outside world, in order. [EvSend] is one
    call of [send_message_sync] with its outcome ([None]: it returned,
    [Some e]: it raised, [e] being the text of the underlying error). *)
Inductive effect :=
| EvSend (channel : Z) (message : str) (outcome : option str)
| EvSleep (seconds : Z)
| EvConstruct (id : nat)
| EvSession (fault : option str).

Record world := {
  trace : list effect;
  (** the module global [_discord_bot] of [services/discord_bot.py] *)
  _discord_bot : option DiscordBot;
  (** the module global [mock_content_store] *)
  mock_content_store : list Wellness.item;
  (** the rows of the [wellness_content] table *)
  wellness_content : list Wellness.item;
}.

(** What the code cannot decide by itself. *)
Record environment := {
  (** the outcome of the Discord SDK on the [k]-th delivery call *)
  discord : nat → Z → str → option str;
  (** [os.getenv] *)
  getenv : str → option str;
  (** [datetime.utcnow()], which depends on what has happened so far *)
  utcnow : list effect → datetime;
  (** the builtin [int(s)]: the integer, or the message of its
      [ValueError] *)
  python_int : str → Z + str;
  (** whether the database modules were importable *)
  DATABASE_AVAILABLE : bool;
  (** whether the [k]-th database session fails, and with which error *)
  session_fault : nat → option str;
}.

Definition is_send (e : effect) : bool :=
  match e with EvSend _ _ _ => true | _ => false end.
Definition is_construct (e : effect) : bool :=
  match e with EvConstruct _ => true | _ => false end.
Definition is_session (e : effect) : bool :=
  match e with EvSession _ => true | _ => false end.

(** Number of delivery calls made so far. *)
Definition delivery_calls (tr : list effect) : nat := length (filter is_send tr).
(** Number of [DiscordBot] objects constructed so far. *)
Definition constructions (tr : list effect) : nat := length (filter is_construct tr).
Definition sessions (tr : list effect) : nat := length (filter is_session tr).

(** The sleeps requested so far, in order. *)
Definition sleeps (tr : list effect) : list Z :=
  omap (λ e, match e with EvSleep d => Some d | _ => None end) tr.

(** The state after the effects [evs] have happened. *)
Definition log (w : world) (evs : list effect) : world :=
  {| trace := trace w ++ evs;
     _discord_bot := _discord_bot w;
     mock_content_store := mock_content_store w;
     wellness_content := wellness_content w |}.

Definition emit (e : effect) : M world unit := modify (λ w, log w [e]).

(** [time.sleep(seconds)] *)
Definition sleep (seconds : Z) : M world unit := emit (EvSleep seconds).

Definition set_discord_bot (b : option DiscordBot) : M world unit :=
  modify (λ w, {| trace := trace w;
                  _discord_bot := b;
                  mock_content_store := mock_content_store w;
                  wellness_content := wellness_content w |}).

Definition set_mock_content_store (s : list Wellness.item) : M world unit :=
  modify (λ w, {| trace := trace w;
                  _discord_bot := _discord_bot w;
                  mock_content_store := s;
                  wellness_content := wellness_content w |}).

Definition set_wellness_content (s : list Wellness.item) : M world unit :=
  modify (λ w, {| trace := trace w;
                  _discord_bot := _discord_bot w;
                  mock_content_store := mock_content_store w;
                  wellness_content := s |}).

(** ** The code *)

Section Code.
Context (env : environment).

(** *** [services/discord_bot.py] *)

(** [DiscordBot.__init__] *)
Definition DiscordBot_init (command_prefix token : str) : M world DiscordBot :=
  tr ← gets trace;
  let self := {| bot_id := constructions tr;
                 command_prefix := command_prefix;
                 token := token;
                 is_ready := false;
                 is_connected := false;
                 test_mode := false;
                 api_url := default (lit "http://api:8080")
                                    (getenv env (lit "API_URL")) |} in
  emit (EvConstruct (bot_id self));;
  mret self.

Definition enable_test_mode (self : DiscordBot) : DiscordBot :=
  {| bot_id := bot_id self;
     command_prefix := command_prefix self;
     token := token self;
     is_ready := true;
     is_connected := true;
     test_mode := true;
     api_url := api_url self |}.

(** [DiscordBot.send_message_sync]. Outside test mode everything happens
    inside one [try], whose outcome is the environment's; any failure
    [e] is raised again as [RuntimeError(f"Failed to send message: {e}")].
    On a client that is not ready the call starts the bot and waits for
    [on_ready], which sets the flag [is_ready] of the client: a call that
    returns leaves the client ready. That write, like every write of the
    handlers, is not part of the state modelled here: the client of
    [world] keeps the flags of its construction, and no property below
    is about the flags of a client after a call. *)
Definition send_message_sync (self : DiscordBot) (channel_id : Z) (message : str)
  : M world bool :=
  if test_mode self then
    emit (EvSend channel_id message None);; mret true
  else
    tr ← gets trace;
    match discord env (delivery_calls tr) channel_id message with
    | None => emit (EvSend channel_id message None);; mret true
    | Some e =>
        emit (EvSend channel_id message (Some e));;
        raise RuntimeError (lit "Failed to send message: " ++ e)
    end.

Definition get_discord_bot (token : option str) (test_mode : bool)
  : M world (option DiscordBot) :=
  g ← gets _discord_bot;
  match g with
  | None =>
      match token with
      | None =>
          raise ValueError
            (lit "Token is required when creating a new Discord bot instance")
      | Some token =>
          b ← DiscordBot_init (lit "!") token;
          set_discord_bot (Some b);;
          when test_mode (set_discord_bot (Some (enable_test_mode b)))
      end
  | Some _ => mret tt
  end;;
  gets _discord_bot.

(** *** [pipelines/message/send_reply.py] *)

(** [task_context.nodes[name]["response_model"]] *)
Definition get_response_model (task_context : TaskContext) (name : str)
  : M world response_model :=
  match nodes task_context !! name with
  | None => raise KeyError name
  | Some d =>
      match out_response_model d with
      | None => raise KeyError (lit "response_model")
      | Some m => mret m
      end
  end.

(** [m.intent] *)
Definition get_intent (m : response_model) : M world AnalyzeMessage.MessageIntent :=
  match m with
  | AnalyzeMessageModel r => mret (AnalyzeMessage.intent r)
  | _ => raise AttributeError (lit "'ResponseModel' object has no attribute 'intent'")
  end.

(** [m.response] *)
Definition get_response (m : response_model) : M world str :=
  match m with
  | GenerateResponseModel r => mret (GenerateResponse.response r)
  | _ => raise AttributeError (lit "'ResponseModel' object has no attribute 'response'")
  end.

(** [task_context.nodes[self.node_name] = {"response_model": r}],
    giving the context as it is afterwards. *)
Definition record_result (self : SendReply.t) (task_context : TaskContext)
    (r : SendReply.ResponseModel) : TaskContext :=
  {| event := event task_context;
     nodes := <[SendReply.node_name self :=
                  {| out_response_model := Some (SendReplyModel r);
                     out_rag_context := None |}]> (nodes task_context) |}.

Definition failure (error_msg : str) : SendReply.ResponseModel :=
  {| SendReply.success := false;
     SendReply.error_message := Some error_msg;
     SendReply.channel_id := None;
     SendReply.message_sent := None |}.

(** [SendReply.process] *)
Definition process (self : SendReply.t) (task_context : TaskContext)
  : M world TaskContext :=
  try_except
    (when (bool_decide (nodes task_context !! lit "AnalyzeMessage" = None))
       (raise ValueError
          (lit "AnalyzeMessage node results not found in task context"));;
     when (bool_decide (nodes task_context !! lit "GenerateResponse" = None))
       (raise ValueError
          (lit "GenerateResponse node results not found in task context"));;
     am ← get_response_model task_context (lit "AnalyzeMessage");
     intent ← get_intent am;
     if bool_decide (AnalyzeMessage.value intent = lit "ignore") then
       mret (record_result self task_context
               {| SendReply.success := true;
                  SendReply.error_message :=
                    Some (lit "Message ignored as per intent");
                  SendReply.channel_id := None;
                  SendReply.message_sent := None |})
     else
       let channel_id := channel_id (event task_context) in
       gm ← get_response_model task_context (lit "GenerateResponse");
       response ← get_response gm;
       if negb (truthy response) || negb (truthy (strip response)) then
         mret (record_result self task_context
                 (failure (lit "Empty response received")))
       else
         match SendReply.discord_bot self with
         | None =>
             mret (record_result self task_context
                     (failure (lit "Discord bot not initialized")))
         | Some bot =>
             let max_retries := 3 in
             o ← for_each (range max_retries)
                   (λ attempt '(retry_delay, last_error),
                      try_except
                        (send_message_sync bot channel_id response;;
                         mret (inr (record_result self task_context
                                 {| SendReply.success := true;
                                    SendReply.error_message := None;
                                    SendReply.channel_id := Some channel_id;
                                    SendReply.message_sent := Some response |})))
                        (λ e,
                           let last_error := Some (str_of_exn e) in
                           if attempt <? max_retries - 1 then
                             sleep retry_delay;;
                             mret (inl (retry_delay * 2, last_error))
                           else mret (inl (retry_delay, last_error))))
                   (1, None);
             match o with
             | inr returned => mret returned
             | inl (_, last_error) =>
                 let error_msg :=
                   lit "Failed to send message after " ++ str_of_int max_retries
                   ++ lit " attempts. Last error: " ++ format_opt last_error in
                 mret (record_result self task_context (failure error_msg))
             end
         end)
    (λ e,
       let error_msg := lit "Error in SendReply node: " ++ str_of_exn e in
       mret (record_result self task_context (failure error_msg))).

(** *** [wellness_content_manager.py] *)

(** [determine_content_type]. The lookup of the next type runs inside
    a [try] whose handler answers the default type. A member of a
    [str]-mixed [Enum] is true when its value is non-empty. *)
Definition determine_content_type
    (previous_content : list (str * str * datetime)) : Wellness.ContentType :=
  match previous_content with
  | [] => Wellness.MEDITATION_TIP
  | last_content :: _ =>
      let last_type_str := last_content.1.2 in
      let last_type :=
        List.find (λ content_type,
                     bool_decide (Wellness.value content_type = last_type_str))
                  Wellness.all_types in
      match last_type with
      | Some last_type =>
          if truthy (Wellness.value last_type) then
            let all_types := Wellness.all_types in
            match index last_type all_types with
            | Some current_index =>
                let next_index := ((current_index + 1) `mod` length all_types)%nat in
                match all_types !! next_index with
                | Some next_type => next_type
                | None => Wellness.MEDITATION_TIP
                end
            | None => Wellness.MEDITATION_TIP
            end
          else Wellness.MEDITATION_TIP
      | None => Wellness.MEDITATION_TIP
      end
  end.

(** The loop [for item in store: if item["id"] == content_id: ...;
    return True] and the query [.filter(id == content_id).first()]
    followed by the update: the first item with that id gets the new
    flag, and the timestamp when [posted and posted_at] holds. [None]
    when no item has that id. *)
Fixpoint mark_first (content_id : str) (posted : bool)
    (posted_at : option datetime) (store : list Wellness.item)
  : option (list Wellness.item) :=
  match store with
  | [] => None
  | item :: rest =>
      if bool_decide (Wellness.item_id item = content_id) then
        Some ({| Wellness.item_id := Wellness.item_id item;
                 Wellness.item_content := Wellness.item_content item;
                 Wellness.item_content_type := Wellness.item_content_type item;
                 Wellness.item_channel_id := Wellness.item_channel_id item;
                 Wellness.posted := posted;
                 Wellness.item_posted_at :=
                   if posted && bool_decide (is_Some posted_at) then posted_at
                   else Wellness.item_posted_at item |} :: rest)
      else (item ::.) <$> mark_first content_id posted posted_at rest
  end.

(** [update_content_posted_status_mock] *)
Definition update_content_posted_status_mock (content_id : str) (posted : bool)
    (posted_at : option datetime) : M world bool :=
  store ← gets mock_content_store;
  match mark_first content_id posted posted_at store with
  | Some store' => set_mock_content_store store';; mret true
  | None => mret false
  end.

(** One database session of [update_content_posted_status]: when the
    session fails nothing is committed. *)
Definition update_in_session (content_id : str) (posted : bool)
    (posted_at : option datetime) : M world bool :=
  tr ← gets trace;
  match session_fault env (sessions tr) with
  | Some e => emit (EvSession (Some e));; raise OtherException e
  | None =>
      emit (EvSession None);;
      rows ← gets wellness_content;
      match mark_first content_id posted posted_at rows with
      | Some rows' => set_wellness_content rows';; mret true
      | None => mret false
      end
  end.

(** [update_content_posted_status] *)
Definition update_content_posted_status (content_id : str) (posted : bool)
    (posted_at : option datetime) : M world bool :=
  if negb (DATABASE_AVAILABLE env) then
    store ← gets mock_content_store;
    match mark_first content_id posted posted_at store with
    | Some store' => set_mock_content_store store';; mret true
    | None => mret false
    end
  else
    try_except
      (update_in_session content_id posted posted_at)
      (λ e, update_content_posted_status_mock content_id posted posted_at).

(** [int(s)] *)
Definition int (s : str) : M world Z :=
  match python_int env s with
  | inl n => mret n
  | inr msg => raise ValueError msg
  end.

(** [channel_id or "unknown"] *)
Definition or_unknown (channel_id : option str) : str :=
  if truthy_opt channel_id then default [] channel_id else lit "unknown".

Definition failed_post (error_msg channel_id : str) (content_id : option str)
  : Wellness.PostResult :=
  {| Wellness.success := false;
     Wellness.error_message := Some error_msg;
     Wellness.channel_id := channel_id;
     Wellness.content_id := content_id;
     Wellness.posted_at := None |}.

(** [WellnessContentManager.post_content]. The handler of the outer
    [try] reads the variable [channel_id], which the body rebinds when
    it takes the channel from the environment: the part of the body
    after the rebinding carries the handler with the new binding. *)
Definition post_content (self : Wellness.t) (content : str)
    (channel_id content_id : option str) : M world Wellness.PostResult :=
  let handler (channel_id : option str) (e : exn) : M world Wellness.PostResult :=
    let error_msg := lit "Error in post_content method: " ++ str_of_exn e in
    mret (failed_post error_msg (or_unknown channel_id) content_id) in
  try_except
    (if negb (truthy content) || negb (truthy (strip content)) then
       mret (failed_post (lit "Empty content received") (or_unknown channel_id) None)
     else
       let resolved :=
         if negb (truthy_opt channel_id) then
           let channel_id := getenv env (lit "WELLNESS_CHANNEL_ID") in
           if negb (truthy_opt channel_id) then
             inr (failed_post
                    (lit "Channel ID not found in parameters or environment variables")
                    (lit "unknown") None)
           else inl channel_id
         else inl channel_id in
       match resolved with
       | inr returned => mret returned
       | inl channel_id =>
           let channel := default [] channel_id in
           try_except
             (match Wellness.discord_bot self with
              | None =>
                  mret (failed_post (lit "Discord bot not initialized") channel None)
              | Some bot =>
                  let max_retries := 3 in
                  o ← for_each (range max_retries)
                        (λ attempt '(retry_delay, last_error),
                           try_except
                             (target ← int channel;
                              send_message_sync bot target content;;
                              tr ← gets trace;
                              let posted_at := utcnow env tr in
                              when (truthy_opt content_id)
                                (update_content_posted_status
                                   (default [] content_id) true (Some posted_at);;
                                 mret tt);;
                              mret (inr {| Wellness.success := true;
                                           Wellness.error_message := None;
                                           Wellness.channel_id := channel;
                                           Wellness.content_id := content_id;
                                           Wellness.posted_at := Some posted_at |}))
                             (λ e,
                                let last_error := Some (str_of_exn e) in
                                if attempt <? max_retries - 1 then
                                  sleep retry_delay;;
                                  mret (inl (retry_delay * 2, last_error))
                                else mret (inl (retry_delay, last_error))))
                        (1, None);
                  match o with
                  | inr returned => mret returned
                  | inl (_, last_error) =>
                      let error_msg :=
                        lit "Failed to send wellness content after "
                        ++ str_of_int max_retries
                        ++ lit " attempts. Last error: " ++ format_opt last_error in
                      mret (failed_post error_msg channel content_id)
                  end
              end)
             (handler channel_id)
       end)
    (handler channel_id).

End Code.

(** ** Vocabulary of the properties *)

(** The outcome of the [k]-th call of [send_message_sync] on [bot]: in
    test mode nothing is sent and the call returns. *)
Definition send_outcome (env : environment) (bot : DiscordBot) (k : nat)
    (channel : Z) (message : str) : option str :=
  if test_mode bot then None else discord env k channel message.

(** Starting with the [k0]-th call, delivery fails [n] times, then
    succeeds. *)
Definition fails_then_succeeds (env : environment) (bot : DiscordBot) (k0 : nat)
    (channel : Z) (message : str) (n : nat) : Prop :=
  (∀ k, (k < n)%nat → is_Some (send_outcome env bot (k0 + k) channel message)) ∧
  send_outcome env bot (k0 + n) channel message = None.

(** The context holds the output of [AnalyzeMessage] with intent [i] and
    the output of [GenerateResponse] with reply [r]. *)
Definition upstream_outputs (tc : TaskContext) (i : AnalyzeMessage.MessageIntent)
    (r : str) : Prop :=
  (∃ a rag, nodes tc !! lit "AnalyzeMessage" =
      Some {| out_response_model := Some (AnalyzeMessageModel a);
              out_rag_context := rag |}
      ∧ AnalyzeMessage.intent a = i) ∧
  (∃ g rag, nodes tc !! lit "GenerateResponse" =
      Some {| out_response_model := Some (GenerateResponseModel g);
              out_rag_context := rag |}
      ∧ GenerateResponse.response g = r).

(** Empty, or made of whitespace only. *)
Definition is_blank (s : str) : bool := forallb isspace s.

(** The conditions under which [process] reaches its attempt loop. *)
Definition reaches_loop (self : SendReply.t) (tc : TaskContext) (bot : DiscordBot)
    (r : str) : Prop :=
  (∃ i, upstream_outputs tc i r ∧ i ≠ AnalyzeMessage.IGNORE) ∧
  is_blank r = false ∧
  SendReply.discord_bot self = Some bot.

(** The entry a node records under its name for the result [r]. *)
Definition recorded (r : SendReply.ResponseModel) : node_output :=
  {| out_response_model := Some (SendReplyModel r); out_rag_context := None |}.

(** The result of a delivered reply, and the context holding it. *)
Definition delivered (tc : TaskContext) (r : str) : SendReply.ResponseModel :=
  {| SendReply.success := true;
     SendReply.error_message := None;
     SendReply.channel_id := Some (channel_id (event tc));
     SendReply.message_sent := Some r |}.

Definition sent (self : SendReply.t) (tc : TaskContext) (r : str) : TaskContext :=
  record_result self tc (delivered tc r).

(** [tc'] is [tc] with the result [res] recorded under the name of the
    node, and nothing else changed. *)
Definition records (self : SendReply.t) (tc tc' : TaskContext)
    (res : SendReply.ResponseModel) : Prop :=
  event tc' = event tc ∧
  nodes tc' !! SendReply.node_name self = Some (recorded res) ∧
  ∀ name, name ≠ SendReply.node_name self → nodes tc' !! name = nodes tc !! name.

(** [res] is a failed result of [SendReply] with the message [msg]. *)
Definition failed_with (msg : str) (res : SendReply.ResponseModel) : Prop :=
  SendReply.success res = false ∧
  SendReply.error_message res = Some msg ∧
  SendReply.channel_id res = None ∧
  SendReply.message_sent res = None.

(** [res] is a failed [PostResult] with the message [msg], for the
    channel [channel] and the content [content_id]. *)
Definition post_failed_with (msg channel : str) (content_id : option str)
    (res : Wellness.PostResult) : Prop :=
  Wellness.success res = false ∧
  Wellness.error_message res = Some msg ∧
  Wellness.channel_id res = channel ∧
  Wellness.content_id res = content_id ∧
  Wellness.posted_at res = None.

(** The result of the "ignore" gate. *)
Definition ignored : SendReply.ResponseModel :=
  {| SendReply.success := true;
     SendReply.error_message := Some (lit "Message ignored as per intent");
     SendReply.channel_id := None;
     SendReply.message_sent := None |}.


(** [post_content] posts to [channel]: the argument, or else the
    environment variable. *)
Definition resolves_channel (env : environment) (channel_id : option str)
    (channel : str) : Prop :=
  truthy channel = true ∧
  (channel_id = Some channel ∨
   (truthy_opt channel_id = false ∧
    getenv env (lit "WELLNESS_CHANNEL_ID") = Some channel)).

(** The conditions under which [post_content] reaches its attempt loop
    and calls the delivery capability in it. *)
Definition post_reaches_loop (env : environment) (self : Wellness.t)
    (content : str) (channel_id : option str) (channel : str) (target : Z)
    (bot : DiscordBot) : Prop :=
  is_blank content = false ∧
  resolves_channel env channel_id channel ∧
  python_int env channel = inl target ∧
  Wellness.discord_bot self = Some bot.

(** The state after the step that follows a delivery: with a content id,
    [update_content_posted_status(content_id, True, posted_at)]. *)
Definition marked (env : environment) (content_id : option str) (w1 : world) : world :=
  if truthy_opt content_id then
    (update_content_posted_status env (default [] content_id) true
       (Some (utcnow env (trace w1))) w1).2
  else w1.

(** The result of a post delivered in state [w1]. *)
Definition posted (env : environment) (channel : str) (content_id : option str)
    (w1 : world) : Wellness.PostResult :=
  {| Wellness.success := true;
     Wellness.error_message := None;
     Wellness.channel_id := channel;
     Wellness.content_id := content_id;
     Wellness.posted_at := Some (utcnow env (trace w1)) |}.

(** The stored content: the mock store and the table. *)
Definition stores (w : world) : list Wellness.item * list Wellness.item :=
  (mock_content_store w, wellness_content w).

(** Effects that are neither delivery calls nor sleeps. *)
Definition quiet (evs : list effect) : Prop :=
  delivery_calls evs = 0%nat ∧ sleeps evs = [].

(** The text fields of a [PostResult]. *)
Definition carried_strings (r : Wellness.PostResult) : list str :=
  Wellness.channel_id r
  :: option_list (Wellness.error_message r) ++ option_list (Wellness.content_id r).

(** The sleep requested in total. *)
Definition total_sleep (tr : list effect) : Z := foldr Z.add 0 (sleeps tr).

(** What a run of [post_content] from [w] may end in. *)
Definition post_outcome (env : environment) (content : str)
    (content_id : option str) (w : world)
    (o : result Wellness.PostResult * world) : Prop :=
  ∃ r w', o = (Return r, w') ∧
    ((Wellness.success r = false ∧
      ∃ evs, w' = log w evs ∧ (delivery_calls evs ≤ 3)%nat) ∨
     (Wellness.success r = true ∧
      ∃ pre target, w' = marked env content_id
                           (log w (pre ++ [EvSend target content None])) ∧
                    (delivery_calls pre < 3)%nat)).

(** The postcondition of a loop whose body catches its exceptions:
    [Inv] after falling through, [Fin] after [return]. *)
Definition loop_post {S R : Type} (Inv : nat → world → Prop)
    (Fin : nat → R → world → Prop) (n : nat) (o : result (S + R) * world) : Prop :=
  match o with
  | (Return (inl _), w') => Inv n w'
  | (Return (inr r), w') => Fin n r w'
  | (Raise _, _) => False
  end.

(** A sequence of calls of [get_discord_bot], each with its arguments. *)
Fixpoint run_calls (env : environment) (calls : list (option str * bool)) (w : world)
  : list (result (option DiscordBot)) * world :=
  match calls with
  | [] => ([], w)
  | (token, test_mode) :: rest =>
      let (r, w1) := get_discord_bot env token test_mode w in
      let (rs, w2) := run_calls env rest w1 in
      (r :: rs, w2)
  end.

(** The object the first successful call of [get_discord_bot] constructs. *)
Definition new_bot (env : environment) (token : str) (test_mode : bool) (w : world)
  : DiscordBot :=
  let b := {| bot_id := constructions (trace w);
              command_prefix := lit "!";
              token := token;
              is_ready := false;
              is_connected := false;
              test_mode := false;
              api_url := default (lit "http://api:8080")
                                 (getenv env (lit "API_URL")) |} in
  if test_mode then enable_test_mode b else b.

Definition no_token : exn :=
  Exn ValueError (lit "Token is required when creating a new Discord bot instance").

(** ** Concrete inputs *)

Module Example.

(** An environment whose first [n] delivery calls fail. *)
Definition env (n : nat) : environment :=
  {| discord := λ k _ _, if (k <? n)%nat then Some (lit "timeout") else None;
     getenv := λ _, None;
     utcnow := λ tr, Z.of_nat (length tr);
     python_int := λ s, if bool_decide (s = lit "123") then inl 123
                        else inr (lit "invalid literal for int()");
     DATABASE_AVAILABLE := false;
     session_fault := λ _, None |}.

(** An environment whose delivery calls all fail. *)
Definition down : environment :=
  {| discord := λ _ _ _, Some (lit "timeout");
     getenv := λ _, None;
     utcnow := λ tr, Z.of_nat (length tr);
     python_int := λ s, if bool_decide (s = lit "123") then inl 123
                        else inr (lit "invalid literal for int()");
     DATABASE_AVAILABLE := false;
     session_fault := λ _, None |}.

Definition bot : DiscordBot :=
  {| bot_id := 0;
     command_prefix := lit "!";
     token := lit "secret";
     is_ready := false;
     is_connected := false;
     test_mode := false;
     api_url := lit "http://api:8080" |}.

Definition start : world :=
  {| trace := [];
     _discord_bot := Some bot;
     mock_content_store :=
       [ {| Wellness.item_id := lit "7";
            Wellness.item_content := lit "Breathe in";
            Wellness.item_content_type := lit "breathwork technique";
            Wellness.item_channel_id := lit "123";
            Wellness.posted := false;
            Wellness.item_posted_at := None |} ];
     wellness_content := [] |}.

Definition fresh : world :=
  {| trace := []; _discord_bot := None;
     mock_content_store := []; wellness_content := [] |}.

Definition node : SendReply.t :=
  {| SendReply.node_name := lit "SendReply"; SendReply.discord_bot := Some bot |}.

Definition analysis (i : AnalyzeMessage.MessageIntent) : node_output :=
  {| out_response_model :=
       Some (AnalyzeMessageModel
               {| AnalyzeMessage.reasoning := lit "classified";
                  AnalyzeMessage.intent := i;
                  AnalyzeMessage.escalate := false |});
     out_rag_context := None |}.

Definition generated (r : str) : node_output :=
  {| out_response_model :=
       Some (GenerateResponseModel
               {| GenerateResponse.reasoning := lit "answered";
                  GenerateResponse.response := r |});
     out_rag_context := Some [] |}.

Definition message : EventSchema :=
  {| event_id := 1; channel_id := 77; content := lit "hello" |}.

(** A context after both upstream nodes have run. *)
Definition context (i : AnalyzeMessage.MessageIntent) (r : str) : TaskContext :=
  {| event := message;
     nodes := <[lit "GenerateResponse" := generated r]>
                (<[lit "AnalyzeMessage" := analysis i]> ∅) |}.

(** A context in which only [AnalyzeMessage] has run. *)
Definition analysed_only (i : AnalyzeMessage.MessageIntent) : TaskContext :=
  {| event := message; nodes := <[lit "AnalyzeMessage" := analysis i]> ∅ |}.

(** A context in which no node has run. *)
Definition empty_context : TaskContext := {| event := message; nodes := ∅ |}.

Definition manager : Wellness.t := {| Wellness.discord_bot := Some bot |}.

Definition reply : str := lit "Take a slow breath".
Definition tip : str := lit "Breathe in".

End Example.

(** ** Further code *)

(** *** [pipelines/message/send_reply.py], [wellness_content_manager.py]:
        the constructors *)

Module ContentContext.
Record t := {
  day_of_week : str;
  content_type : Wellness.ContentType;
  previous_content : list str;
  channel_id : str;
}.
End ContentContext.

Module GeneratedContent.
(** The float field [confidence] is left out. *)
Record t := {
  content : str;
  content_type : str;
  channel_id : str;
  generated_at : datetime;
  reasoning : option str;
  id : option str;
}.
End GeneratedContent.

(** The dictionaries [generate_and_post] and the scheduled task answer:
    the combined results of generation and posting (the keys copied from
    the generated content are kept together), the one of the handler of
    [generate_and_post], and the one of the handler of the task. *)
Inductive report :=
| Combined (success : bool) (generated_content : GeneratedContent.t)
    (posted_at : option datetime) (error_message : option str)
| Aborted (error_message : str) (channel_id : str)
| TaskFailed (error_message : str).

(** [result["success"]] *)
Definition report_success (r : report) : bool :=
  match r with
  | Combined success _ _ _ => success
  | Aborted _ _ | TaskFailed _ => false
  end.

Section Construction.
Context (env : environment).

(** [SendReply.__init__]. The name of the node is set by the base class,
    which is outside the sources, and is taken as an argument. The
    handler logs and raises again. *)
Definition SendReply_init (node_name : str) : M world SendReply.t :=
  let token := getenv env (lit "DISCORD_BOT_TOKEN") in
  if negb (truthy_opt token) then
    raise ValueError (lit "Discord bot token not found in environment variables")
  else
    try_except
      (discord_bot ← get_discord_bot env token false;
       mret {| SendReply.node_name := node_name;
               SendReply.discord_bot := discord_bot |})
      (λ e σ, (Raise e, σ)).

(** [WellnessContentManager.__init__] *)
Definition WellnessContentManager_init : M world Wellness.t :=
  let token := getenv env (lit "DISCORD_BOT_TOKEN") in
  if truthy_opt token then
    try_except
      (discord_bot ← get_discord_bot env token false;
       mret {| Wellness.discord_bot := discord_bot |})
      (λ e, mret {| Wellness.discord_bot := None |})
  else mret {| Wellness.discord_bot := None |}.

End Construction.

(** *** [wellness_content_manager.py]: generation and posting *)

Section Generation.
Context (env : environment).

(** [datetime.now().strftime("%A")], and [get_previous_content], which
    queries the database session: both are outside the sources. *)
Context (weekday : list effect → str).
Context (get_previous_content :
           Wellness.t → str → M world (list (str * str * datetime))).

(** [generate_content] goes through the language model and the
    database session, which are outside the sources. *)
Context (generate_content :
           Wellness.t → option str → option str → M world GeneratedContent.t).

(** [prepare_context]. A [for] loop that ends without a match leaves
    [selected_content_type] unbound, and reading it raises. *)
Definition prepare_context (self : Wellness.t) (channel_id content_type : option str)
  : M world ContentContext.t :=
  tr ← gets trace;
  let day_of_week := weekday tr in
  let channel_id :=
    if negb (truthy_opt channel_id) then
      default (lit "0") (getenv env (lit "WELLNESS_CHANNEL_ID"))
    else default [] channel_id in
  previous_content_data ← get_previous_content self channel_id;
  let previous_content := (λ d, d.1.1) <$> previous_content_data in
  selected_content_type ←
    (if truthy_opt content_type &&
        bool_decide (default [] content_type
                     ∈ Wellness.value <$> Wellness.all_types) then
       match List.find (λ ct, bool_decide (Wellness.value ct
                                           = default [] content_type))
                       Wellness.all_types with
       | Some ct => mret ct
       | None =>
           raise OtherException
             (lit "local variable 'selected_content_type' referenced before assignment")
       end
     else mret (determine_content_type previous_content_data));
  mret {| ContentContext.day_of_week := day_of_week;
          ContentContext.content_type := selected_content_type;
          ContentContext.previous_content := previous_content;
          ContentContext.channel_id := channel_id |}.

(** [generate_and_post] *)
Definition generate_and_post (self : Wellness.t) (channel_id content_type : option str)
  : M world report :=
  try_except
    (generated_content ← generate_content self channel_id content_type;
     post_result ← post_content env self
                     (GeneratedContent.content generated_content)
                     (Some (GeneratedContent.channel_id generated_content))
                     (GeneratedContent.id generated_content);
     mret (Combined (Wellness.success post_result) generated_content
             (if Wellness.success post_result
              then Wellness.posted_at post_result else None)
             (Wellness.error_message post_result)))
    (λ e,
       let error_msg := lit "Error in generate_and_post: " ++ str_of_exn e in
       mret (Aborted error_msg
               (if truthy_opt channel_id then default [] channel_id
                else default (lit "unknown")
                             (getenv env (lit "WELLNESS_CHANNEL_ID"))))).

(** [tasks/wellness_tasks.py]: [generate_and_post_wellness_content] *)
Definition generate_and_post_wellness_content : M world report :=
  try_except
    (manager ← WellnessContentManager_init env;
     generate_and_post manager None None)
    (λ e, mret (TaskFailed (str_of_exn e))).

End Generation.

(** *** [wellness_content_manager.py]: the mock store *)

(** The process state together with the module global
    [mock_content_id_counter]. *)
Record store_state := {
  globals : world;
  mock_content_id_counter : Z;
}.

(** Code that leaves the counter alone. *)
Definition lift {A} (m : M world A) : M store_state A :=
  λ s, let (r, w') := m (globals s) in
       (r, {| globals := w';
              mock_content_id_counter := mock_content_id_counter s |}).

(** [store_content_mock], and the branch of [store_content] taken
    without a database, which is the same code. The keys ["reasoning"],
    ["confidence"] and ["created_at"] of the stored dictionary are not
    read by the modelled code and are left out. *)
Definition store_content_mock (content content_type channel_id : str)
  : M store_state str :=
  n ← gets mock_content_id_counter;
  let content_id := str_of_int n in
  modify (λ s, {| globals := globals s; mock_content_id_counter := n + 1 |});;
  lift (store ← gets mock_content_store;
        set_mock_content_store
          (store ++ [ {| Wellness.item_id := content_id;
                         Wellness.item_content := content;
                         Wellness.item_content_type := content_type;
                         Wellness.item_channel_id := channel_id;
                         Wellness.posted := false;
                         Wellness.item_posted_at := None |} ]));;
  mret content_id.

(** *** [data/site_extraction.py]: the removal of duplicate chunks *)

Module SiteExtraction.

Record chunk := {
  source : str;
  author : str;
  category : str;
  text : str;
  headings : list str;
}.

(** The loop over [all_chunks], with its two variables [seen_texts] and
    [deduplicated_chunks]. *)
Definition deduplicate_from (seen_texts : gset str) (deduplicated_chunks : list chunk)
    (all_chunks : list chunk) : gset str * list chunk :=
  foldl (λ '(seen_texts, deduplicated_chunks) chunk,
           if bool_decide (text chunk ∈ seen_texts)
           then (seen_texts, deduplicated_chunks)
           else (seen_texts ∪ {[text chunk]}, deduplicated_chunks ++ [chunk]))
        (seen_texts, deduplicated_chunks) all_chunks.

Definition deduplicated_chunks (all_chunks : list chunk) : list chunk :=
  (deduplicate_from ∅ [] all_chunks).2.

End SiteExtraction.

(** ** Vocabulary of the further properties *)

(** The five courses the effects of one run of [SendReply.process] on
    the channel [c] with the reply [m] can take. *)
Definition process_effects (c : Z) (m : str) (evs : list effect) : Prop :=
  evs = [] ∨
  evs = [EvSend c m None] ∨
  (∃ e0, evs = [EvSend c m (Some e0); EvSleep 1; EvSend c m None]) ∨
  (∃ e0 e1, evs = [EvSend c m (Some e0); EvSleep 1;
                   EvSend c m (Some e1); EvSleep 2; EvSend c m None]) ∨
  (∃ e0 e1 e2, evs = [EvSend c m (Some e0); EvSleep 1;
                      EvSend c m (Some e1); EvSleep 2; EvSend c m (Some e2)]).

(** What [__init__] and [enable_test_mode] decide of a client, the
    flags apart. *)
Definition configuration (b : DiscordBot) : nat * str * str * bool * str :=
  (bot_id b, command_prefix b, token b, test_mode b, api_url b).

(** The courses the effects of one run of [post_content] on the channel
    [c] with the content [m] can take: the attempts, followed after a
    successful one by the session of the marking step, if any. *)
Definition post_effects (c : Z) (m : str) (evs : list effect) : Prop :=
  evs = [] ∨
  evs = [EvSleep 1; EvSleep 2] ∨
  (∃ e0 e1 e2, evs = [EvSend c m (Some e0); EvSleep 1;
                      EvSend c m (Some e1); EvSleep 2; EvSend c m (Some e2)]) ∨
  (∃ attempts marking,
     evs = attempts ++ marking ∧
     (attempts = [EvSend c m None] ∨
      (∃ e0, attempts = [EvSend c m (Some e0); EvSleep 1; EvSend c m None]) ∨
      (∃ e0 e1, attempts = [EvSend c m (Some e0); EvSleep 1;
                            EvSend c m (Some e1); EvSleep 2; EvSend c m None])) ∧
     (marking = [] ∨ ∃ fault, marking = [EvSession fault])).

(** The reply [process] would send for the context, if any. *)
Definition reply_of (tc : TaskContext) : str :=
  match nodes tc !! lit "GenerateResponse" with
  | Some {| out_response_model := Some (GenerateResponseModel g) |} =>
      GenerateResponse.response g
  | _ => []
  end.


(** The ids of the mock store are decimal numbers below the counter,
    each used once. *)
Definition well_numbered (s : store_state) : Prop :=
  NoDup (Wellness.item_id <$> mock_content_store (globals s)) ∧
  ∀ item, item ∈ mock_content_store (globals s) →
          ∃ n, n < mock_content_id_counter s ∧ Wellness.item_id item = str_of_int n.

(** The state at import time. *)
Definition at_import (w : world) : store_state :=
  {| globals := {| trace := trace w;
                   _discord_bot := _discord_bot w;
                   mock_content_store := [];
                   wellness_content := wellness_content w |};
     mock_content_id_counter := 1 |}.

(** The item [update_content_posted_status] leaves in place of [item]. *)
Definition updated (posted : bool) (posted_at : option datetime)
    (item : Wellness.item) : Wellness.item :=
  {| Wellness.item_id := Wellness.item_id item;
     Wellness.item_content := Wellness.item_content item;
     Wellness.item_content_type := Wellness.item_content_type item;
     Wellness.item_channel_id := Wellness.item_channel_id item;
     Wellness.posted := posted;
     Wellness.item_posted_at :=
       match posted, posted_at with
       | true, Some stamp => Some stamp
       | _, _ => Wellness.item_posted_at item
       end |}.

(** The chunks whose text is neither in [seen] nor the text of an
    earlier chunk of the list. *)
Fixpoint first_occurrences (seen : gset str) (chunks : list SiteExtraction.chunk)
  : list SiteExtraction.chunk :=
  match chunks with
  | [] => []
  | chunk :: rest =>
      if bool_decide (SiteExtraction.text chunk ∈ seen)
      then first_occurrences seen rest
      else chunk :: first_occurrences (seen ∪ {[SiteExtraction.text chunk]}) rest
  end.

(** ** Further concrete inputs *)

Module Sample.

(** An environment with a database whose sessions all end in [fault],
    and with the bot token set. *)
Definition with_database (fault : option str) : environment :=
  {| discord := λ _ _ _, None;
     getenv := λ name, if bool_decide (name = lit "DISCORD_BOT_TOKEN")
                       then Some (lit "secret") else None;
     utcnow := λ tr, Z.of_nat (length tr);
     python_int := λ s, if bool_decide (s = lit "123") then inl 123
                        else inr (lit "invalid literal for int()");
     DATABASE_AVAILABLE := true;
     session_fault := λ _, fault |}.

(** A manager and a node without a client, and ones whose client is in
    test mode. *)
Definition unmanned : Wellness.t := {| Wellness.discord_bot := None |}.

Definition clientless : SendReply.t :=
  {| SendReply.node_name := lit "SendReply"; SendReply.discord_bot := None |}.

Definition rehearsing_manager : Wellness.t :=
  {| Wellness.discord_bot := Some (enable_test_mode Example.bot) |}.

Definition rehearsing_node : SendReply.t :=
  {| SendReply.node_name := lit "SendReply";
     SendReply.discord_bot := Some (enable_test_mode Example.bot) |}.

(** A context whose analysis entry holds no response model. *)
Definition unfinished : TaskContext :=
  {| event := Example.message;
     nodes := <[lit "GenerateResponse" := Example.generated Example.reply]>
                (<[lit "AnalyzeMessage" :=
                     {| out_response_model := None; out_rag_context := None |}]> ∅) |}.

Definition monday (tr : list effect) : str := lit "Monday".

Definition one_post (self : Wellness.t) (channel : str)
  : M world (list (str * str * datetime)) :=
  mret [(Example.tip, lit "breathwork technique", 5)].

Definition stored : Wellness.item :=
  {| Wellness.item_id := lit "7";
     Wellness.item_content := lit "Breathe in";
     Wellness.item_content_type := lit "breathwork technique";
     Wellness.item_channel_id := lit "123";
     Wellness.posted := false;
     Wellness.item_posted_at := None |}.

End Sample.
(** * Properties *)

(** ** Effects and their counts *)

Lemma delivery_calls_app a b : delivery_calls (a ++ b) = (delivery_calls a + delivery_calls b)%nat.
Proof. unfold delivery_calls. by rewrite filter_app, length_app. Qed.

Lemma delivery_calls_cons e tr :
  delivery_calls (e :: tr) = ((if is_send e then 1 else 0) + delivery_calls tr)%nat.
Proof. unfold delivery_calls. rewrite filter_cons. by destruct (is_send e). Qed.

Lemma delivery_calls_nil : delivery_calls [] = 0%nat.
Proof. reflexivity. Qed.

Ltac count_calls :=
  rewrite ?delivery_calls_app, ?delivery_calls_cons, ?delivery_calls_nil;
  cbn [is_send].

Lemma calls_log w evs :
  delivery_calls (trace (log w evs)) = (delivery_calls (trace w) + delivery_calls evs)%nat.
Proof. apply delivery_calls_app. Qed.

Lemma log_nil w : log w [] = w.
Proof. destruct w; unfold log; simpl. by rewrite app_nil_r. Qed.
Lemma log_log w a b : log (log w a) b = log w (a ++ b).
Proof. unfold log; simpl. by rewrite app_assoc. Qed.

Lemma emit_log e w : emit e w = (Return tt, log w [e]).
Proof. reflexivity. Qed.

Lemma trace_log w evs : trace (log w evs) = trace w ++ evs.
Proof. reflexivity. Qed.
Lemma discord_bot_log w evs : _discord_bot (log w evs) = _discord_bot w.
Proof. reflexivity. Qed.
Lemma mock_content_store_log w evs : mock_content_store (log w evs) = mock_content_store w.
Proof. reflexivity. Qed.
Lemma wellness_content_log w evs : wellness_content (log w evs) = wellness_content w.
Proof. reflexivity. Qed.

Lemma sleep_log d w : sleep d w = (Return tt, log w [EvSleep d]).
Proof. reflexivity. Qed.

Lemma send_message_sync_run env bot c m w :
  send_message_sync env bot c m w =
    (match send_outcome env bot (delivery_calls (trace w)) c m with
     | None => Return true
     | Some e => Raise (Exn RuntimeError (lit "Failed to send message: " ++ e))
     end,
     log w [EvSend c m (send_outcome env bot (delivery_calls (trace w)) c m)]).
Proof.
  unfold send_message_sync, send_outcome.
  destruct (test_mode bot); [reflexivity|].
  unfold mbind, M_bind, bind, gets. simpl.
  by destruct (discord env _ c m).
Qed.


Local Opaque log emit sleep.

Lemma intent_not_ignore i :
  i ≠ AnalyzeMessage.IGNORE → bool_decide (AnalyzeMessage.value i = lit "ignore") = false.
Proof. intros H. apply bool_decide_eq_false_2. destruct i; try done; vm_compute; discriminate. Qed.


(** ** Blank strings *)

Lemma lstrip_nil (s : str) : lstrip s = [] ↔ forallb isspace s = true.
Proof.
  induction s as [|c s IH]; simpl; [done|].
  destruct (isspace c); simpl; [done|]. split; discriminate.
Qed.

Lemma forallb_reverse {A} (f : A → bool) (l : list A) :
  forallb f (reverse l) = forallb f l.
Proof.
  induction l as [|x l IH]; [done|].
  rewrite reverse_cons, forallb_app, IH. simpl. rewrite andb_true_r. apply andb_comm.
Qed.

Lemma lstrip_suffix (s : str) : ∃ p, s = p ++ lstrip s ∧ forallb isspace p = true.
Proof.
  induction s as [|c s (p & Hp & Hall)]; simpl; [by exists []|].
  destruct (isspace c) eqn:Hc.
  - exists (c :: p). simpl. rewrite Hc, Hall. split; [by f_equal|done].
  - by exists [].
Qed.

Lemma strip_nil (s : str) : strip s = [] ↔ forallb isspace s = true.
Proof.
  unfold strip, rstrip. split.
  - intros H. apply (f_equal reverse) in H. rewrite reverse_involutive in H.
    simpl in H. apply lstrip_nil in H. rewrite forallb_reverse in H.
    destruct (lstrip_suffix s) as (p & Hp & Hall).
    rewrite Hp, forallb_app, Hall. exact H.
  - intros H. apply lstrip_nil in H. by rewrite H.
Qed.

Lemma blank_check (s : str) :
  negb (truthy s) || negb (truthy (strip s)) = is_blank s.
Proof.
  unfold is_blank. destruct (forallb isspace s) eqn:Hall.
  - apply strip_nil in Hall. rewrite Hall. simpl. apply orb_true_r.
  - destruct s as [|c s]; [done|]. simpl truthy at 1. simpl negb at 1.
    destruct (strip (c :: s)) eqn:Hs; [|done].
    apply strip_nil in Hs. congruence.
Qed.

Lemma sleeps_app a b : sleeps (a ++ b) = sleeps a ++ sleeps b.
Proof. unfold sleeps. apply omap_app. Qed.

(** ** Runs of [SendReply.process] *)

Ltac enter_loop Hpre :=
  let a := fresh "a" in let g := fresh "g" in
  let Ha := fresh "Ha" in let Hg := fresh "Hg" in
  let Hi := fresh "Hi" in let Hr := fresh "Hr" in
  let Hni := fresh "Hni" in let Hnb := fresh "Hnb" in let Hb := fresh "Hb" in
  destruct Hpre as ((? & [(a & ? & Ha & Hi) (g & ? & Hg & Hr)] & Hni) & Hnb & Hb);
  unfold process, try_except, mbind, M_bind, bind, when,
    get_response_model, get_intent, get_response;
  rewrite Ha, Hg; simpl; rewrite Hi, Hr, (intent_not_ignore _ Hni), blank_check, Hnb, Hb;
  simpl; unfold try_except, mbind, M_bind, bind.

Ltac attempt H :=
  rewrite send_message_sync_run, ?calls_log;
  repeat match goal with
    | |- context [delivery_calls (?x :: ?evs)] =>
        let n := eval cbv in (delivery_calls (x :: evs)) in
        change (delivery_calls (x :: evs)) with n
    end;
  rewrite H; simpl;
  unfold try_except, mbind, M_bind, bind; rewrite ?sleep_log, ?log_log; simpl.

Section SendReplyRuns.
Context (env : environment) (self : SendReply.t) (tc : TaskContext)
        (bot : DiscordBot) (r : str) (w : world).
Hypothesis Hpre : reaches_loop self tc bot r.

Lemma process_first_try :
  send_outcome env bot (delivery_calls (trace w)) (channel_id (event tc)) r = None →
  process env self tc w = (Return (sent self tc r), log w [EvSend (channel_id (event tc)) r None]).
Proof.
  intros H0. enter_loop Hpre. attempt H0. reflexivity.
Qed.

Lemma process_second_try e0 :
  send_outcome env bot (delivery_calls (trace w)) (channel_id (event tc)) r = Some e0 →
  send_outcome env bot (delivery_calls (trace w) + 1) (channel_id (event tc)) r = None →
  process env self tc w =
    (Return (sent self tc r),
     log w [EvSend (channel_id (event tc)) r (Some e0); EvSleep 1; EvSend (channel_id (event tc)) r None]).
Proof.
  intros H0 H1. enter_loop Hpre. attempt H0. attempt H1. reflexivity.
Qed.

Lemma process_third_try e0 e1 :
  send_outcome env bot (delivery_calls (trace w)) (channel_id (event tc)) r = Some e0 →
  send_outcome env bot (delivery_calls (trace w) + 1) (channel_id (event tc)) r = Some e1 →
  send_outcome env bot (delivery_calls (trace w) + 2) (channel_id (event tc)) r = None →
  process env self tc w =
    (Return (sent self tc r),
     log w [EvSend (channel_id (event tc)) r (Some e0); EvSleep 1; EvSend (channel_id (event tc)) r (Some e1); EvSleep 2;
            EvSend (channel_id (event tc)) r None]).
Proof.
  intros H0 H1 H2. enter_loop Hpre. attempt H0. attempt H1. attempt H2.
  reflexivity.
Qed.

Lemma process_exhausted e0 e1 e2 :
  send_outcome env bot (delivery_calls (trace w)) (channel_id (event tc)) r = Some e0 →
  send_outcome env bot (delivery_calls (trace w) + 1) (channel_id (event tc)) r = Some e1 →
  send_outcome env bot (delivery_calls (trace w) + 2) (channel_id (event tc)) r = Some e2 →
  process env self tc w =
    (Return (record_result self tc
               (failure (lit "Failed to send message after 3 attempts. Last error: "
                         ++ lit "Failed to send message: " ++ e2))),
     log w [EvSend (channel_id (event tc)) r (Some e0); EvSleep 1; EvSend (channel_id (event tc)) r (Some e1); EvSleep 2;
            EvSend (channel_id (event tc)) r (Some e2)]).
Proof.
  intros H0 H1 H2. enter_loop Hpre. attempt H0. attempt H1. attempt H2.
  reflexivity.
Qed.
End SendReplyRuns.

(** ** A rule for [for_each] loops whose body catches its exceptions *)

Section LoopRule.
Context {X S R : Type} (body : X → S → M world (S + R)).
Context (Inv : nat → world → Prop) (Fin : nat → R → world → Prop).

Hypothesis Fin_mono : ∀ n r w, Fin n r w → Fin (Datatypes.S n) r w.
Hypothesis body_ok : ∀ n x s w, Inv n w → loop_post Inv Fin (Datatypes.S n) (body x s w).

Lemma for_each_rule (xs : list X) :
  ∀ n s w, Inv n w → loop_post Inv Fin (n + length xs) (for_each xs body s w).
Proof.
  induction xs as [|x xs IH]; intros n s w HI; simpl.
  - by rewrite Nat.add_0_r.
  - unfold bind. pose proof (body_ok n x s w HI) as Hb.
    destruct (body x s w) as [[[s'|r]|e] w']; simpl in Hb; [| |done].
    + rewrite <- Nat.add_succ_comm. by apply IH.
    + unfold ret. simpl.
      clear -Fin_mono Hb. induction (length xs) as [|k IHk].
      * by rewrite Nat.add_1_r.
      * rewrite Nat.add_succ_r. by apply Fin_mono.
Qed.
End LoopRule.

Local Opaque for_each.

(** What [process] guarantees on every input. *)
Lemma process_always env self tc w :
  ∃ r w', process env self tc w = (Return (record_result self tc r), w') ∧
          (delivery_calls (trace w') ≤ delivery_calls (trace w) + 3)%nat.
Proof.
  unfold process, try_except at 1.
  match goal with |- context [match ?b w with _ => _ end] => set (body := b) end.
  assert (Hbody : match body w with
                  | (Return tc', w') => (∃ r, tc' = record_result self tc r) ∧
                      (delivery_calls (trace w') ≤ delivery_calls (trace w) + 3)%nat
                  | (Raise _, w') => w' = w
                  end).
  { subst body. unfold mbind, M_bind, bind, when, raise, get_response_model,
      get_intent, get_response.
    repeat (case_bool_decide; simpl; [done|]).
    destruct (nodes tc !! lit "AnalyzeMessage") as [[[[a| |]|] ?]|]; simpl; try done.
    case_bool_decide; simpl; [split; [eauto|lia]|].
    destruct (nodes tc !! lit "GenerateResponse") as [[[[|g|]|] ?]|]; simpl; try done.
    rewrite blank_check. destruct (is_blank _); simpl; [split; [eauto|lia]|].
    destruct (SendReply.discord_bot self) as [bot|]; simpl; [|split; [eauto|lia]].
    match goal with |- context [for_each ?xs ?b ?s w] =>
      set (attempts := xs); set (loop_body := b); set (s0 := s) end.
    pose (Inv := λ (n : nat) (w' : world),
            (delivery_calls (trace w') ≤ delivery_calls (trace w) + n)%nat).
    pose (Fin := λ (n : nat) (tc' : TaskContext) (w' : world),
            Inv n w' ∧ ∃ r, tc' = record_result self tc r).
    assert (Hstep : ∀ n x s w1, Inv n w1 → loop_post Inv Fin (S n) (loop_body x s w1)).
    { intros n x [d le] w1 Hn. subst loop_body Inv Fin. simpl in Hn |- *.
      unfold try_except, mbind, M_bind, bind.
      rewrite send_message_sync_run.
      destruct (send_outcome _ _ _ _ _); simpl.
      - destruct (x <? _); simpl; unfold mbind, M_bind, bind;
          rewrite ?sleep_log; simpl; rewrite ?log_log, ?calls_log;
          count_calls; lia.
      - rewrite calls_log. count_calls. split; [lia|eauto]. }
    assert (Hmono : ∀ n r w1, Fin n r w1 → Fin (S n) r w1).
    { unfold Fin, Inv. intros n r w1 [? ?]. split; [lia|done]. }
    assert (Hinit : Inv 0%nat w) by (unfold Inv; lia).
    pose proof (for_each_rule loop_body Inv Fin Hmono Hstep attempts 0%nat s0 w Hinit)
      as Hloop.
    destruct (for_each attempts loop_body s0 w) as [[[[? ?]|tc']|e] w'];
      simpl in Hloop |- *; [|destruct Hloop; tauto|done].
    split; [eauto|exact Hloop]. }
  destruct (body w) as [[tc'|e] w']; simpl.
  - destruct Hbody as [[r ->] Hle]. eauto.
  - subst w'. eexists _, _. split; [reflexivity|lia].
Qed.

Local Transparent for_each.

(** ** The gates of [process] *)

Lemma process_ignore env self tc w a rag :
  nodes tc !! lit "AnalyzeMessage" =
    Some {| out_response_model := Some (AnalyzeMessageModel a);
            out_rag_context := rag |} →
  AnalyzeMessage.intent a = AnalyzeMessage.IGNORE →
  is_Some (nodes tc !! lit "GenerateResponse") →
  process env self tc w = (Return (record_result self tc ignored), w).
Proof.
  intros Ha Hi [g Hg].
  unfold process, try_except, mbind, M_bind, bind, when,
    get_response_model, get_intent.
  rewrite Ha, Hg. simpl. by rewrite Hi.
Qed.

Lemma process_blank env self tc w i r :
  upstream_outputs tc i r → i ≠ AnalyzeMessage.IGNORE → is_blank r = true →
  process env self tc w =
    (Return (record_result self tc (failure (lit "Empty response received"))), w).
Proof.
  intros [(a & ? & Ha & Hi) (g & ? & Hg & Hr)] Hni Hb.
  unfold process, try_except, mbind, M_bind, bind, when,
    get_response_model, get_intent, get_response.
  rewrite Ha, Hg. simpl. by rewrite Hi, Hr, (intent_not_ignore _ Hni), blank_check, Hb.
Qed.

Lemma process_missing_analysis env self tc w :
  nodes tc !! lit "AnalyzeMessage" = None →
  process env self tc w =
    (Return (record_result self tc
               (failure (lit "Error in SendReply node: " ++
                         lit "AnalyzeMessage node results not found in task context"))),
     w).
Proof.
  intros Ha. unfold process, try_except, mbind, M_bind, bind, when.
  by rewrite Ha.
Qed.

Lemma process_missing_response env self tc w :
  is_Some (nodes tc !! lit "AnalyzeMessage") →
  nodes tc !! lit "GenerateResponse" = None →
  process env self tc w =
    (Return (record_result self tc
               (failure (lit "Error in SendReply node: " ++
                         lit "GenerateResponse node results not found in task context"))),
     w).
Proof.
  intros [a Ha] Hg. unfold process, try_except, mbind, M_bind, bind, when.
  by rewrite Ha, Hg.
Qed.

Lemma record_result_lookup self tc r :
  nodes (record_result self tc r) !! SendReply.node_name self =
    Some {| out_response_model := Some (SendReplyModel r); out_rag_context := None |}.
Proof. apply lookup_insert_eq. Qed.

(** ** The rotation of content types *)

Lemma value_inj (x y : Wellness.ContentType) :
  Wellness.value x = Wellness.value y → x = y.
Proof. destruct x, y; first [ reflexivity | intros H; vm_compute in H; discriminate H ]. Qed.

Lemma all_types_complete (x : Wellness.ContentType) : x ∈ Wellness.all_types.
Proof. destruct x; unfold Wellness.all_types; set_solver. Qed.

Lemma find_by_value (x : Wellness.ContentType) (l : list Wellness.ContentType) :
  x ∈ l →
  List.find (λ t, bool_decide (Wellness.value t = Wellness.value x)) l = Some x.
Proof.
  induction 1 as [x l|x y l Hin IH]; simpl.
  - by rewrite bool_decide_eq_true_2.
  - case_bool_decide as Hv; [by rewrite (value_inj _ _ Hv)|done].
Qed.



Lemma value_truthy (x : Wellness.ContentType) : truthy (Wellness.value x) = true.
Proof. by destruct x. Qed.


(** ** Runs of [post_content] *)

Lemma update_mock_total cid posted stamp w :
  ∃ b w', update_content_posted_status_mock cid posted stamp w = (Return b, w') ∧
          trace w' = trace w ∧ _discord_bot w' = _discord_bot w.
Proof.
  unfold update_content_posted_status_mock, mbind, M_bind, bind, gets. simpl.
  destruct (mark_first _ _ _ _); simpl; eauto.
Qed.


Lemma quiet_nil : quiet [].
Proof. by split. Qed.
Lemma quiet_session f : quiet [EvSession f].
Proof. by split. Qed.

Lemma update_total env cid posted stamp w :
  ∃ b w' evs, update_content_posted_status env cid posted stamp w = (Return b, w') ∧
              trace w' = trace w ++ evs ∧ quiet evs ∧
              _discord_bot w' = _discord_bot w.
Proof.
  unfold update_content_posted_status.
  destruct (DATABASE_AVAILABLE env); cbn [negb].
  - unfold try_except, update_in_session, mbind, M_bind, bind, gets.
    destruct (session_fault env _) as [e|]; rewrite emit_log.
    + cbn [raise]. unfold raise.
      destruct (update_mock_total cid posted stamp (log w [EvSession (Some e)]))
        as (b & w' & Hrun & Ht & Hb).
      rewrite Hrun.
      exists b, w', [EvSession (Some e)].
      split; [reflexivity|]. rewrite Ht, Hb, trace_log, discord_bot_log.
      split; [reflexivity|]. split; [apply quiet_session|reflexivity].
    + rewrite wellness_content_log.
      destruct (mark_first cid posted stamp (wellness_content w)) as [rows|].
      * eexists _, _, [EvSession None]. split; [reflexivity|].
        unfold set_wellness_content, modify. cbn [fst snd trace _discord_bot].
        rewrite trace_log, discord_bot_log.
        split; [reflexivity|]. split; [apply quiet_session|reflexivity].
      * eexists _, _, [EvSession None]. split; [reflexivity|].
        rewrite trace_log, discord_bot_log.
        split; [reflexivity|]. split; [apply quiet_session|reflexivity].
  - unfold mbind, M_bind, bind, gets.
    destruct (mark_first cid posted stamp (mock_content_store w)) as [rows|].
    + eexists _, _, []. split; [reflexivity|].
      unfold set_mock_content_store, modify. cbn [fst snd trace _discord_bot].
      rewrite app_nil_r. split; [reflexivity|]. split; [apply quiet_nil|reflexivity].
    + eexists _, _, []. split; [reflexivity|].
      rewrite app_nil_r. split; [reflexivity|]. split; [apply quiet_nil|reflexivity].
Qed.

Lemma int_run env s n w : python_int env s = inl n → int env s w = (Return n, w).
Proof. unfold int. by intros ->. Qed.

Ltac enter_post_loop Hpre :=
  let Hnb := fresh "Hnb" in let Ht := fresh "Ht" in let Hi := fresh "Hi" in
  let Hb := fresh "Hb" in let Hf := fresh "Hf" in let He := fresh "He" in
  destruct Hpre as (Hnb & [Ht [->|[Hf He]]] & Hi & Hb);
  unfold post_content, try_except at 1; rewrite blank_check, Hnb; simpl;
  [rewrite Ht|rewrite Hf; simpl; rewrite He; simpl; rewrite Ht]; simpl;
  unfold try_except at 1; rewrite Hb; unfold mbind, M_bind, bind; simpl;
  unfold try_except, mbind, M_bind, bind.

Ltac post_attempt Hi H :=
  rewrite (int_run _ _ _ _ Hi), send_message_sync_run, ?calls_log;
  count_calls; cbn [Nat.add]; rewrite ?Nat.add_0_r;
  rewrite H; simpl;
  unfold try_except, mbind, M_bind, bind; rewrite ?sleep_log, ?log_log; simpl;
  rewrite ?Z.mul_1_l.

Ltac finish_post env content_id :=
  unfold gets, when, marked, posted; simpl;
  destruct (truthy_opt content_id); simpl; [|reflexivity];
  unfold mbind, M_bind, bind;
  match goal with
  | |- context [update_content_posted_status env ?c ?p ?t ?w] =>
      destruct (update_total env c p t w) as (? & ? & ? & -> & _)
  end; reflexivity.

Section PostContentRuns.
Context (env : environment) (self : Wellness.t) (content : str)
        (channel_id content_id : option str) (channel : str) (target : Z)
        (bot : DiscordBot) (w : world).
Hypothesis Hpre : post_reaches_loop env self content channel_id channel target bot.

Lemma post_content_first_try :
  send_outcome env bot (delivery_calls (trace w)) target content = None →
  let w1 := log w [EvSend target content None] in
  post_content env self content channel_id content_id w =
    (Return (posted env channel content_id w1), marked env content_id w1).
Proof.
  intros H0. enter_post_loop Hpre; post_attempt Hi H0;
    finish_post env content_id.
Qed.

Lemma post_content_second_try e0 :
  send_outcome env bot (delivery_calls (trace w)) target content = Some e0 →
  send_outcome env bot (delivery_calls (trace w) + 1) target content = None →
  let w1 := log w [EvSend target content (Some e0); EvSleep 1;
                   EvSend target content None] in
  post_content env self content channel_id content_id w =
    (Return (posted env channel content_id w1), marked env content_id w1).
Proof.
  intros H0 H1. enter_post_loop Hpre; post_attempt Hi H0;
    post_attempt Hi H1; finish_post env content_id.
Qed.

Lemma post_content_third_try e0 e1 :
  send_outcome env bot (delivery_calls (trace w)) target content = Some e0 →
  send_outcome env bot (delivery_calls (trace w) + 1) target content = Some e1 →
  send_outcome env bot (delivery_calls (trace w) + 2) target content = None →
  let w1 := log w [EvSend target content (Some e0); EvSleep 1;
                   EvSend target content (Some e1); EvSleep 2;
                   EvSend target content None] in
  post_content env self content channel_id content_id w =
    (Return (posted env channel content_id w1), marked env content_id w1).
Proof.
  intros H0 H1 H2. enter_post_loop Hpre; post_attempt Hi H0;
    post_attempt Hi H1; post_attempt Hi H2; finish_post env content_id.
Qed.

Lemma post_content_exhausted e0 e1 e2 :
  send_outcome env bot (delivery_calls (trace w)) target content = Some e0 →
  send_outcome env bot (delivery_calls (trace w) + 1) target content = Some e1 →
  send_outcome env bot (delivery_calls (trace w) + 2) target content = Some e2 →
  post_content env self content channel_id content_id w =
    (Return (failed_post
               (lit "Failed to send wellness content after 3 attempts. Last error: "
                ++ lit "Failed to send message: " ++ e2) channel content_id),
     log w [EvSend target content (Some e0); EvSleep 1;
            EvSend target content (Some e1); EvSleep 2;
            EvSend target content (Some e2)]).
Proof.
  intros H0 H1 H2. enter_post_loop Hpre; post_attempt Hi H0;
    post_attempt Hi H1; post_attempt Hi H2; reflexivity.
Qed.
End PostContentRuns.

Lemma marked_trace env content_id w1 :
  ∃ evs, trace (marked env content_id w1) = trace w1 ++ evs ∧ quiet evs ∧
         _discord_bot (marked env content_id w1) = _discord_bot w1.
Proof.
  unfold marked. destruct (truthy_opt content_id).
  - destruct (update_total env (default [] content_id) true
                (Some (utcnow env (trace w1))) w1) as (b & w' & evs & -> & ? & ? & ?).
    simpl. eauto.
  - exists []. rewrite app_nil_r. by repeat split.
Qed.

Lemma marked_without_id env content_id w1 :
  truthy_opt content_id = false → marked env content_id w1 = w1.
Proof. unfold marked. by intros ->. Qed.

Local Opaque for_each.

Lemma post_outcome_failed env content content_id w msg ch cid :
  post_outcome env content content_id w (Return (failed_post msg ch cid), w).
Proof.
  eexists _, _. split; [reflexivity|]. left. split; [reflexivity|].
  exists []. rewrite log_nil. split; [reflexivity|]. rewrite delivery_calls_nil. lia.
Qed.

(** One iteration of the attempt loop of [post_content]. *)
Lemma post_attempt_step env content content_id w bot channel
    (body : Z → Z * option str → M world (Z * option str + Wellness.PostResult)) :
  body = (λ attempt '(retry_delay, last_error),
     try_except
       (target ← int env channel;
        send_message_sync env bot target content;;
        tr ← gets trace;
        let posted_at := utcnow env tr in
        when (truthy_opt content_id)
          (update_content_posted_status env (default [] content_id) true
             (Some posted_at);; mret tt);;
        mret (inr {| Wellness.success := true;
                     Wellness.error_message := None;
                     Wellness.channel_id := channel;
                     Wellness.content_id := content_id;
                     Wellness.posted_at := Some posted_at |}))
       (λ e,
          let last_error := Some (str_of_exn e) in
          if attempt <? 3 - 1 then
            sleep retry_delay;; mret (inl (retry_delay * 2, last_error))
          else mret (inl (retry_delay, last_error)))) →
  ∀ n x s w1,
    (∃ evs, w1 = log w evs ∧ (delivery_calls evs ≤ n)%nat) →
    loop_post
      (λ n w1, ∃ evs, w1 = log w evs ∧ (delivery_calls evs ≤ n)%nat)
      (λ n r w', Wellness.success r = true ∧
         ∃ pre target, w' = marked env content_id
                              (log w (pre ++ [EvSend target content None])) ∧
                       (delivery_calls pre < n)%nat)
      (S n) (body x s w1).
Proof.
  intros -> n x [d le] w1 (evs & -> & Hn). simpl.
  unfold try_except, mbind, M_bind, bind, int.
  destruct (python_int env channel) as [target|msg]; simpl.
  - rewrite send_message_sync_run.
    destruct (send_outcome _ _ _ _ _) as [e|]; simpl.
    + destruct (x <? _); simpl; unfold mbind, M_bind, bind;
        rewrite ?sleep_log; simpl; rewrite ?log_log;
        eexists; (split; [reflexivity|]); count_calls; lia.
    + rewrite log_log. unfold gets, when. simpl.
      destruct (truthy_opt content_id) eqn:Hcid; simpl.
      * unfold mbind, M_bind, bind.
        match goal with
        | |- context [update_content_posted_status env ?c ?p ?t ?w1] =>
            destruct (update_total env c p t w1) as (b & w2 & ? & Hup & _)
        end.
        rewrite trace_log in Hup |- *. rewrite Hup. simpl.
        split; [reflexivity|].
        exists evs, target. split; [|lia].
        unfold marked. by rewrite Hcid, trace_log, Hup.
      * split; [reflexivity|]. exists evs, target. split; [|lia].
        by rewrite marked_without_id.
  - unfold raise. simpl.
    destruct (x <? _); simpl; unfold mbind, M_bind, bind;
      rewrite ?sleep_log; simpl; rewrite ?log_log;
      eexists; (split; [reflexivity|]); count_calls; lia.
Qed.

Lemma post_fin_mono env content content_id w n (r : Wellness.PostResult) w1 :
  (λ n r w', Wellness.success r = true ∧
     ∃ pre target, w' = marked env content_id
                          (log w (pre ++ [EvSend target content None])) ∧
                   (delivery_calls pre < n)%nat) n r w1 →
  (λ n r w', Wellness.success r = true ∧
     ∃ pre target, w' = marked env content_id
                          (log w (pre ++ [EvSend target content None])) ∧
                   (delivery_calls pre < n)%nat) (S n) r w1.
Proof.
  intros (? & pre & target & ? & ?). split; [done|].
  exists pre, target. split; [done|lia].
Qed.

Ltac post_loop_case env self content content_id w :=
  let bot := fresh "bot" in let Hloop := fresh "Hloop" in
  unfold try_except at 1;
  destruct (Wellness.discord_bot self) as [bot|]; simpl;
    [|apply post_outcome_failed];
  unfold mbind at 1, M_bind at 1, bind at 1;
  match goal with |- context [for_each ?xs ?b ?s w] =>
    pose proof (for_each_rule b _ _
      (post_fin_mono env content content_id w)
      (post_attempt_step env content content_id w bot _ b eq_refl)
      xs 0%nat s w
      (ex_intro _ [] (conj (eq_sym (log_nil w)) (Nat.le_refl 0)))) as Hloop;
    destruct (for_each xs b s w) as [[[[? ?]|?]|?] ?]; simpl in Hloop |- *
  end;
  [ destruct Hloop as (? & -> & ?);
    eexists _, _; split; [reflexivity|]; left; split; [reflexivity|]; eauto
  | eexists _, _; split; [reflexivity|]; right; exact Hloop
  | destruct Hloop ].

(** What [post_content] guarantees on every input: it returns a result;
    a failed result leaves the stored content as it was; a successful one
    comes from the state right after a delivery call that returned. *)
Lemma post_content_always env self content channel_id content_id w :
  post_outcome env content content_id w
    (post_content env self content channel_id content_id w).
Proof.
  unfold post_content, try_except at 1.
  match goal with |- context [match ?b w with _ => _ end] => set (body := b) end.
  assert (Hbody : post_outcome env content content_id w (body w)).
  { subst body. rewrite blank_check.
    destruct (is_blank content); simpl; [apply post_outcome_failed|].
    destruct (truthy_opt channel_id); simpl;
      [|destruct (truthy_opt (getenv env _)); simpl; [|apply post_outcome_failed]];
      post_loop_case env self content content_id w. }
  destruct Hbody as (r & w' & -> & H). by exists r, w'.
Qed.

Local Transparent for_each.

(** ** The shared delivery client *)

Local Transparent log emit sleep.

Lemma constructions_app a b :
  constructions (a ++ b) = (constructions a + constructions b)%nat.
Proof. unfold constructions. by rewrite filter_app, length_app. Qed.

Lemma get_discord_bot_existing env token test_mode w b :
  _discord_bot w = Some b →
  get_discord_bot env token test_mode w = (Return (Some b), w).
Proof.
  intros Hb. unfold get_discord_bot, mbind, M_bind, bind, gets.
  rewrite Hb. simpl. by rewrite ?Hb.
Qed.

Lemma get_discord_bot_no_token env test_mode w :
  _discord_bot w = None →
  get_discord_bot env None test_mode w = (Raise no_token, w).
Proof.
  intros Hb. unfold get_discord_bot, mbind, M_bind, bind, gets.
  rewrite Hb. simpl. by rewrite ?Hb.
Qed.

Lemma get_discord_bot_first env token test_mode w :
  _discord_bot w = None →
  ∃ w', get_discord_bot env (Some token) test_mode w =
          (Return (Some (new_bot env token test_mode w)), w') ∧
        _discord_bot w' = Some (new_bot env token test_mode w) ∧
        trace w' = trace w ++ [EvConstruct (constructions (trace w))] ∧
        mock_content_store w' = mock_content_store w ∧
        wellness_content w' = wellness_content w.
Proof.
  intros Hb.
  unfold get_discord_bot, DiscordBot_init, mbind, M_bind, bind, gets, new_bot.
  rewrite Hb. cbn [fst snd]. rewrite emit_log.
  destruct test_mode; eexists; (split; [reflexivity|]); by repeat split.
Qed.

Lemma run_calls_existing env calls w b :
  _discord_bot w = Some b →
  run_calls env calls w = ((λ _, Return (Some b)) <$> calls, w).
Proof.
  intros Hb. induction calls as [|[token test_mode] calls IH]; [done|].
  cbn [run_calls]. rewrite (get_discord_bot_existing _ _ _ _ _ Hb), IH. done.
Qed.

Lemma run_calls_singleton env calls :
  ∀ w, _discord_bot w = None →
    (constructions (trace (run_calls env calls w).2)
       ≤ S (constructions (trace w)))%nat ∧
    ∀ b1 b2, Return (Some b1) ∈ (run_calls env calls w).1 →
             Return (Some b2) ∈ (run_calls env calls w).1 → b1 = b2.
Proof.
  induction calls as [|[[token|] test_mode] calls IH]; intros w Hb.
  - cbn. split; [lia|]. intros b1 b2 H. by apply elem_of_nil in H.
  - destruct (get_discord_bot_first env token test_mode w Hb)
      as (w' & Hrun & Hb' & Ht & _).
    cbn [run_calls]. rewrite Hrun, (run_calls_existing _ _ _ _ Hb'). cbn [fst snd].
    rewrite Ht, constructions_app.
    change (constructions [EvConstruct _]) with 1%nat. split; [lia|].
    assert (Hall : ∀ b, Return (Some b) ∈
              Return (Some (new_bot env token test_mode w))
              :: ((λ _, Return (Some (new_bot env token test_mode w))) <$> calls) →
              b = new_bot env token test_mode w).
    { intros b [Heq|Hin]%elem_of_cons; [congruence|].
      apply list_elem_of_fmap in Hin as (? & Heq & _). congruence. }
    intros b1 b2 H1 H2. by rewrite (Hall _ H1), (Hall _ H2).
  - cbn [run_calls]. rewrite (get_discord_bot_no_token _ _ _ Hb).
    destruct (IH w Hb) as [Hc Hsame].
    destruct (run_calls env calls w) as [rs w'] eqn:Hrun. cbn [fst snd] in *.
    split; [done|].
    intros b1 b2 [Heq|H1]%elem_of_cons [Heq'|H2]%elem_of_cons; try discriminate.
    by apply Hsame.
Qed.

(** ** Delivery after transient failures *)

Lemma process_retries env self tc bot r w N :
  (N ≤ 2)%nat →
  reaches_loop self tc bot r →
  fails_then_succeeds env bot (delivery_calls (trace w)) (channel_id (event tc)) r N →
  ∃ evs, process env self tc w = (Return (sent self tc r), log w evs) ∧
         delivery_calls evs = S N ∧
         last evs = Some (EvSend (channel_id (event tc)) r None).
Proof.
  intros HN Hpre [Hfail Hok].
  destruct N as [|[|[|N]]]; [| | |lia].
  - rewrite Nat.add_0_r in Hok.
    eexists. split; [by apply (process_first_try env self tc bot r w Hpre)|done].
  - destruct (Hfail 0%nat) as [e0 H0]; [lia|]. rewrite Nat.add_0_r in H0.
    eexists. split; [by apply (process_second_try env self tc bot r w Hpre e0)|done].
  - destruct (Hfail 0%nat) as [e0 H0]; [lia|]. rewrite Nat.add_0_r in H0.
    destruct (Hfail 1%nat) as [e1 H1]; [lia|].
    eexists. split; [by apply (process_third_try env self tc bot r w Hpre e0 e1)|done].
Qed.

Lemma post_content_retries env self content channel_opt content_id channel target
    bot w N :
  (N ≤ 2)%nat →
  post_reaches_loop env self content channel_opt channel target bot →
  fails_then_succeeds env bot (delivery_calls (trace w)) target content N →
  ∃ evs, post_content env self content channel_opt content_id w =
           (Return (posted env channel content_id (log w evs)),
            marked env content_id (log w evs)) ∧
         delivery_calls evs = S N ∧
         last evs = Some (EvSend target content None).
Proof.
  intros HN Hpre [Hfail Hok].
  destruct N as [|[|[|N]]]; [| | |lia].
  - rewrite Nat.add_0_r in Hok.
    eexists. split; [by apply (post_content_first_try env self content channel_opt
                                 content_id channel target bot w Hpre)|done].
  - destruct (Hfail 0%nat) as [e0 H0]; [lia|]. rewrite Nat.add_0_r in H0.
    eexists. split; [by apply (post_content_second_try env self content channel_opt
                                 content_id channel target bot w Hpre e0)|done].
  - destruct (Hfail 0%nat) as [e0 H0]; [lia|]. rewrite Nat.add_0_r in H0.
    destruct (Hfail 1%nat) as [e1 H1]; [lia|].
    eexists. split; [by apply (post_content_third_try env self content channel_opt
                                 content_id channel target bot w Hpre e0 e1)|done].
Qed.

Lemma marked_calls env content_id w1 :
  delivery_calls (trace (marked env content_id w1)) = delivery_calls (trace w1).
Proof.
  destruct (marked_trace env content_id w1) as (evs & -> & [Hq _] & _).
  rewrite delivery_calls_app, Hq. lia.
Qed.

Lemma process_calls_bound env self tc w :
  (delivery_calls (trace (process env self tc w).2) ≤ delivery_calls (trace w) + 3)%nat.
Proof. by destruct (process_always env self tc w) as (r & w' & -> & Hle). Qed.

Lemma post_content_calls_bound env self content channel_opt content_id w :
  (delivery_calls (trace (post_content env self content channel_opt content_id w).2)
     ≤ delivery_calls (trace w) + 3)%nat.
Proof.
  destruct (post_content_always env self content channel_opt content_id w)
    as (r & w' & -> & [(_ & evs & -> & Hle)|(_ & pre & target & -> & Hlt)]);
    cbn [snd].
  - rewrite calls_log. lia.
  - rewrite marked_calls, calls_log. count_calls. lia.
Qed.

Lemma record_result_records self tc res :
  records self tc (record_result self tc res) res.
Proof.
  split; [done|]. split; [apply lookup_insert_eq|].
  intros name Hname. by apply lookup_insert_ne.
Qed.

Lemma failure_failed_with msg : failed_with msg (failure msg).
Proof. by repeat split. Qed.

Lemma failed_post_failed_with msg channel content_id :
  post_failed_with msg channel content_id (failed_post msg channel content_id).
Proof. by repeat split. Qed.

Lemma process_no_client env self tc w i r :
  upstream_outputs tc i r →
  i ≠ AnalyzeMessage.IGNORE →
  is_blank r = false →
  SendReply.discord_bot self = None →
  process env self tc w =
    (Return (record_result self tc (failure (lit "Discord bot not initialized"))), w).
Proof.
  intros [(a & ? & Ha & Hi) (g & ? & Hg & Hr)] Hni Hb Hbot.
  unfold process, try_except, mbind, M_bind, bind, when,
    get_response_model, get_intent, get_response.
  rewrite Ha, Hg. simpl.
  by rewrite Hi, Hr, (intent_not_ignore _ Hni), blank_check, Hb, Hbot.
Qed.

(** The verdict of [process]: the handler of the outer [try] answers; or
    the "ignore" gate; or, both upstream outputs being readable, one of
    the two later gates; or the attempt loop is reached. *)
Lemma process_verdict env self tc w :
  (∃ e, process env self tc w =
          (Return (record_result self tc
                     (failure (lit "Error in SendReply node: " ++ str_of_exn e))), w) ∧
        ((∀ a rag, nodes tc !! lit "AnalyzeMessage" ≠
            Some {| out_response_model := Some (AnalyzeMessageModel a);
                    out_rag_context := rag |}) ∨
         (∀ g rag, nodes tc !! lit "GenerateResponse" ≠
            Some {| out_response_model := Some (GenerateResponseModel g);
                    out_rag_context := rag |}))) ∨
  (∃ a rag, nodes tc !! lit "AnalyzeMessage" =
              Some {| out_response_model := Some (AnalyzeMessageModel a);
                      out_rag_context := rag |} ∧
            AnalyzeMessage.intent a = AnalyzeMessage.IGNORE ∧
            is_Some (nodes tc !! lit "GenerateResponse") ∧
            process env self tc w = (Return (record_result self tc ignored), w)) ∨
  (∃ i r msg, upstream_outputs tc i r ∧ i ≠ AnalyzeMessage.IGNORE ∧
              process env self tc w =
                (Return (record_result self tc (failure msg)), w)) ∨
  (∃ bot, reaches_loop self tc bot (reply_of tc)).
Proof.
  destruct (nodes tc !! lit "AnalyzeMessage") as [[ma ra]|] eqn:Ha.
  2:{ left. exists (Exn ValueError
                     (lit "AnalyzeMessage node results not found in task context")).
      split; [by apply process_missing_analysis|]. left. by intros a rag. }
  destruct (nodes tc !! lit "GenerateResponse") as [[mg rg]|] eqn:Hg.
  2:{ left. exists (Exn ValueError
                     (lit "GenerateResponse node results not found in task context")).
      split; [apply process_missing_response; [by rewrite Ha|done]|].
      right. by intros g rag. }
  destruct ma as [[a|g'|s']|].
  2,3: left;
       exists (Exn AttributeError
                 (lit "'ResponseModel' object has no attribute 'intent'"));
       (split; [|left; by intros a rag]);
       unfold process, try_except, mbind, M_bind, bind, when,
         get_response_model, get_intent;
       by rewrite Ha, Hg.
  2:{ left. exists (Exn KeyError (lit "response_model")).
      split; [|left; by intros a rag].
      unfold process, try_except, mbind, M_bind, bind, when, get_response_model.
      by rewrite Ha, Hg. }
  destruct (decide (AnalyzeMessage.intent a = AnalyzeMessage.IGNORE)) as [Hi|Hni].
  { right. left. exists a, ra. split; [done|]. split; [done|]. split; [by eexists|].
    apply (process_ignore env self tc w a ra Ha Hi). by rewrite Hg. }
  destruct mg as [[a'|g|s']|].
  1,3: left;
       exists (Exn AttributeError
                 (lit "'ResponseModel' object has no attribute 'response'"));
       (split; [|right; by intros g rag]);
       unfold process, try_except, mbind, M_bind, bind, when,
         get_response_model, get_intent, get_response;
       rewrite Ha, Hg; simpl; by rewrite (intent_not_ignore _ Hni).
  2:{ left. exists (Exn KeyError (lit "response_model")).
      split; [|right; by intros g rag].
      unfold process, try_except, mbind, M_bind, bind, when,
        get_response_model, get_intent.
      rewrite Ha, Hg. simpl. by rewrite (intent_not_ignore _ Hni). }
  assert (Hin : upstream_outputs tc (AnalyzeMessage.intent a)
                  (GenerateResponse.response g)) by (split; eauto).
  assert (Hr : reply_of tc = GenerateResponse.response g)
    by (unfold reply_of; by rewrite Hg).
  destruct (is_blank (GenerateResponse.response g)) eqn:Hb.
  { right. right. left. eexists _, _, _. split; [exact Hin|]. split; [done|].
    by apply (process_blank env self tc w _ _ Hin). }
  destruct (SendReply.discord_bot self) as [bot|] eqn:Hbot.
  - do 3 right. exists bot. rewrite Hr. split; [eauto|done].
  - right. right. left. eexists _, _, _. split; [exact Hin|]. split; [done|].
    by apply (process_no_client env self tc w _ _ Hin).
Qed.

(** The course of [process] once the attempt loop is reached. *)
Lemma process_loop_courses env self tc bot r w :
  reaches_loop self tc bot r →
  (∃ pre, process env self tc w =
            (Return (sent self tc r),
             log w (pre ++ [EvSend (channel_id (event tc)) r None])) ∧
          (pre = [] ∨
           (∃ e0, pre = [EvSend (channel_id (event tc)) r (Some e0); EvSleep 1]) ∨
           (∃ e0 e1, pre = [EvSend (channel_id (event tc)) r (Some e0); EvSleep 1;
                            EvSend (channel_id (event tc)) r (Some e1); EvSleep 2]))) ∨
  (∃ e0 e1 e2,
     process env self tc w =
       (Return (record_result self tc
                  (failure (lit "Failed to send message after 3 attempts. Last error: "
                            ++ lit "Failed to send message: " ++ e2))),
        log w [EvSend (channel_id (event tc)) r (Some e0); EvSleep 1;
               EvSend (channel_id (event tc)) r (Some e1); EvSleep 2;
               EvSend (channel_id (event tc)) r (Some e2)])).
Proof.
  intros Hpre.
  destruct (send_outcome env bot (delivery_calls (trace w)) (channel_id (event tc)) r)
    as [e0|] eqn:H0;
    [|left; exists []; split; [|by left];
      apply (process_first_try env self tc bot r w Hpre H0)].
  destruct (send_outcome env bot (delivery_calls (trace w) + 1)
              (channel_id (event tc)) r) as [e1|] eqn:H1;
    [|left; eexists; split; [|right; left; by exists e0];
      apply (process_second_try env self tc bot r w Hpre e0 H0 H1)].
  destruct (send_outcome env bot (delivery_calls (trace w) + 2)
              (channel_id (event tc)) r) as [e2|] eqn:H2.
  - right. exists e0, e1, e2.
    apply (process_exhausted env self tc bot r w Hpre e0 e1 e2 H0 H1 H2).
  - left. eexists. split; [|right; right; by exists e0, e1].
    apply (process_third_try env self tc bot r w Hpre e0 e1 H0 H1 H2).
Qed.

Lemma total_sleep_log w evs :
  total_sleep (trace (log w evs)) = total_sleep (trace w) + foldr Z.add 0 (sleeps evs).
Proof.
  unfold total_sleep. rewrite trace_log, sleeps_app.
  induction (sleeps (trace w)) as [|d ds IH]; simpl; [done|]. rewrite IH. lia.
Qed.

Lemma stores_log w evs : stores (log w evs) = stores w.
Proof. reflexivity. Qed.

(** ** The claims *)

(** C1 (amended): when delivery fails on the first [N] attempts and
    succeeds on attempt [N+1], for [N] at most 2, [SendReply.process] and
    [post_content] make exactly [N+1] delivery calls, the last of their
    effects on the channel being the call that succeeded.  The result of
    [process] has [success = true] and carries the delivered reply and the
    channel of the event; the result of [post_content] has
    [success = true] and carries the channel, the content id and the time
    of posting.  On no input does either of them make more than three
    delivery calls. *)
Theorem delivery_succeeds_after_transient_failures
    (env : environment) (N : nat)
    (self : SendReply.t) (tc : TaskContext) (bot : DiscordBot) (r : str) (w : world)
    (manager : Wellness.t) (content : str) (channel_opt content_id : option str)
    (channel : str) (target : Z) (bot' : DiscordBot) (w2 : world) :
  (N ≤ 2)%nat →
  reaches_loop self tc bot r →
  fails_then_succeeds env bot (delivery_calls (trace w)) (channel_id (event tc)) r N →
  post_reaches_loop env manager content channel_opt channel target bot' →
  fails_then_succeeds env bot' (delivery_calls (trace w2)) target content N →
  (∃ evs,
     process env self tc w = (Return (sent self tc r), log w evs) ∧
     delivery_calls evs = S N ∧
     last evs = Some (EvSend (channel_id (event tc)) r None) ∧
     nodes (sent self tc r) !! SendReply.node_name self
       = Some (recorded (delivered tc r)) ∧
     SendReply.success (delivered tc r) = true ∧
     SendReply.message_sent (delivered tc r) = Some r ∧
     SendReply.channel_id (delivered tc r) = Some (channel_id (event tc))) ∧
  (∃ evs,
     post_content env manager content channel_opt content_id w2
       = (Return (posted env channel content_id (log w2 evs)),
          marked env content_id (log w2 evs)) ∧
     delivery_calls evs = S N ∧
     last evs = Some (EvSend target content None) ∧
     delivery_calls (trace (marked env content_id (log w2 evs)))
       = (delivery_calls (trace w2) + S N)%nat ∧
     Wellness.success (posted env channel content_id (log w2 evs)) = true ∧
     Wellness.channel_id (posted env channel content_id (log w2 evs)) = channel ∧
     Wellness.content_id (posted env channel content_id (log w2 evs)) = content_id) ∧
  (∀ self tc w,
     (delivery_calls (trace (process env self tc w).2)
        ≤ delivery_calls (trace w) + 3)%nat) ∧
  (∀ manager content channel_opt content_id w,
     (delivery_calls
        (trace (post_content env manager content channel_opt content_id w).2)
        ≤ delivery_calls (trace w) + 3)%nat).
Proof.
  intros HN Hpre Hout Hpre' Hout'. split; [|split; [|split]].
  - destruct (process_retries env self tc bot r w N HN Hpre Hout)
      as (evs & Hrun & Hn & Hlast).
    exists evs. repeat split; try done. apply record_result_lookup.
  - destruct (post_content_retries env manager content channel_opt content_id
                channel target bot' w2 N HN Hpre' Hout') as (evs & Hrun & Hn & Hlast).
    exists evs. repeat split; try done.
    by rewrite marked_calls, calls_log, Hn.
  - apply process_calls_bound.
  - apply post_content_calls_bound.
Qed.

(** C2: when the three attempts of a run fail, [SendReply.process] and
    [post_content] make exactly three delivery calls, sleep 1 unit after
    the first failure and 2 units after the second and do not sleep after
    the third, and return, without raising, a result with
    [success = false] whose message ends with the error of the third
    call; [process] records it under the name of the node. *)
Theorem delivery_gives_up_after_three_failures
    (env : environment)
    (self : SendReply.t) (tc : TaskContext) (bot : DiscordBot) (r : str) (w : world)
    (e0 e1 e2 : str)
    (manager : Wellness.t) (content : str) (channel_opt content_id : option str)
    (channel : str) (target : Z) (bot' : DiscordBot) (w2 : world)
    (e0' e1' e2' : str) :
  reaches_loop self tc bot r →
  send_outcome env bot (delivery_calls (trace w)) (channel_id (event tc)) r
    = Some e0 →
  send_outcome env bot (delivery_calls (trace w) + 1) (channel_id (event tc)) r
    = Some e1 →
  send_outcome env bot (delivery_calls (trace w) + 2) (channel_id (event tc)) r
    = Some e2 →
  post_reaches_loop env manager content channel_opt channel target bot' →
  send_outcome env bot' (delivery_calls (trace w2)) target content = Some e0' →
  send_outcome env bot' (delivery_calls (trace w2) + 1) target content = Some e1' →
  send_outcome env bot' (delivery_calls (trace w2) + 2) target content = Some e2' →
  (∃ (tc' : TaskContext) (res : SendReply.ResponseModel),
     process env self tc w =
       (Return tc',
        log w [EvSend (channel_id (event tc)) r (Some e0); EvSleep 1;
               EvSend (channel_id (event tc)) r (Some e1); EvSleep 2;
               EvSend (channel_id (event tc)) r (Some e2)]) ∧
     tc' = record_result self tc res ∧
     records self tc tc' res ∧
     failed_with (lit "Failed to send message after 3 attempts. Last error: "
                  ++ lit "Failed to send message: " ++ e2) res) ∧
  (∃ (res : Wellness.PostResult),
     post_content env manager content channel_opt content_id w2 =
       (Return res,
        log w2 [EvSend target content (Some e0'); EvSleep 1;
                EvSend target content (Some e1'); EvSleep 2;
                EvSend target content (Some e2')]) ∧
     post_failed_with
       (lit "Failed to send wellness content after 3 attempts. Last error: "
        ++ lit "Failed to send message: " ++ e2') channel content_id res).
Proof.
  intros Hpre H0 H1 H2 Hpre' H0' H1' H2'. split.
  - eexists _, _.
    split; [by apply (process_exhausted env self tc bot r w Hpre e0 e1 e2)|].
    split; [reflexivity|].
    split; [apply record_result_records|apply failure_failed_with].
  - eexists.
    split; [by apply (post_content_exhausted env manager content channel_opt
                        content_id channel target bot' w2 Hpre' e0' e1' e2')|].
    apply failed_post_failed_with.
Qed.

(** C3 (amended): for every context that holds an [AnalyzeMessage] entry
    with intent "ignore" and also holds a [GenerateResponse] entry,
    [SendReply.process] makes no delivery call and records under its own
    node name a result with [success = true] and the message
    "Message ignored as per intent". *)
Theorem ignored_messages_are_not_delivered
    (env : environment) (self : SendReply.t) (tc : TaskContext) (w : world)
    (a : AnalyzeMessage.ResponseModel) (rag : option (list str)) :
  nodes tc !! lit "AnalyzeMessage" =
    Some {| out_response_model := Some (AnalyzeMessageModel a);
            out_rag_context := rag |} →
  AnalyzeMessage.intent a = AnalyzeMessage.IGNORE →
  is_Some (nodes tc !! lit "GenerateResponse") →
  process env self tc w = (Return (record_result self tc ignored), w) ∧
  nodes (record_result self tc ignored) !! SendReply.node_name self
    = Some (recorded ignored) ∧
  SendReply.success ignored = true ∧
  SendReply.error_message ignored = Some (lit "Message ignored as per intent").
Proof.
  intros Ha Hi Hg. split; [by apply (process_ignore env self tc w a rag)|].
  split; [apply record_result_lookup|done].
Qed.

(** C4: for every context whose [GenerateResponse] entry holds a reply
    that is empty or made of whitespace only, the intent not being
    "ignore", [SendReply.process] makes no delivery call and records a
    result with [success = false] and the message
    "Empty response received". *)
Theorem blank_replies_are_not_delivered
    (env : environment) (self : SendReply.t) (tc : TaskContext) (w : world)
    (i : AnalyzeMessage.MessageIntent) (r : str) :
  upstream_outputs tc i r →
  i ≠ AnalyzeMessage.IGNORE →
  is_blank r = true →
  process env self tc w =
    (Return (record_result self tc (failure (lit "Empty response received"))), w) ∧
  nodes (record_result self tc (failure (lit "Empty response received")))
    !! SendReply.node_name self
    = Some (recorded (failure (lit "Empty response received"))) ∧
  SendReply.success (failure (lit "Empty response received")) = false ∧
  SendReply.error_message (failure (lit "Empty response received"))
    = Some (lit "Empty response received") ∧
  records self tc
    (record_result self tc (failure (lit "Empty response received")))
    (failure (lit "Empty response received")) ∧
  failed_with (lit "Empty response received")
    (failure (lit "Empty response received")).
Proof.
  intros Hin Hni Hblank. split; [by apply (process_blank env self tc w i r)|].
  split; [apply record_result_lookup|]. split; [done|]. split; [done|].
  split; [apply record_result_records|apply failure_failed_with].
Qed.

(** C5 (amended): for every context without an [AnalyzeMessage] entry or
    without a [GenerateResponse] entry, [SendReply.process] raises
    nothing: it makes no delivery call and returns the context with a
    result recorded under its own node name that has [success = false]
    and the message "Error in SendReply node: ... node results not found
    in task context", naming the missing entry. *)
Theorem missing_upstream_output_is_recorded
    (env : environment) (self : SendReply.t) (tc : TaskContext) (w : world) :
  nodes tc !! lit "AnalyzeMessage" = None ∨
  nodes tc !! lit "GenerateResponse" = None →
  ∃ (missing : str) (tc' : TaskContext) (res : SendReply.ResponseModel),
    missing ∈ [lit "AnalyzeMessage"; lit "GenerateResponse"] ∧
    nodes tc !! missing = None ∧
    process env self tc w = (Return tc', w) ∧
    tc' = record_result self tc res ∧
    records self tc tc' res ∧
    nodes tc' !! SendReply.node_name self = Some (recorded res) ∧
    SendReply.success res = false ∧
    SendReply.error_message res =
      Some (lit "Error in SendReply node: " ++ missing ++
            lit " node results not found in task context") ∧
    failed_with (lit "Error in SendReply node: " ++ missing ++
                 lit " node results not found in task context") res.
Proof.
  intros Hmiss.
  destruct (nodes tc !! lit "AnalyzeMessage") as [a|] eqn:Ha.
  - destruct Hmiss as [?|Hg]; [done|].
    exists (lit "GenerateResponse"). eexists _, _.
    split; [apply list_elem_of_further, list_elem_of_here|]. split; [done|].
    split; [apply process_missing_response; [by rewrite Ha|done]|].
    split; [reflexivity|]. split; [apply record_result_records|].
    split; [apply record_result_lookup|]. split; [done|]. split; [done|].
    apply failure_failed_with.
  - exists (lit "AnalyzeMessage"). eexists _, _.
    split; [apply list_elem_of_here|]. split; [done|].
    split; [by apply process_missing_analysis|].
    split; [reflexivity|]. split; [apply record_result_records|].
    split; [apply record_result_lookup|]. split; [done|]. split; [done|].
    apply failure_failed_with.
Qed.

(** C6 (amended): in a run whose three attempts fail, the retry loop of
    [SendReply.process] and of [post_content] sleeps twice, between the
    attempts: 1 unit after the first failure and 2 units after the
    second, the interval doubling from 1, and not after the third; 3
    units in total. *)
Theorem backoff_sleeps_three_units
    (env : environment)
    (self : SendReply.t) (tc : TaskContext) (bot : DiscordBot) (r : str) (w : world)
    (e0 e1 e2 : str)
    (manager : Wellness.t) (content : str) (channel_opt content_id : option str)
    (channel : str) (target : Z) (bot' : DiscordBot) (w2 : world)
    (e0' e1' e2' : str) :
  reaches_loop self tc bot r →
  send_outcome env bot (delivery_calls (trace w)) (channel_id (event tc)) r
    = Some e0 →
  send_outcome env bot (delivery_calls (trace w) + 1) (channel_id (event tc)) r
    = Some e1 →
  send_outcome env bot (delivery_calls (trace w) + 2) (channel_id (event tc)) r
    = Some e2 →
  post_reaches_loop env manager content channel_opt channel target bot' →
  send_outcome env bot' (delivery_calls (trace w2)) target content = Some e0' →
  send_outcome env bot' (delivery_calls (trace w2) + 1) target content = Some e1' →
  send_outcome env bot' (delivery_calls (trace w2) + 2) target content = Some e2' →
  (trace (process env self tc w).2
     = trace w ++ [EvSend (channel_id (event tc)) r (Some e0); EvSleep 1;
                   EvSend (channel_id (event tc)) r (Some e1); EvSleep (1 * 2);
                   EvSend (channel_id (event tc)) r (Some e2)] ∧
   sleeps (trace (process env self tc w).2) = sleeps (trace w) ++ [1; 1 * 2] ∧
   total_sleep (trace (process env self tc w).2) = total_sleep (trace w) + 3) ∧
  (trace (post_content env manager content channel_opt content_id w2).2
     = trace w2 ++ [EvSend target content (Some e0'); EvSleep 1;
                    EvSend target content (Some e1'); EvSleep (1 * 2);
                    EvSend target content (Some e2')] ∧
   sleeps (trace (post_content env manager content channel_opt content_id w2).2)
     = sleeps (trace w2) ++ [1; 1 * 2] ∧
   total_sleep (trace (post_content env manager content channel_opt content_id w2).2)
     = total_sleep (trace w2) + 3).
Proof.
  intros Hpre H0 H1 H2 Hpre' H0' H1' H2'.
  rewrite (process_exhausted env self tc bot r w Hpre e0 e1 e2 H0 H1 H2).
  rewrite (post_content_exhausted env manager content channel_opt content_id
             channel target bot' w2 Hpre' e0' e1' e2' H0' H1' H2').
  cbn [snd]. rewrite !total_sleep_log, !trace_log, !sleeps_app. done.
Qed.


(** C8: [get_discord_bot] keeps one client for the process.  While none
    exists, a call without a token raises [ValueError] and constructs
    nothing, and a call with a token constructs the client and stores it;
    once one exists, every call returns it whatever its arguments and
    constructs nothing.  So over any sequence of calls at most one client
    is constructed, and all the calls that return give the same one. *)
Theorem get_discord_bot_is_a_singleton (env : environment) :
  (∀ test_mode w,
     _discord_bot w = None →
     get_discord_bot env None test_mode w = (Raise no_token, w)) ∧
  (∀ token test_mode w,
     _discord_bot w = None →
     ∃ w', get_discord_bot env (Some token) test_mode w
             = (Return (Some (new_bot env token test_mode w)), w') ∧
           _discord_bot w' = Some (new_bot env token test_mode w) ∧
           constructions (trace w') = S (constructions (trace w))) ∧
  (∀ token test_mode w b,
     _discord_bot w = Some b →
     get_discord_bot env token test_mode w = (Return (Some b), w)) ∧
  (∀ calls w,
     _discord_bot w = None →
     (constructions (trace (run_calls env calls w).2)
        ≤ S (constructions (trace w)))%nat ∧
     ∀ b1 b2, Return (Some b1) ∈ (run_calls env calls w).1 →
              Return (Some b2) ∈ (run_calls env calls w).1 → b1 = b2).
Proof.
  split; [|split; [|split]].
  - intros. by apply get_discord_bot_no_token.
  - intros token test_mode w Hnone.
    destruct (get_discord_bot_first env token test_mode w Hnone)
      as (w' & Hrun & Hb & Ht & _).
    exists w'. split; [done|]. split; [done|].
    rewrite Ht, constructions_app.
    change (constructions [EvConstruct _]) with 1%nat. lia.
  - intros. by apply get_discord_bot_existing.
  - intros calls w Hnone. by apply run_calls_singleton.
Qed.

(** C9: on every context, in every state and for every behaviour of the
    delivery capability, [SendReply.process] returns a context and raises
    nothing; the context returned is the given one with a result recorded
    under the node's own name, which has its success flag.  Every
    exception raised inside is turned into a result with
    [success = false]: when an upstream entry is missing, when the
    analysis cannot be read ([KeyError], [AttributeError]), and when the
    intent is not "ignore" and the reply cannot be read, the message
    being "Error in SendReply node: " followed by the text of the
    exception, with no delivery call.  The flag is true in two cases
    only: the "ignore" gate, and a delivery call that returned, which is
    then the last effect of the run. *)
Theorem process_is_total
    (env : environment) (self : SendReply.t) (tc : TaskContext) (w : world) :
  ∃ (r : SendReply.ResponseModel) (w' : world),
    process env self tc w = (Return (record_result self tc r), w') ∧
    nodes (record_result self tc r) !! SendReply.node_name self
      = Some (recorded r) ∧
    (nodes tc !! lit "AnalyzeMessage" = None ∨
     nodes tc !! lit "GenerateResponse" = None →
     SendReply.success r = false) ∧
    records self tc (record_result self tc r) r ∧
    ((∀ a rag, nodes tc !! lit "AnalyzeMessage" ≠
         Some {| out_response_model := Some (AnalyzeMessageModel a);
                 out_rag_context := rag |}) →
     w' = w ∧
     ∃ e, failed_with (lit "Error in SendReply node: " ++ str_of_exn e) r) ∧
    ((∃ a rag, nodes tc !! lit "AnalyzeMessage" =
         Some {| out_response_model := Some (AnalyzeMessageModel a);
                 out_rag_context := rag |} ∧
         AnalyzeMessage.intent a ≠ AnalyzeMessage.IGNORE) →
     (∀ g rag, nodes tc !! lit "GenerateResponse" ≠
         Some {| out_response_model := Some (GenerateResponseModel g);
                 out_rag_context := rag |}) →
     w' = w ∧
     ∃ e, failed_with (lit "Error in SendReply node: " ++ str_of_exn e) r) ∧
    (SendReply.success r = true →
     (r = ignored ∧ w' = w) ∨
     (r = delivered tc (reply_of tc) ∧
      ∃ pre, w' = log w (pre ++ [EvSend (channel_id (event tc)) (reply_of tc) None]))).
Proof.
  destruct (process_verdict env self tc w)
    as [(e & Hrun & Hbad)|[(a & rag & Ha & Hi & Hg & Hrun)
       |[(i & r0 & msg & Hin & Hni & Hrun)|[bot Hpre]]]].
  - eexists _, w. split; [exact Hrun|]. split; [apply record_result_lookup|].
    split; [done|]. split; [apply record_result_records|].
    split; [intros _; split; [done|]; exists e; apply failure_failed_with|].
    split; [intros _ _; split; [done|]; exists e; apply failure_failed_with|].
    simpl. discriminate.
  - eexists _, w. split; [exact Hrun|]. split; [apply record_result_lookup|].
    split; [intros [Hn|Hn]; [congruence|by rewrite Hn in Hg; destruct Hg]|].
    split; [apply record_result_records|].
    split; [intros Hno; by destruct (Hno a rag)|].
    split; [intros (a' & rag' & Ha' & Hni) _; congruence|].
    intros _. by left.
  - destruct Hin as [(a & rag & Ha & Hi) (g & rag' & Hg & Hr)].
    eexists _, w. split; [exact Hrun|]. split; [apply record_result_lookup|].
    split; [intros [Hn|Hn]; congruence|].
    split; [apply record_result_records|].
    split; [intros Hno; by destruct (Hno a rag)|].
    split; [intros _ Hno; by destruct (Hno g rag')|].
    simpl. discriminate.
  - pose proof Hpre as ((i & [(a & rag & Ha & Hi) (g & rag' & Hg & Hr)] & Hni) & _).
    destruct (process_loop_courses env self tc bot (reply_of tc) w Hpre)
      as [(pre & Hrun & _)|(e0 & e1 & e2 & Hrun)].
    + eexists _, _. split; [exact Hrun|]. split; [apply record_result_lookup|].
      split; [intros [Hn|Hn]; congruence|].
      split; [apply record_result_records|].
      split; [intros Hno; by destruct (Hno a rag)|].
      split; [intros _ Hno; by destruct (Hno g rag')|].
      intros _. right. split; [done|]. by exists pre.
    + eexists _, _. split; [exact Hrun|]. split; [apply record_result_lookup|].
      split; [intros [Hn|Hn]; congruence|].
      split; [apply record_result_records|].
      split; [intros Hno; by destruct (Hno a rag)|].
      split; [intros _ Hno; by destruct (Hno g rag')|].
      simpl. discriminate.
Qed.

(** C10: every run of [post_content] returns a result, and the stored
    content changes only through the marking step that follows a delivery
    call which returned in that run: when the result has
    [success = false] the stored content is as before; when no content id
    is given the stored content is as before; and when the result has
    [success = true] the final state is the one the marking step
    ([update_content_posted_status] with the flag true and the time of
    posting) yields from the state right after the successful call. *)
Theorem content_is_marked_only_after_delivery
    (env : environment) (self : Wellness.t) (content : str)
    (channel_opt content_id : option str) (w : world) :
  ∃ (r : Wellness.PostResult) (w' : world),
    post_content env self content channel_opt content_id w = (Return r, w') ∧
    (Wellness.success r = false → stores w' = stores w) ∧
    (truthy_opt content_id = false → stores w' = stores w) ∧
    (Wellness.success r = true →
     ∃ pre target,
       w' = marked env content_id (log w (pre ++ [EvSend target content None])) ∧
       (delivery_calls pre < 3)%nat).
Proof.
  destruct (post_content_always env self content channel_opt content_id w)
    as (r & w' & Hrun & [(Hr & evs & -> & Hle)|(Hr & pre & target & -> & Hlt)]);
    exists r; eexists; (split; [exact Hrun|]).
  - split; [intros _; apply stores_log|]. split; [intros _; apply stores_log|].
    rewrite Hr. discriminate.
  - split; [rewrite Hr; discriminate|]. split.
    + intros Hid. rewrite (marked_without_id _ _ _ Hid). apply stores_log.
    + intros _. by exists pre, target.
Qed.

(** ** The claims on concrete inputs *)

Ltac example_reaches_loop :=
  split;
    [ exists AnalyzeMessage.BREATHWORK;
      split; [split; eexists _, _; split; reflexivity | discriminate]
    | split; reflexivity ].

Ltac example_post_reaches_loop :=
  split; [reflexivity|];
  split; [split; [reflexivity | left; reflexivity]|];
  split; reflexivity.

Ltac example_fails_once :=
  split;
    [ intros k Hk; assert (k = 0%nat) as -> by lia; vm_compute; eauto
    | reflexivity ].

(** One failure, then a delivery: two calls. *)
Lemma delivery_succeeds_after_transient_failures_witness :
  (∃ evs,
     process (Example.env 1) Example.node
       (Example.context AnalyzeMessage.BREATHWORK Example.reply) Example.start
     = (Return (sent Example.node
                  (Example.context AnalyzeMessage.BREATHWORK Example.reply)
                  Example.reply),
        log Example.start evs) ∧
     delivery_calls evs = 2%nat) ∧
  (∃ evs,
     post_content (Example.env 1) Example.manager Example.tip
       (Some (lit "123")) (Some (lit "7")) Example.start
     = (Return (posted (Example.env 1) (lit "123") (Some (lit "7"))
                  (log Example.start evs)),
        marked (Example.env 1) (Some (lit "7")) (log Example.start evs)) ∧
     delivery_calls evs = 2%nat).
Proof.
  destruct (delivery_succeeds_after_transient_failures
              (Example.env 1) 1
              Example.node (Example.context AnalyzeMessage.BREATHWORK Example.reply)
              Example.bot Example.reply Example.start
              Example.manager Example.tip (Some (lit "123")) (Some (lit "7"))
              (lit "123") 123 Example.bot Example.start)
    as ((evs & Hrun & Hn & _) & (evs' & Hrun' & Hn' & _) & _).
  - lia.
  - example_reaches_loop.
  - example_fails_once.
  - example_post_reaches_loop.
  - example_fails_once.
  - split; [exists evs | exists evs']; split; assumption.
Defined.

(** C1, as stated, fails for [post_content]: the post is delivered at
    the first attempt and the result has [success = true], but none of
    its fields holds the delivered text. *)
Lemma post_result_omits_payload :
  (post_content (Example.env 0) Example.manager Example.tip
     (Some (lit "123")) (Some (lit "7")) Example.start).1
  = Return {| Wellness.success := true;
              Wellness.error_message := None;
              Wellness.channel_id := lit "123";
              Wellness.content_id := Some (lit "7");
              Wellness.posted_at := Some 1 |} ∧
  trace (post_content (Example.env 0) Example.manager Example.tip
           (Some (lit "123")) (Some (lit "7")) Example.start).2
  = [EvSend 123 Example.tip None] ∧
  Example.tip ∉ carried_strings
                  {| Wellness.success := true;
                     Wellness.error_message := None;
                     Wellness.channel_id := lit "123";
                     Wellness.content_id := Some (lit "7");
                     Wellness.posted_at := Some 1 |}.
Proof.
  split; [by vm_compute|]. split; [by vm_compute|].
  apply (bool_decide_unpack _). by vm_compute.
Qed.

(** The first three calls fail; a fourth one would succeed. *)
Lemma delivery_gives_up_after_three_failures_witness :
  (∃ (tc' : TaskContext) (res : SendReply.ResponseModel),
     process (Example.env 3) Example.node
       (Example.context AnalyzeMessage.BREATHWORK Example.reply) Example.start =
       (Return tc',
        log Example.start
          [EvSend 77 Example.reply (Some (lit "timeout")); EvSleep 1;
           EvSend 77 Example.reply (Some (lit "timeout")); EvSleep 2;
           EvSend 77 Example.reply (Some (lit "timeout"))]) ∧
     nodes tc' !! lit "SendReply" = Some (recorded res) ∧
     SendReply.success res = false ∧
     SendReply.error_message res =
       Some (lit "Failed to send message after 3 attempts. Last error: "
             ++ lit "Failed to send message: " ++ lit "timeout")) ∧
  (∃ (res : Wellness.PostResult),
     post_content (Example.env 3) Example.manager Example.tip
       (Some (lit "123")) (Some (lit "7")) Example.start =
       (Return res,
        log Example.start
          [EvSend 123 Example.tip (Some (lit "timeout")); EvSleep 1;
           EvSend 123 Example.tip (Some (lit "timeout")); EvSleep 2;
           EvSend 123 Example.tip (Some (lit "timeout"))]) ∧
     Wellness.success res = false ∧
     Wellness.error_message res =
       Some (lit "Failed to send wellness content after 3 attempts. Last error: "
             ++ lit "Failed to send message: " ++ lit "timeout")).
Proof.
  destruct (delivery_gives_up_after_three_failures
              (Example.env 3)
              Example.node (Example.context AnalyzeMessage.BREATHWORK Example.reply)
              Example.bot Example.reply Example.start
              (lit "timeout") (lit "timeout") (lit "timeout")
              Example.manager Example.tip (Some (lit "123")) (Some (lit "7"))
              (lit "123") 123 Example.bot Example.start
              (lit "timeout") (lit "timeout") (lit "timeout"))
    as [(tc' & res & Hrun & _ & (_ & Hlook & _) & (Hs & Hm & _))
        (res' & Hrun' & (Hs' & Hm' & _))].
  - example_reaches_loop.
  - reflexivity.
  - reflexivity.
  - reflexivity.
  - example_post_reaches_loop.
  - reflexivity.
  - reflexivity.
  - reflexivity.
  - split.
    + exists tc', res. split; [exact Hrun|]. split; [exact Hlook|].
      split; [exact Hs|exact Hm].
    + exists res'. split; [exact Hrun'|]. split; [exact Hs'|exact Hm'].
Defined.

Lemma ignored_messages_are_not_delivered_witness :
  process (Example.env 0) Example.node
    (Example.context AnalyzeMessage.IGNORE Example.reply) Example.start
  = (Return (record_result Example.node
               (Example.context AnalyzeMessage.IGNORE Example.reply) ignored),
     Example.start).
Proof.
  refine (proj1 (ignored_messages_are_not_delivered
                   (Example.env 0) Example.node
                   (Example.context AnalyzeMessage.IGNORE Example.reply)
                   Example.start
                   {| AnalyzeMessage.reasoning := lit "classified";
                      AnalyzeMessage.intent := AnalyzeMessage.IGNORE;
                      AnalyzeMessage.escalate := false |}
                   None _ _ _)).
  - reflexivity.
  - reflexivity.
  - eexists. reflexivity.
Defined.

(** C3, as stated, fails on a context that holds an "ignore" analysis
    and no generated reply: the result recorded has [success = false]. *)
Lemma ignore_needs_a_generated_reply :
  nodes (Example.analysed_only AnalyzeMessage.IGNORE) !! lit "AnalyzeMessage"
  = Some (Example.analysis AnalyzeMessage.IGNORE) ∧
  process (Example.env 0) Example.node
    (Example.analysed_only AnalyzeMessage.IGNORE) Example.start
  = (Return (record_result Example.node
               (Example.analysed_only AnalyzeMessage.IGNORE)
               (failure (lit "Error in SendReply node: " ++
                         lit "GenerateResponse node results not found in task context"))),
     Example.start) ∧
  SendReply.success
    (failure (lit "Error in SendReply node: " ++
              lit "GenerateResponse node results not found in task context"))
  = false.
Proof.
  split; [reflexivity|]. split; [|reflexivity].
  apply process_missing_response; [eexists|]; reflexivity.
Qed.

Lemma blank_replies_are_not_delivered_witness :
  process (Example.env 0) Example.node
    (Example.context AnalyzeMessage.BREATHWORK (lit "   ")) Example.start
  = (Return (record_result Example.node
               (Example.context AnalyzeMessage.BREATHWORK (lit "   "))
               (failure (lit "Empty response received"))),
     Example.start).
Proof.
  refine (proj1 (blank_replies_are_not_delivered
                   (Example.env 0) Example.node
                   (Example.context AnalyzeMessage.BREATHWORK (lit "   "))
                   Example.start AnalyzeMessage.BREATHWORK (lit "   ") _ _ _)).
  - split; eexists _, _; split; reflexivity.
  - discriminate.
  - reflexivity.
Defined.

Lemma missing_upstream_output_is_recorded_witness :
  ∃ (tc' : TaskContext) (res : SendReply.ResponseModel),
    process (Example.env 0) Example.node
      (Example.analysed_only AnalyzeMessage.BREATHWORK) Example.start
    = (Return tc', Example.start) ∧
    nodes tc' !! lit "SendReply" = Some (recorded res) ∧
    SendReply.success res = false ∧
    SendReply.error_message res =
      Some (lit "Error in SendReply node: " ++ lit "GenerateResponse" ++
            lit " node results not found in task context").
Proof.
  destruct (missing_upstream_output_is_recorded
              (Example.env 0) Example.node
              (Example.analysed_only AnalyzeMessage.BREATHWORK) Example.start)
    as (missing & tc' & res & Hin & Hnone & Hrun & _ & _ & Hlook & Hs & Hm & _).
  - right. reflexivity.
  - exists tc', res. split; [exact Hrun|]. split; [exact Hlook|].
    split; [exact Hs|].
    apply elem_of_cons in Hin as [->|Hin].
    + discriminate Hnone.
    + apply list_elem_of_singleton in Hin as ->. exact Hm.
Defined.

(** C5, as stated, fails on the context in which no node has run:
    [process] returns, with the failure recorded. *)
Lemma missing_analysis_does_not_propagate :
  nodes Example.empty_context !! lit "AnalyzeMessage" = None ∧
  process (Example.env 0) Example.node Example.empty_context Example.start
  = (Return (record_result Example.node Example.empty_context
               (failure (lit "Error in SendReply node: " ++
                         lit "AnalyzeMessage node results not found in task context"))),
     Example.start).
Proof. split; [reflexivity|]. by apply process_missing_analysis. Qed.

(** The first three calls fail; a fourth one would succeed. *)
Lemma backoff_sleeps_three_units_witness :
  (trace (process (Example.env 3) Example.node
            (Example.context AnalyzeMessage.BREATHWORK Example.reply)
            Example.start).2
   = trace Example.start
     ++ [EvSend 77 Example.reply (Some (lit "timeout")); EvSleep 1;
         EvSend 77 Example.reply (Some (lit "timeout")); EvSleep (1 * 2);
         EvSend 77 Example.reply (Some (lit "timeout"))] ∧
   total_sleep (trace (process (Example.env 3) Example.node
                         (Example.context AnalyzeMessage.BREATHWORK Example.reply)
                         Example.start).2)
   = total_sleep (trace Example.start) + 3) ∧
  (trace (post_content (Example.env 3) Example.manager Example.tip
            (Some (lit "123")) (Some (lit "7")) Example.start).2
   = trace Example.start
     ++ [EvSend 123 Example.tip (Some (lit "timeout")); EvSleep 1;
         EvSend 123 Example.tip (Some (lit "timeout")); EvSleep (1 * 2);
         EvSend 123 Example.tip (Some (lit "timeout"))] ∧
   total_sleep (trace (post_content (Example.env 3) Example.manager Example.tip
                         (Some (lit "123")) (Some (lit "7")) Example.start).2)
   = total_sleep (trace Example.start) + 3).
Proof.
  destruct (backoff_sleeps_three_units
              (Example.env 3)
              Example.node (Example.context AnalyzeMessage.BREATHWORK Example.reply)
              Example.bot Example.reply Example.start
              (lit "timeout") (lit "timeout") (lit "timeout")
              Example.manager Example.tip (Some (lit "123")) (Some (lit "7"))
              (lit "123") 123 Example.bot Example.start
              (lit "timeout") (lit "timeout") (lit "timeout"))
    as [(Ht & _ & Hs) (Ht' & _ & Hs')].
  - example_reaches_loop.
  - reflexivity.
  - reflexivity.
  - reflexivity.
  - example_post_reaches_loop.
  - reflexivity.
  - reflexivity.
  - reflexivity.
  - split; split; assumption.
Defined.

(** C6, as stated, fails when every attempt fails: three calls are made
    and the sleeps are 1 and 2, which is 3 units and not 7. *)
Lemma backoff_is_not_seven_units :
  (delivery_calls (trace (process Example.down Example.node
                            (Example.context AnalyzeMessage.BREATHWORK Example.reply)
                            Example.start).2) = 3%nat ∧
   sleeps (trace (process Example.down Example.node
                    (Example.context AnalyzeMessage.BREATHWORK Example.reply)
                    Example.start).2) = [1; 2] ∧
   total_sleep (trace (process Example.down Example.node
                         (Example.context AnalyzeMessage.BREATHWORK Example.reply)
                         Example.start).2) ≠ 7) ∧
  (delivery_calls (trace (post_content Example.down Example.manager Example.tip
                            (Some (lit "123")) (Some (lit "7")) Example.start).2)
   = 3%nat ∧
   sleeps (trace (post_content Example.down Example.manager Example.tip
                    (Some (lit "123")) (Some (lit "7")) Example.start).2) = [1; 2] ∧
   total_sleep (trace (post_content Example.down Example.manager Example.tip
                         (Some (lit "123")) (Some (lit "7")) Example.start).2) ≠ 7).
Proof. vm_compute. repeat split; discriminate. Qed.

(** * Further properties *)

Local Opaque log emit sleep.

(** ** The gates of [post_content] *)

Lemma post_content_blank env self content channel_opt content_id w :
  is_blank content = true →
  post_content env self content channel_opt content_id w =
    (Return (failed_post (lit "Empty content received") (or_unknown channel_opt) None),
     w).
Proof. intros Hb. unfold post_content, try_except. by rewrite blank_check, Hb. Qed.

Lemma post_content_no_channel env self content channel_opt content_id w :
  is_blank content = false →
  truthy_opt channel_opt = false →
  truthy_opt (getenv env (lit "WELLNESS_CHANNEL_ID")) = false →
  post_content env self content channel_opt content_id w =
    (Return (failed_post
               (lit "Channel ID not found in parameters or environment variables")
               (lit "unknown") None),
     w).
Proof.
  intros Hb Hc He. unfold post_content, try_except at 1.
  by rewrite blank_check, Hb, Hc; simpl; rewrite He.
Qed.

Ltac resolve_channel Hb Hres :=
  let Ht := fresh "Ht" in let Hf := fresh "Hf" in let He := fresh "He" in
  destruct Hres as [Ht [->|[Hf He]]];
  unfold post_content, try_except at 1; rewrite blank_check, Hb; simpl;
  [rewrite Ht|rewrite Hf; simpl; rewrite He; simpl; rewrite Ht]; simpl;
  unfold try_except at 1.

Lemma post_content_no_client env self content channel_opt content_id channel w :
  is_blank content = false →
  resolves_channel env channel_opt channel →
  Wellness.discord_bot self = None →
  post_content env self content channel_opt content_id w =
    (Return (failed_post (lit "Discord bot not initialized") channel None), w).
Proof.
  intros Hb Hres Hbot. resolve_channel Hb Hres; by rewrite Hbot.
Qed.

Lemma post_content_no_target env self content channel_opt content_id channel bot
    msg w :
  is_blank content = false →
  resolves_channel env channel_opt channel →
  Wellness.discord_bot self = Some bot →
  python_int env channel = inr msg →
  post_content env self content channel_opt content_id w =
    (Return (failed_post
               (lit "Failed to send wellness content after 3 attempts. Last error: "
                ++ msg) channel content_id),
     log w [EvSleep 1; EvSleep 2]).
Proof.
  intros Hb Hres Hbot Hint.
  resolve_channel Hb Hres; rewrite Hbot; unfold mbind, M_bind, bind; simpl;
    unfold try_except, mbind, M_bind, bind, int; rewrite Hint; simpl;
    rewrite ?sleep_log; simpl; rewrite ?sleep_log, ?log_log; simpl; reflexivity.
Qed.

(** X1: [post_content], given content that is empty or made of whitespace
    only, returns a failed result with the message "Empty content
    received", the channel id it was given (or "unknown") and no content
    id, in the state it started from. *)
Theorem post_content_rejects_blank_content
    (env : environment) (self : Wellness.t) (content : str)
    (channel_opt content_id : option str) (w : world) :
  is_blank content = true →
  ∃ (res : Wellness.PostResult),
    post_content env self content channel_opt content_id w = (Return res, w) ∧
    Wellness.success res = false ∧
    Wellness.error_message res = Some (lit "Empty content received") ∧
    Wellness.channel_id res =
      (if truthy_opt channel_opt then default [] channel_opt else lit "unknown") ∧
    Wellness.content_id res = None ∧
    Wellness.posted_at res = None.
Proof.
  intros Hb. eexists.
  split; [by apply (post_content_blank env self content channel_opt content_id w)|].
  by repeat split.
Qed.

(** X2: [post_content], given content that is not blank and neither a channel
    id nor a [WELLNESS_CHANNEL_ID] in the environment, returns a failed
    result for the channel "unknown", in the state it started from. *)
Theorem post_content_needs_a_channel
    (env : environment) (self : Wellness.t) (content : str)
    (channel_opt content_id : option str) (w : world) :
  is_blank content = false →
  truthy_opt channel_opt = false →
  truthy_opt (getenv env (lit "WELLNESS_CHANNEL_ID")) = false →
  ∃ (res : Wellness.PostResult),
    post_content env self content channel_opt content_id w = (Return res, w) ∧
    Wellness.success res = false ∧
    Wellness.error_message res =
      Some (lit "Channel ID not found in parameters or environment variables") ∧
    Wellness.channel_id res = lit "unknown" ∧
    Wellness.content_id res = None ∧
    Wellness.posted_at res = None.
Proof.
  intros Hb Hc He. eexists.
  split; [by apply (post_content_no_channel env self content channel_opt
                      content_id w)|].
  by repeat split.
Qed.

(** X3: [post_content] on a manager without a client returns a failed result
    with the message "Discord bot not initialized" for the channel it
    resolved, in the state it started from. *)
Theorem post_content_needs_a_client
    (env : environment) (self : Wellness.t) (content : str)
    (channel_opt content_id : option str) (channel : str) (w : world) :
  is_blank content = false →
  resolves_channel env channel_opt channel →
  Wellness.discord_bot self = None →
  ∃ (res : Wellness.PostResult),
    post_content env self content channel_opt content_id w = (Return res, w) ∧
    Wellness.success res = false ∧
    Wellness.error_message res = Some (lit "Discord bot not initialized") ∧
    Wellness.channel_id res = channel ∧
    Wellness.content_id res = None ∧
    Wellness.posted_at res = None.
Proof.
  intros Hb Hres Hbot. eexists.
  split; [by apply (post_content_no_client env self content channel_opt
                      content_id channel w)|].
  by repeat split.
Qed.

(** X4: when [int] rejects the channel id, [post_content] makes no delivery
    call and still runs its three attempts: it sleeps 1 and then 2 units
    and returns a failed result whose message ends with the error of
    [int]. *)
Theorem post_content_retries_an_unparsable_channel
    (env : environment) (self : Wellness.t) (content : str)
    (channel_opt content_id : option str) (channel : str) (bot : DiscordBot)
    (msg : str) (w : world) :
  is_blank content = false →
  resolves_channel env channel_opt channel →
  Wellness.discord_bot self = Some bot →
  python_int env channel = inr msg →
  ∃ (res : Wellness.PostResult),
    post_content env self content channel_opt content_id w
      = (Return res, log w [EvSleep 1; EvSleep 2]) ∧
    Wellness.success res = false ∧
    Wellness.error_message res =
      Some (lit "Failed to send wellness content after 3 attempts. Last error: "
            ++ msg) ∧
    Wellness.channel_id res = channel ∧
    Wellness.content_id res = content_id ∧
    Wellness.posted_at res = None.
Proof.
  intros Hb Hres Hbot Hint. eexists.
  split; [by apply (post_content_no_target env self content channel_opt
                      content_id channel bot msg w)|].
  by repeat split.
Qed.

(** ** More on [SendReply.process] *)

(** X5: [SendReply.process] on a node without a client, the intent not being
    "ignore" and the reply not blank, makes no delivery call and records
    a result with [success = false] and the message "Discord bot not
    initialized". *)
Theorem process_needs_a_client
    (env : environment) (self : SendReply.t) (tc : TaskContext) (w : world)
    (i : AnalyzeMessage.MessageIntent) (r : str) :
  upstream_outputs tc i r →
  i ≠ AnalyzeMessage.IGNORE →
  is_blank r = false →
  SendReply.discord_bot self = None →
  ∃ (tc' : TaskContext) (res : SendReply.ResponseModel),
    process env self tc w = (Return tc', w) ∧
    records self tc tc' res ∧
    nodes tc' !! SendReply.node_name self = Some (recorded res) ∧
    SendReply.success res = false ∧
    SendReply.error_message res = Some (lit "Discord bot not initialized") ∧
    SendReply.channel_id res = None ∧
    SendReply.message_sent res = None.
Proof.
  intros Hin Hni Hb Hbot. eexists _, _.
  split; [by apply (process_no_client env self tc w i r)|].
  split; [apply record_result_records|].
  split; [apply record_result_lookup|]. by repeat split.
Qed.

(** X6: when the [AnalyzeMessage] entry holds no response model, the
    [KeyError] of the lookup is caught by [SendReply.process], which
    records a result with [success = false] whose message shows the
    missing key in quotes. *)
Theorem process_reports_an_entry_without_model
    (env : environment) (self : SendReply.t) (tc : TaskContext) (w : world)
    (rag : option (list str)) :
  nodes tc !! lit "AnalyzeMessage" =
    Some {| out_response_model := None; out_rag_context := rag |} →
  is_Some (nodes tc !! lit "GenerateResponse") →
  ∃ (tc' : TaskContext) (res : SendReply.ResponseModel),
    process env self tc w = (Return tc', w) ∧
    records self tc tc' res ∧
    nodes tc' !! SendReply.node_name self = Some (recorded res) ∧
    SendReply.success res = false ∧
    SendReply.error_message res
      = Some (lit "Error in SendReply node: 'response_model'") ∧
    SendReply.channel_id res = None ∧
    SendReply.message_sent res = None.
Proof.
  intros Ha [g Hg].
  exists (record_result self tc
            (failure (lit "Error in SendReply node: 'response_model'"))),
         (failure (lit "Error in SendReply node: 'response_model'")).
  split.
  { unfold process, try_except, mbind, M_bind, bind, when, get_response_model.
    by rewrite Ha, Hg. }
  split; [apply record_result_records|].
  split; [apply record_result_lookup|]. by repeat split.
Qed.

(** X7: with a client in test mode, [SendReply.process] and [post_content]
    succeed at the first attempt whatever the environment does: one
    call of [send_message_sync] and no sleep. *)
Theorem test_mode_delivers_at_the_first_attempt
    (env : environment)
    (self : SendReply.t) (tc : TaskContext) (bot : DiscordBot) (r : str) (w : world)
    (manager : Wellness.t) (content : str) (channel_opt content_id : option str)
    (channel : str) (target : Z) (bot' : DiscordBot) (w2 : world) :
  reaches_loop self tc (enable_test_mode bot) r →
  post_reaches_loop env manager content channel_opt channel target
    (enable_test_mode bot') →
  process env self tc w =
    (Return (sent self tc r), log w [EvSend (channel_id (event tc)) r None]) ∧
  post_content env manager content channel_opt content_id w2 =
    (Return (posted env channel content_id (log w2 [EvSend target content None])),
     marked env content_id (log w2 [EvSend target content None])).
Proof.
  intros Hpre Hpre'. split.
  - by apply (process_first_try env self tc (enable_test_mode bot) r w Hpre).
  - by apply (post_content_first_try env manager content channel_opt content_id
                channel target (enable_test_mode bot') w2 Hpre').
Qed.

(** Either a gate of [process] answers, in the state it started from, or
    the attempt loop is reached. *)
Lemma process_gate_or_loop env self tc w :
  (∃ r0, process env self tc w = (Return (record_result self tc r0), w)) ∨
  (∃ bot, reaches_loop self tc bot (reply_of tc)).
Proof.
  destruct (nodes tc !! lit "AnalyzeMessage") as [[ma ra]|] eqn:Ha;
    [|left; eexists; by apply process_missing_analysis].
  destruct (nodes tc !! lit "GenerateResponse") as [[mg rg]|] eqn:Hg;
    [|left; eexists; apply process_missing_response; [by rewrite Ha|done]].
  destruct ma as [[a|?|?]|];
    try (left; unfold process, try_except, mbind, M_bind, bind, when,
           get_response_model, get_intent;
         rewrite Ha, Hg; simpl; eauto; fail).
  destruct (decide (AnalyzeMessage.intent a = AnalyzeMessage.IGNORE)) as [Hi|Hni].
  { left. eexists. apply (process_ignore env self tc w a ra Ha Hi). by rewrite Hg. }
  destruct mg as [[?|g|?]|];
    try (left; unfold process, try_except, mbind, M_bind, bind, when,
           get_response_model, get_intent, get_response;
         rewrite Ha, Hg; simpl; rewrite (intent_not_ignore _ Hni); simpl; eauto; fail).
  assert (Hin : upstream_outputs tc (AnalyzeMessage.intent a)
                  (GenerateResponse.response g)) by (split; eauto).
  assert (Hr : reply_of tc = GenerateResponse.response g)
    by (unfold reply_of; by rewrite Hg).
  destruct (is_blank (GenerateResponse.response g)) eqn:Hb.
  { left. eexists. by apply (process_blank env self tc w _ _ Hin). }
  destruct (SendReply.discord_bot self) as [bot|] eqn:Hbot.
  - right. exists bot. rewrite Hr. split; [eauto|done].
  - left. eexists. by apply (process_no_client env self tc w _ _ Hin).
Qed.

Lemma process_courses env self tc w :
  ∃ evs, process env self tc w = ((process env self tc w).1, log w evs) ∧
         process_effects (channel_id (event tc)) (reply_of tc) evs.
Proof.
  destruct (process_gate_or_loop env self tc w) as [[r0 Hrun]|[bot Hpre]].
  - exists []. rewrite Hrun, log_nil. split; [done|by left].
  - set (c := channel_id (event tc)). set (r := reply_of tc) in *.
    destruct (send_outcome env bot (delivery_calls (trace w)) c r) as [e0|] eqn:H0;
      [|rewrite (process_first_try env self tc bot r w Hpre H0);
        eexists; split; [reflexivity|right; by left]].
    destruct (send_outcome env bot (delivery_calls (trace w) + 1) c r) as [e1|] eqn:H1;
      [|rewrite (process_second_try env self tc bot r w Hpre e0 H0 H1);
        eexists; split; [reflexivity|right; right; left; by exists e0]].
    destruct (send_outcome env bot (delivery_calls (trace w) + 2) c r) as [e2|] eqn:H2.
    + rewrite (process_exhausted env self tc bot r w Hpre e0 e1 e2 H0 H1 H2).
      eexists; split; [reflexivity|]. do 4 right. by exists e0, e1, e2.
    + rewrite (process_third_try env self tc bot r w Hpre e0 e1 H0 H1 H2).
      eexists; split; [reflexivity|]. do 3 right. left. by exists e0, e1.
Qed.

(** X8: on every input, the effects of one run of [SendReply.process] take
    one of five courses: none; a call that succeeds; a failure, a sleep
    of 1 and a success; two failures with sleeps of 1 and 2 and a
    success; three failures with sleeps of 1 and 2 between them. *)
Theorem process_effects_take_one_of_five_courses
    (env : environment) (self : SendReply.t) (tc : TaskContext) (w : world) :
  ∃ evs, (process env self tc w).2 = log w evs ∧
         process_effects (channel_id (event tc)) (reply_of tc) evs.
Proof.
  destruct (process_courses env self tc w) as (evs & Hrun & Hevs).
  exists evs. by rewrite Hrun.
Qed.

(** X9: [SendReply.process] leaves the shared client its identity, token,
    mode and URL, leaves the stored content as it was, constructs no
    client, opens no session, and sleeps at most 3 units in total, on
    every input. *)
Theorem process_only_sends_and_sleeps
    (env : environment) (self : SendReply.t) (tc : TaskContext) (w : world) :
  configuration <$> _discord_bot (process env self tc w).2
    = configuration <$> _discord_bot w ∧
  stores (process env self tc w).2 = stores w ∧
  constructions (trace (process env self tc w).2) = constructions (trace w) ∧
  sessions (trace (process env self tc w).2) = sessions (trace w) ∧
  total_sleep (trace w) ≤ total_sleep (trace (process env self tc w).2)
                        ≤ total_sleep (trace w) + 3.
Proof.
  destruct (process_courses env self tc w) as (evs & Hrun & Hevs).
  assert (Hquiet : constructions evs = 0%nat ∧ sessions evs = 0%nat ∧
                   0 ≤ foldr Z.add 0 (sleeps evs) ≤ 3).
  { destruct Hevs as [->|[->|[[e0 ->]|[(e0 & e1 & ->)|(e0 & e1 & e2 & ->)]]]];
      vm_compute; (split; [reflexivity|]); (split; [reflexivity|]);
      split; discriminate. }
  rewrite Hrun. cbn [snd].
  rewrite discord_bot_log, stores_log, total_sleep_log, trace_log, constructions_app.
  unfold sessions. rewrite filter_app, length_app. fold (sessions evs).
  fold (sessions (trace w)).
  split; [done|]. split; [done|]. lia.
Qed.

(** ** The stored content *)

Lemma mark_first_split cid p stamp store store' :
  mark_first cid p stamp store = Some store' →
  ∃ before item after,
    store = before ++ item :: after ∧
    (cid ∉ Wellness.item_id <$> before) ∧
    Wellness.item_id item = cid ∧
    store' = before ++ updated p stamp item :: after.
Proof.
  revert store'. induction store as [|it store IH]; intros store'; simpl; [done|].
  case_bool_decide as Hid.
  - intros [= <-]. exists [], it, store. split; [done|]. split; [apply not_elem_of_nil|].
    split; [done|]. unfold updated. simpl. do 2 f_equal.
    destruct p, stamp; simpl; try done.
  - destruct (mark_first cid p stamp store) as [s1|]; simpl; [|done].
    intros [= <-]. destruct (IH s1 eq_refl) as (before & item & after & -> & Hn & Hi & ->).
    exists (it :: before), item, after. split; [done|]. split; [|done].
    simpl. by apply not_elem_of_cons.
Qed.

Lemma mark_first_none cid p stamp store :
  mark_first cid p stamp store = None ↔ (cid ∉ Wellness.item_id <$> store).
Proof.
  induction store as [|it store IH]; simpl.
  - split; [intros _; apply not_elem_of_nil|done].
  - rewrite not_elem_of_cons. case_bool_decide as Hid.
    + split; [done|]. intros [? _]. by subst.
    + destruct (mark_first cid p stamp store) as [s1|]; simpl.
      * split; [done|]. intros [_ H]. by apply IH in H.
      * split; [|done]. intros _. split; [done|]. by apply IH.
Qed.

Lemma mark_first_at cid p stamp before item after :
  (cid ∉ Wellness.item_id <$> before) →
  Wellness.item_id item = cid →
  mark_first cid p stamp (before ++ item :: after)
  = Some (before ++ updated p stamp item :: after).
Proof.
  intros Hn Hi. induction before as [|it before IH]; simpl.
  - rewrite bool_decide_eq_true_2 by done. unfold updated. do 3 f_equal.
    destruct p, stamp; simpl; try done.
  - rewrite fmap_cons, not_elem_of_cons in Hn. destruct Hn as [Hne Hn].
    rewrite bool_decide_eq_false_2 by done. by rewrite (IH Hn).
Qed.

Lemma updated_twice p stamp item :
  updated p stamp (updated p stamp item) = updated p stamp item.
Proof. unfold updated. simpl. f_equal. by destruct p, stamp. Qed.

(** X10: the update loop of [update_content_posted_status] answers [None]
    when no stored item has the content id; otherwise it replaces the
    first item with that id, and no other, by its updated version. *)
Theorem mark_first_updates_the_first_match
    (content_id : str) (posted : bool) (posted_at : option datetime)
    (store : list Wellness.item) :
  ((content_id ∉ Wellness.item_id <$> store) →
   mark_first content_id posted posted_at store = None) ∧
  (content_id ∈ (Wellness.item_id <$> store) →
   ∃ before item after,
     store = before ++ item :: after ∧
     (content_id ∉ Wellness.item_id <$> before) ∧
     Wellness.item_id item = content_id ∧
     mark_first content_id posted posted_at store
     = Some (before ++ updated posted posted_at item :: after)).
Proof.
  split; [intros Hn; by apply mark_first_none|].
  intros Hin. destruct (mark_first content_id posted posted_at store) as [s1|] eqn:Hm.
  - destruct (mark_first_split _ _ _ _ _ Hm) as (b & it & a & ? & ? & ? & ->).
    by exists b, it, a.
  - by apply mark_first_none in Hm.
Qed.

(** X11: a successful update keeps the number of stored items, their ids,
    contents, content types and channels, and applying the same update
    again changes nothing. *)
Theorem update_keeps_the_shape_of_the_store
    (content_id : str) (posted : bool) (posted_at : option datetime)
    (store store' : list Wellness.item) :
  mark_first content_id posted posted_at store = Some store' →
  length store' = length store ∧
  Wellness.item_id <$> store' = Wellness.item_id <$> store ∧
  Wellness.item_content <$> store' = Wellness.item_content <$> store ∧
  Wellness.item_content_type <$> store' = Wellness.item_content_type <$> store ∧
  Wellness.item_channel_id <$> store' = Wellness.item_channel_id <$> store ∧
  mark_first content_id posted posted_at store' = Some store'.
Proof.
  intros (b & it & a & -> & Hn & Hi & ->)%mark_first_split.
  rewrite !fmap_app, !fmap_cons, !length_app. simpl.
  repeat (split; [done|]).
  rewrite (mark_first_at content_id posted posted_at b (updated posted posted_at it) a Hn)
    by done.
  by rewrite updated_twice.
Qed.

Lemma update_mock_run env cid p stamp w :
  DATABASE_AVAILABLE env = false →
  update_content_posted_status env cid p stamp w =
    (Return (bool_decide (cid ∈ Wellness.item_id <$> mock_content_store w)),
     {| trace := trace w;
        _discord_bot := _discord_bot w;
        mock_content_store :=
          default (mock_content_store w)
                  (mark_first cid p stamp (mock_content_store w));
        wellness_content := wellness_content w |}).
Proof.
  intros Hdb. unfold update_content_posted_status. rewrite Hdb. simpl.
  unfold mbind, M_bind, bind, gets. simpl.
  destruct (mark_first cid p stamp (mock_content_store w)) as [s1|] eqn:Hm; simpl.
  - rewrite bool_decide_eq_true_2; [done|].
    destruct (decide (cid ∈ Wellness.item_id <$> mock_content_store w)) as [|Hn];
      [done|]. apply (proj2 (mark_first_none _ p stamp _)) in Hn. congruence.
  - apply mark_first_none in Hm. rewrite bool_decide_eq_false_2 by done.
    by destruct w.
Qed.

(** X12: without a database, [update_content_posted_status] returns whether
    the mock store holds the content id, updates the mock store only and
    opens no session. *)
Theorem update_without_database_reports_presence
    (env : environment) (content_id : str) (posted : bool)
    (posted_at : option datetime) (w : world) :
  DATABASE_AVAILABLE env = false →
  (update_content_posted_status env content_id posted posted_at w).1
    = Return (bool_decide (content_id ∈ Wellness.item_id <$> mock_content_store w)) ∧
  mock_content_store (update_content_posted_status env content_id posted posted_at w).2
    = default (mock_content_store w)
              (mark_first content_id posted posted_at (mock_content_store w)) ∧
  wellness_content (update_content_posted_status env content_id posted posted_at w).2
    = wellness_content w ∧
  trace (update_content_posted_status env content_id posted posted_at w).2 = trace w.
Proof. intros Hdb. by rewrite (update_mock_run env _ _ _ _ Hdb). Qed.

(** X13: when the database session fails, [update_content_posted_status]
    leaves the table as it was and answers from the mock store, which it
    updates. *)
Theorem update_falls_back_to_the_mock_store
    (env : environment) (content_id : str) (posted : bool)
    (posted_at : option datetime) (w : world) (e : str) :
  DATABASE_AVAILABLE env = true →
  session_fault env (sessions (trace w)) = Some e →
  (update_content_posted_status env content_id posted posted_at w).1
    = Return (bool_decide (content_id ∈ Wellness.item_id <$> mock_content_store w)) ∧
  mock_content_store (update_content_posted_status env content_id posted posted_at w).2
    = default (mock_content_store w)
              (mark_first content_id posted posted_at (mock_content_store w)) ∧
  wellness_content (update_content_posted_status env content_id posted posted_at w).2
    = wellness_content w ∧
  trace (update_content_posted_status env content_id posted posted_at w).2
    = trace w ++ [EvSession (Some e)].
Proof.
  intros Hdb He. unfold update_content_posted_status. rewrite Hdb. cbn [negb].
  unfold try_except, update_in_session, mbind, M_bind, bind, gets. cbn [fst snd].
  rewrite He, emit_log. unfold raise.
  unfold update_content_posted_status_mock, mbind, M_bind, bind, gets.
  rewrite mock_content_store_log.
  destruct (mark_first content_id posted posted_at (mock_content_store w))
    as [s1|] eqn:Hm; cbn.
  - rewrite trace_log, wellness_content_log. split; [|done].
    rewrite bool_decide_eq_true_2; [done|].
    destruct (decide (content_id ∈ Wellness.item_id <$> mock_content_store w))
      as [|Hn]; [done|].
    apply (proj2 (mark_first_none _ posted posted_at _)) in Hn. congruence.
  - rewrite trace_log, wellness_content_log, mock_content_store_log.
    split; [|done]. apply mark_first_none in Hm. by rewrite bool_decide_eq_false_2.
Qed.

(** X14: when the database session works, [update_content_posted_status]
    returns whether the table holds the content id, updates the table
    and leaves the mock store as it was. *)
Theorem update_in_the_database_leaves_the_mock_store
    (env : environment) (content_id : str) (posted : bool)
    (posted_at : option datetime) (w : world) :
  DATABASE_AVAILABLE env = true →
  session_fault env (sessions (trace w)) = None →
  (update_content_posted_status env content_id posted posted_at w).1
    = Return (bool_decide (content_id ∈ Wellness.item_id <$> wellness_content w)) ∧
  wellness_content (update_content_posted_status env content_id posted posted_at w).2
    = default (wellness_content w)
              (mark_first content_id posted posted_at (wellness_content w)) ∧
  mock_content_store (update_content_posted_status env content_id posted posted_at w).2
    = mock_content_store w ∧
  trace (update_content_posted_status env content_id posted posted_at w).2
    = trace w ++ [EvSession None].
Proof.
  intros Hdb He. unfold update_content_posted_status. rewrite Hdb. cbn [negb].
  unfold try_except, update_in_session, mbind, M_bind, bind, gets. cbn [fst snd].
  rewrite He, emit_log, wellness_content_log.
  destruct (mark_first content_id posted posted_at (wellness_content w))
    as [s1|] eqn:Hm; cbn.
  - rewrite trace_log, mock_content_store_log. split; [|done].
    rewrite bool_decide_eq_true_2; [done|].
    destruct (decide (content_id ∈ Wellness.item_id <$> wellness_content w))
      as [|Hn]; [done|].
    apply (proj2 (mark_first_none _ posted posted_at _)) in Hn. congruence.
  - rewrite trace_log, wellness_content_log, mock_content_store_log.
    split; [|done]. apply mark_first_none in Hm. by rewrite bool_decide_eq_false_2.
Qed.

(** X15: without a database, when [post_content] delivers content whose id
    is in the mock store, the first item with that id ends up posted, at
    the time the result carries, the other items being as before. *)
Theorem post_content_marks_the_posted_item
    (env : environment) (N : nat) (self : Wellness.t) (content : str)
    (channel_opt : option str) (content_id : str) (channel : str) (target : Z)
    (bot : DiscordBot) (w : world)
    (before : list Wellness.item) (item : Wellness.item) (after : list Wellness.item) :
  (N ≤ 2)%nat →
  post_reaches_loop env self content channel_opt channel target bot →
  fails_then_succeeds env bot (delivery_calls (trace w)) target content N →
  DATABASE_AVAILABLE env = false →
  truthy content_id = true →
  mock_content_store w = before ++ item :: after →
  (content_id ∉ Wellness.item_id <$> before) →
  Wellness.item_id item = content_id →
  ∃ (r : Wellness.PostResult) (w' : world),
    post_content env self content channel_opt (Some content_id) w = (Return r, w') ∧
    Wellness.success r = true ∧
    is_Some (Wellness.posted_at r) ∧
    mock_content_store w'
      = before ++ updated true (Wellness.posted_at r) item :: after.
Proof.
  intros HN Hpre Hout Hdb Hcid Hstore Hn Hi.
  destruct (post_content_retries env self content channel_opt (Some content_id)
              channel target bot w N HN Hpre Hout) as (evs & Hrun & _).
  eexists _, _. split; [exact Hrun|]. split; [done|]. split; [by eexists|].
  unfold marked. cbn [truthy_opt default]. rewrite Hcid.
  rewrite (update_mock_run env _ _ _ _ Hdb). cbn [snd mock_content_store].
  rewrite mock_content_store_log, Hstore.
  by rewrite (mark_first_at content_id true _ before item after Hn Hi).
Qed.

(** ** The effects of [post_content] *)

Lemma update_effects env cid posted stamp w :
  ∃ marking,
    trace (update_content_posted_status env cid posted stamp w).2
      = trace w ++ marking ∧
    (marking = [] ∨ ∃ fault, marking = [EvSession fault]) ∧
    _discord_bot (update_content_posted_status env cid posted stamp w).2
      = _discord_bot w.
Proof.
  unfold update_content_posted_status.
  destruct (DATABASE_AVAILABLE env); cbn [negb].
  - unfold try_except, update_in_session, mbind, M_bind, bind, gets.
    destruct (session_fault env _) as [e|]; rewrite emit_log.
    + cbn [raise]. unfold raise.
      destruct (update_mock_total cid posted stamp (log w [EvSession (Some e)]))
        as (b & w' & Hrun & Ht & Hb).
      rewrite Hrun. cbn [snd]. rewrite Ht, Hb, trace_log, discord_bot_log.
      exists [EvSession (Some e)]. split; [done|]. split; [right; by eexists|done].
    + rewrite wellness_content_log.
      destruct (mark_first cid posted stamp (wellness_content w)) as [rows|];
        exists [EvSession None];
        unfold set_wellness_content, modify; cbn [fst snd trace _discord_bot];
        rewrite ?trace_log, ?discord_bot_log;
        (split; [done|]); (split; [right; by eexists|done]).
  - unfold mbind, M_bind, bind, gets.
    destruct (mark_first cid posted stamp (mock_content_store w)) as [rows|];
      exists []; unfold set_mock_content_store, modify;
      cbn [fst snd trace _discord_bot]; rewrite app_nil_r;
      (split; [done|]); (split; [by left|done]).
Qed.

Lemma marked_effects env content_id w1 :
  ∃ marking,
    trace (marked env content_id w1) = trace w1 ++ marking ∧
    (marking = [] ∨ ∃ fault, marking = [EvSession fault]) ∧
    _discord_bot (marked env content_id w1) = _discord_bot w1.
Proof.
  unfold marked. destruct (truthy_opt content_id).
  - apply update_effects.
  - exists []. rewrite app_nil_r. split; [done|]. split; [by left|done].
Qed.

(** Either a gate of [post_content] answers, in the state it started
    from, or the channel is no number and no call is made, or the attempt
    loop is reached with a channel to call. *)
Lemma post_content_gate_or_loop env self content channel_opt content_id w :
  (∃ res, post_content env self content channel_opt content_id w = (Return res, w)) ∨
  (∃ res, post_content env self content channel_opt content_id w
            = (Return res, log w [EvSleep 1; EvSleep 2])) ∨
  (∃ channel target bot,
     post_reaches_loop env self content channel_opt channel target bot).
Proof.
  destruct (is_blank content) eqn:Hb;
    [left; eexists; by apply post_content_blank|].
  assert (Hres : (∃ channel, resolves_channel env channel_opt channel) ∨
                 (truthy_opt channel_opt = false ∧
                  truthy_opt (getenv env (lit "WELLNESS_CHANNEL_ID")) = false)).
  { destruct (truthy_opt channel_opt) eqn:Hc.
    - left. destruct channel_opt as [c|]; [|done]. exists c. split; [done|by left].
    - destruct (truthy_opt (getenv env (lit "WELLNESS_CHANNEL_ID"))) eqn:He;
        [|by right].
      left. destruct (getenv env (lit "WELLNESS_CHANNEL_ID")) as [c|] eqn:Hg; [|done].
      exists c. split; [done|]. right. by split. }
  destruct Hres as [[channel Hres]|[Hc He]];
    [|left; eexists; by apply post_content_no_channel].
  destruct (Wellness.discord_bot self) as [bot|] eqn:Hbot;
    [|left; eexists; by apply (post_content_no_client env self content channel_opt
                                 content_id channel w)].
  destruct (python_int env channel) as [target|msg] eqn:Hint.
  - right. right. by exists channel, target, bot.
  - right. left. eexists.
    by apply (post_content_no_target env self content channel_opt content_id
                channel bot msg w).
Qed.

Lemma post_content_courses env self content channel_opt content_id w :
  ∃ c evs,
    trace (post_content env self content channel_opt content_id w).2
      = trace w ++ evs ∧
    post_effects c content evs ∧
    _discord_bot (post_content env self content channel_opt content_id w).2
      = _discord_bot w.
Proof.
  destruct (post_content_gate_or_loop env self content channel_opt content_id w)
    as [[res ->]|[[res ->]|(channel & target & bot & Hpre)]]; cbn [snd].
  - exists 0, []. rewrite app_nil_r. split; [done|]. split; [by left|done].
  - exists 0, [EvSleep 1; EvSleep 2]. rewrite trace_log, discord_bot_log.
    split; [done|]. split; [right; by left|done].
  - exists target.
    destruct (send_outcome env bot (delivery_calls (trace w)) target content)
      as [e0|] eqn:H0.
    2:{ rewrite (post_content_first_try env self content channel_opt content_id
                   channel target bot w Hpre H0). cbn [snd].
        destruct (marked_effects env content_id
                    (log w [EvSend target content None]))
          as (marking & -> & Hm & ->).
        rewrite trace_log, discord_bot_log, <- app_assoc. eexists.
        split; [reflexivity|]. split; [|done].
        do 3 right. eexists _, marking. split; [reflexivity|]. split; [by left|done]. }
    destruct (send_outcome env bot (delivery_calls (trace w) + 1) target content)
      as [e1|] eqn:H1.
    2:{ rewrite (post_content_second_try env self content channel_opt content_id
                   channel target bot w Hpre e0 H0 H1). cbn [snd].
        destruct (marked_effects env content_id
                    (log w [EvSend target content (Some e0); EvSleep 1;
                            EvSend target content None]))
          as (marking & -> & Hm & ->).
        rewrite trace_log, discord_bot_log, <- app_assoc. eexists.
        split; [reflexivity|]. split; [|done].
        do 3 right. eexists _, marking. split; [reflexivity|].
        split; [right; left; by exists e0|done]. }
    destruct (send_outcome env bot (delivery_calls (trace w) + 2) target content)
      as [e2|] eqn:H2.
    + rewrite (post_content_exhausted env self content channel_opt content_id
                 channel target bot w Hpre e0 e1 e2 H0 H1 H2). cbn [snd].
      rewrite trace_log, discord_bot_log. eexists.
      split; [reflexivity|]. split; [|done].
      right. right. left. by exists e0, e1, e2.
    + rewrite (post_content_third_try env self content channel_opt content_id
                 channel target bot w Hpre e0 e1 H0 H1 H2). cbn [snd].
      destruct (marked_effects env content_id
                  (log w [EvSend target content (Some e0); EvSleep 1;
                          EvSend target content (Some e1); EvSleep 2;
                          EvSend target content None]))
        as (marking & -> & Hm & ->).
      rewrite trace_log, discord_bot_log, <- app_assoc. eexists.
      split; [reflexivity|]. split; [|done].
      do 3 right. eexists _, marking. split; [reflexivity|].
      split; [right; right; by exists e0, e1|done].
Qed.

Lemma post_effects_counts c m evs :
  post_effects c m evs →
  constructions evs = 0%nat ∧ (delivery_calls evs ≤ 3)%nat ∧
  (sessions evs ≤ 1)%nat ∧ 0 ≤ foldr Z.add 0 (sleeps evs) ≤ 3.
Proof.
  intros [->|[->|[(e0 & e1 & e2 & ->)|(attempts & marking & -> & Ha & Hm)]]];
    [vm_compute; repeat split; first [lia|discriminate]..|].
  destruct Hm as [->|[fault ->]],
           Ha as [->|[[e0 ->]|(e0 & e1 & ->)]];
    vm_compute; repeat split; first [lia|discriminate].
Qed.

(** X16: on every input, the effects of one run of [post_content] take one
    of the courses of [post_effects]: none; two sleeps without a call;
    three failed calls with sleeps of 1 and 2 between them; or a call
    that succeeds after at most two failures, followed by at most one
    session of the marking step.  So the run constructs no client, makes
    at most 3 calls, opens at most one session, sleeps at most 3 units
    and leaves the shared client its identity, token and mode. *)
Theorem post_content_only_sends_sleeps_and_marks
    (env : environment) (self : Wellness.t) (content : str)
    (channel_opt content_id : option str) (w : world) :
  ∃ (c : Z) (evs : list effect),
    trace (post_content env self content channel_opt content_id w).2
      = trace w ++ evs ∧
    post_effects c content evs ∧
    constructions evs = 0%nat ∧
    (delivery_calls evs ≤ 3)%nat ∧
    (sessions evs ≤ 1)%nat ∧
    0 ≤ foldr Z.add 0 (sleeps evs) ≤ 3 ∧
    configuration
      <$> _discord_bot (post_content env self content channel_opt content_id w).2
    = configuration <$> _discord_bot w.
Proof.
  destruct (post_content_courses env self content channel_opt content_id w)
    as (c & evs & Ht & Hevs & Hb).
  destruct (post_effects_counts c content evs Hevs) as (Hc & Hd & Hs & Hz).
  exists c, evs. rewrite Hb. by repeat (split; [done|]).
Qed.

Local Transparent log emit sleep.

(** ** More on the shared delivery client *)

(** X17: the token and the mode of the call of [get_discord_bot] that creates
    the client are those of the client every later call returns,
    whatever the arguments of the later calls. *)
Theorem get_discord_bot_fixes_the_client_at_creation
    (env : environment) (first_token : str) (mode : bool)
    (calls : list (option str * bool)) (w : world) :
  _discord_bot w = None →
  (run_calls env ((Some first_token, mode) :: calls) w).1
    = Return (Some (new_bot env first_token mode w))
      :: ((λ _, Return (Some (new_bot env first_token mode w))) <$> calls) ∧
  test_mode (new_bot env first_token mode w) = mode ∧
  token (new_bot env first_token mode w) = first_token.
Proof.
  intros Hnone.
  destruct (get_discord_bot_first env first_token mode w Hnone)
    as (w' & Hrun & Hb & _).
  cbn [run_calls]. rewrite Hrun, (run_calls_existing _ _ _ _ Hb). cbn [fst].
  split; [done|]. unfold new_bot. by destruct mode.
Qed.

Lemma get_discord_bot_frame env token mode w :
  stores (get_discord_bot env token mode w).2 = stores w ∧
  delivery_calls (trace (get_discord_bot env token mode w).2)
    = delivery_calls (trace w) ∧
  sleeps (trace (get_discord_bot env token mode w).2) = sleeps (trace w).
Proof.
  destruct (_discord_bot w) as [b|] eqn:Hb.
  - by rewrite (get_discord_bot_existing _ _ _ _ _ Hb).
  - destruct token as [token|].
    + destruct (get_discord_bot_first env token mode w Hb)
        as (w' & -> & _ & Ht & Hm & Hw).
      cbn [snd]. unfold stores. rewrite Hm, Hw, Ht.
      rewrite delivery_calls_app, sleeps_app. simpl. rewrite app_nil_r.
      split; [done|]. split; [|done]. unfold delivery_calls. simpl. lia.
    + by rewrite (get_discord_bot_no_token _ _ _ Hb).
Qed.

(** X18: calls of [get_discord_bot] make no delivery call, do not sleep and
    leave the stored content as it was. *)
Theorem get_discord_bot_only_constructs
    (env : environment) (calls : list (option str * bool)) (w : world) :
  stores (run_calls env calls w).2 = stores w ∧
  delivery_calls (trace (run_calls env calls w).2) = delivery_calls (trace w) ∧
  sleeps (trace (run_calls env calls w).2) = sleeps (trace w).
Proof.
  revert w. induction calls as [|[token mode] calls IH]; intros w; [done|].
  cbn [run_calls].
  pose proof (get_discord_bot_frame env token mode w) as (Hs & Hc & Hz).
  destruct (get_discord_bot env token mode w) as [r w1]. cbn [snd] in *.
  specialize (IH w1). destruct (run_calls env calls w1) as [rs w2]. cbn [snd] in *.
  destruct IH as (-> & -> & ->). done.
Qed.

(** ** More on the rotation of content types *)

(** X19: when the type string of the most recent item is the value of no
    content type, [determine_content_type] returns the meditation tip. *)
Theorem determine_content_type_defaults_on_unknown_types
    (text last_type : str) (updated_at : datetime)
    (older : list (str * str * datetime)) :
  (∀ t, Wellness.value t ≠ last_type) →
  determine_content_type ((text, last_type, updated_at) :: older)
  = Wellness.MEDITATION_TIP.
Proof.
  intros Hunknown. unfold determine_content_type. cbn [fst snd].
  destruct (find _ _) as [t|] eqn:Hfind; [|done].
  apply find_some in Hfind as [_ Hv]. apply bool_decide_eq_true_1 in Hv.
  by destruct (Hunknown t).
Qed.


(** ** Construction of nodes and managers *)

Lemma get_discord_bot_with_token env token mode w :
  ∃ b w', get_discord_bot env (Some token) mode w = (Return (Some b), w') ∧
          _discord_bot w' = Some b ∧
          (constructions (trace w') ≤ S (constructions (trace w)))%nat ∧
          stores w' = stores w ∧
          (∀ b0, _discord_bot w = Some b0 → b = b0 ∧ w' = w).
Proof.
  destruct (_discord_bot w) as [b0|] eqn:Hb.
  - exists b0, w. rewrite (get_discord_bot_existing _ _ _ _ _ Hb).
    split; [done|]. split; [done|]. split; [lia|]. split; [done|].
    by intros ? [= ->].
  - destruct (get_discord_bot_first env token mode w Hb)
      as (w' & Hrun & Hb' & Ht & Hm & Hw).
    exists (new_bot env token mode w), w'. split; [done|]. split; [done|].
    split; [|split; [|done]].
    + rewrite Ht, constructions_app. change (constructions [EvConstruct _]) with 1%nat.
      lia.
    + unfold stores. by rewrite Hm, Hw.
Qed.

Lemma truthy_opt_Some (o : option str) :
  truthy_opt o = true → ∃ s, o = Some s.
Proof. destruct o; [eauto|done]. Qed.

Lemma manager_init_returns env w :
  ∃ manager w', WellnessContentManager_init env w = (Return manager, w').
Proof.
  unfold WellnessContentManager_init.
  destruct (truthy_opt (getenv env (lit "DISCORD_BOT_TOKEN"))) eqn:Htok; [|by eexists _, _].
  destruct (truthy_opt_Some _ Htok) as [token ->].
  destruct (get_discord_bot_with_token env token false w) as (b & w' & Hrun & _).
  unfold try_except, mbind, M_bind, bind. rewrite Hrun. by eexists _, _.
Qed.

(** X21: the constructor of [WellnessContentManager] never raises and
    constructs at most one client; with a token the manager holds the
    shared client, without one it holds none and nothing happens. *)
Theorem manager_construction_never_raises (env : environment) (w : world) :
  ∃ (manager : Wellness.t) (w' : world),
    WellnessContentManager_init env w = (Return manager, w') ∧
    (constructions (trace w') ≤ S (constructions (trace w)))%nat ∧
    stores w' = stores w ∧
    (truthy_opt (getenv env (lit "DISCORD_BOT_TOKEN")) = true →
     is_Some (Wellness.discord_bot manager) ∧
     Wellness.discord_bot manager = _discord_bot w' ∧
     (∀ b, _discord_bot w = Some b →
           Wellness.discord_bot manager = Some b ∧ w' = w)) ∧
    (truthy_opt (getenv env (lit "DISCORD_BOT_TOKEN")) = false →
     Wellness.discord_bot manager = None ∧ w' = w).
Proof.
  unfold WellnessContentManager_init.
  destruct (truthy_opt (getenv env (lit "DISCORD_BOT_TOKEN"))) eqn:Htok.
  - destruct (truthy_opt_Some _ Htok) as [token ->].
    destruct (get_discord_bot_with_token env token false w)
      as (b & w' & Hrun & Hb & Hc & Hs & Hsame).
    unfold try_except, mbind, M_bind, bind. rewrite Hrun. simpl.
    eexists _, _. split; [reflexivity|]. split; [done|]. split; [done|].
    split; [|done]. intros _. simpl. split; [by eexists|]. split; [done|].
    intros b0 Hb0. destruct (Hsame b0 Hb0) as [-> ->]. done.
  - exists {| Wellness.discord_bot := None |}, w. split; [done|]. split; [lia|].
    split; [done|]. split; [done|]. done.
Qed.

(** X22: the constructor of [SendReply] raises [ValueError] without a token,
    in the state it started from; with a token it returns a node that
    holds the shared client, the existing one if there is one. *)
Theorem node_construction_requires_a_token
    (env : environment) (node_name : str) (w : world) :
  (truthy_opt (getenv env (lit "DISCORD_BOT_TOKEN")) = false →
   SendReply_init env node_name w =
     (Raise (Exn ValueError
               (lit "Discord bot token not found in environment variables")), w)) ∧
  (truthy_opt (getenv env (lit "DISCORD_BOT_TOKEN")) = true →
   ∃ (b : DiscordBot) (w' : world),
     SendReply_init env node_name w =
       (Return {| SendReply.node_name := node_name;
                  SendReply.discord_bot := Some b |}, w') ∧
     _discord_bot w' = Some b ∧
     (constructions (trace w') ≤ S (constructions (trace w)))%nat ∧
     (∀ b0, _discord_bot w = Some b0 → b = b0 ∧ w' = w)).
Proof.
  unfold SendReply_init. split; intros Htok; rewrite Htok; [done|]. simpl.
  destruct (truthy_opt_Some _ Htok) as [token ->].
  destruct (get_discord_bot_with_token env token false w)
    as (b & w' & Hrun & Hb & Hc & Hs & Hsame).
  unfold try_except, mbind, M_bind, bind. rewrite Hrun. simpl.
  by exists b, w'.
Qed.

(** X23: a manager constructed after a [SendReply] node holds the client of
    the node, and its construction changes nothing. *)
Theorem nodes_and_managers_share_the_client
    (env : environment) (node_name : str) (w w1 : world) (node : SendReply.t) :
  SendReply_init env node_name w = (Return node, w1) →
  WellnessContentManager_init env w1 =
    (Return {| Wellness.discord_bot := SendReply.discord_bot node |}, w1) ∧
  SendReply.discord_bot node = _discord_bot w1 ∧
  is_Some (_discord_bot w1).
Proof.
  unfold SendReply_init, WellnessContentManager_init.
  destruct (truthy_opt (getenv env (lit "DISCORD_BOT_TOKEN"))) eqn:Htok; [|done].
  simpl. destruct (truthy_opt_Some _ Htok) as [token ->].
  destruct (get_discord_bot_with_token env token false w)
    as (b & w' & Hrun & Hb & _).
  unfold try_except, mbind, M_bind, bind. rewrite Hrun. simpl.
  intros [= <- <-]. simpl.
  rewrite (get_discord_bot_existing env (Some token) false w' b Hb). simpl.
  rewrite Hb. split; [done|]. split; [done|by eexists].
Qed.

Lemma post_content_without_client env self content channel_opt content_id w :
  Wellness.discord_bot self = None →
  ∃ r, post_content env self content channel_opt content_id w = (Return r, w) ∧
       Wellness.success r = false.
Proof.
  intros Hbot. unfold post_content, try_except at 1. rewrite blank_check.
  destruct (is_blank content); simpl; [by eexists|].
  destruct (truthy_opt channel_opt); simpl;
    [|destruct (truthy_opt (getenv env _)); simpl; [|by eexists]];
    unfold try_except at 1; rewrite Hbot; by eexists.
Qed.

(** X24: a manager constructed without a token cannot post, even when the
    shared client exists: [post_content] returns a failed result in the
    state it started from. *)
Theorem manager_without_token_cannot_post
    (env : environment) (w : world) (content : str)
    (channel_opt content_id : option str) :
  truthy_opt (getenv env (lit "DISCORD_BOT_TOKEN")) = false →
  ∃ (manager : Wellness.t) (r : Wellness.PostResult),
    WellnessContentManager_init env w = (Return manager, w) ∧
    post_content env manager content channel_opt content_id w = (Return r, w) ∧
    Wellness.success r = false.
Proof.
  intros Htok. unfold WellnessContentManager_init. rewrite Htok.
  destruct (post_content_without_client env {| Wellness.discord_bot := None |}
              content channel_opt content_id w eq_refl) as (r & Hrun & Hr).
  by exists {| Wellness.discord_bot := None |}, r.
Qed.

(** ** Generation and posting in one operation *)

Lemma generate_and_post_run env generate_content self channel_opt content_type w :
  ∃ r w', generate_and_post env generate_content self channel_opt content_type w
            = (Return r, w') ∧
    match generate_content self channel_opt content_type w with
    | (Raise e, w1) =>
        w' = w1 ∧
        r = Aborted (lit "Error in generate_and_post: " ++ str_of_exn e)
              (if truthy_opt channel_opt then default [] channel_opt
               else default (lit "unknown") (getenv env (lit "WELLNESS_CHANNEL_ID")))
    | (Return g, w1) =>
        ∃ p, post_content env self (GeneratedContent.content g)
               (Some (GeneratedContent.channel_id g)) (GeneratedContent.id g) w1
             = (Return p, w') ∧
             r = Combined (Wellness.success p) g
                   (if Wellness.success p then Wellness.posted_at p else None)
                   (Wellness.error_message p)
    end.
Proof.
  unfold generate_and_post, try_except, mbind, M_bind, bind.
  destruct (generate_content self channel_opt content_type w) as [[g|e] w1].
  - destruct (post_content_always env self (GeneratedContent.content g)
                (Some (GeneratedContent.channel_id g)) (GeneratedContent.id g) w1)
      as (p & w' & Hrun & _).
    rewrite Hrun. simpl. eexists _, _. split; [reflexivity|]. by exists p.
  - simpl. by eexists _, _.
Qed.

(** X25: [generate_and_post] never raises, whatever [generate_content] does:
    when generation raises it reports the error and posts nothing; when
    generation returns it posts the generated content with at most three
    delivery calls and reports the success flag of [post_content]. *)
Theorem generate_and_post_never_raises
    (env : environment)
    (generate_content : Wellness.t → option str → option str
                        → M world GeneratedContent.t)
    (self : Wellness.t) (channel_opt content_type : option str) (w : world) :
  ∃ (r : report) (w' : world),
    generate_and_post env generate_content self channel_opt content_type w
      = (Return r, w') ∧
    (∀ e w1,
       generate_content self channel_opt content_type w = (Raise e, w1) →
       w' = w1 ∧ report_success r = false ∧
       r = Aborted (lit "Error in generate_and_post: " ++ str_of_exn e)
             (if truthy_opt channel_opt then default [] channel_opt
              else default (lit "unknown")
                           (getenv env (lit "WELLNESS_CHANNEL_ID")))) ∧
    (∀ g w1,
       generate_content self channel_opt content_type w = (Return g, w1) →
       (delivery_calls (trace w') ≤ delivery_calls (trace w1) + 3)%nat ∧
       ∃ p, post_content env self (GeneratedContent.content g)
              (Some (GeneratedContent.channel_id g)) (GeneratedContent.id g) w1
            = (Return p, w') ∧
            report_success r = Wellness.success p ∧
            r = Combined (Wellness.success p) g
                  (if Wellness.success p then Wellness.posted_at p else None)
                  (Wellness.error_message p)).
Proof.
  destruct (generate_and_post_run env generate_content self channel_opt content_type w)
    as (r & w' & Hrun & Hcase).
  exists r, w'. split; [done|]. split.
  - intros e w1 Hg. rewrite Hg in Hcase. destruct Hcase as [-> ->]. done.
  - intros g w1 Hg. rewrite Hg in Hcase. destruct Hcase as (p & Hp & ->).
    split; [|by exists p].
    pose proof (post_content_calls_bound env self (GeneratedContent.content g)
                  (Some (GeneratedContent.channel_id g)) (GeneratedContent.id g) w1)
      as Hle.
    by rewrite Hp in Hle.
Qed.

(** X26: the scheduled task always returns the report of [generate_and_post]
    on a new manager; its own handler is never taken. *)
Theorem scheduled_task_never_takes_its_handler
    (env : environment)
    (generate_content : Wellness.t → option str → option str
                        → M world GeneratedContent.t)
    (w : world) :
  ∃ (manager : Wellness.t) (w1 : world) (r : report) (w' : world),
    WellnessContentManager_init env w = (Return manager, w1) ∧
    generate_and_post env generate_content manager None None w1 = (Return r, w') ∧
    generate_and_post_wellness_content env generate_content w = (Return r, w') ∧
    (∀ msg, r ≠ TaskFailed msg).
Proof.
  destruct (manager_init_returns env w) as (manager & w1 & Hinit).
  destruct (generate_and_post_run env generate_content manager None None w1)
    as (r & w' & Hrun & Hcase).
  exists manager, w1, r, w'. split; [done|]. split; [done|]. split.
  - unfold generate_and_post_wellness_content, try_except, mbind, M_bind, bind.
    by rewrite Hinit, Hrun.
  - intros msg ->.
    destruct (generate_content manager None None w1) as [[g|e] w2].
    + by destruct Hcase as (p & _ & ?).
    + by destruct Hcase as [_ ?].
Qed.

(** ** The context of a generation *)

Lemma value_in_all_types (s : str) :
  s ∈ Wellness.value <$> Wellness.all_types ↔ ∃ t, s = Wellness.value t.
Proof.
  rewrite list_elem_of_fmap. split.
  - intros (t & -> & _). by exists t.
  - intros [t ->]. exists t. split; [done|apply all_types_complete].
Qed.

(** X27: when the history query returns, [prepare_context] returns a context
    whose content type is the requested one when the request names a
    content type, and the one [determine_content_type] picks from the
    history otherwise. *)
Theorem prepare_context_selects_the_content_type
    (env : environment) (weekday : list effect → str)
    (get_previous_content : Wellness.t → str → M world (list (str * str * datetime)))
    (self : Wellness.t) (channel_opt content_type : option str) (w : world)
    (history : list (str * str * datetime)) (w1 : world) :
  get_previous_content self
    (if negb (truthy_opt channel_opt)
     then default (lit "0") (getenv env (lit "WELLNESS_CHANNEL_ID"))
     else default [] channel_opt) w = (Return history, w1) →
  ∃ selected,
    prepare_context env weekday get_previous_content self channel_opt content_type w
    = (Return {| ContentContext.day_of_week := weekday (trace w);
                 ContentContext.content_type := selected;
                 ContentContext.previous_content := (λ d, d.1.1) <$> history;
                 ContentContext.channel_id :=
                   if negb (truthy_opt channel_opt)
                   then default (lit "0") (getenv env (lit "WELLNESS_CHANNEL_ID"))
                   else default [] channel_opt |}, w1) ∧
    (∀ t, content_type = Some (Wellness.value t) → selected = t) ∧
    ((∀ t, content_type ≠ Some (Wellness.value t)) →
     selected = determine_content_type history).
Proof.
  intros Hhist. unfold prepare_context, mbind, M_bind, bind, gets. cbn [fst snd].
  rewrite Hhist. cbn [fst snd].
  destruct (truthy_opt content_type &&
            bool_decide (default [] content_type
                         ∈ Wellness.value <$> Wellness.all_types)) eqn:Hvalid.
  - apply andb_true_iff in Hvalid as [Htruthy Hin].
    apply bool_decide_eq_true_1, value_in_all_types in Hin as [t Ht].
    destruct content_type as [s|]; [|done]. simpl in Ht. subst s.
    change (default [] (Some (Wellness.value t))) with (Wellness.value t).
    rewrite (find_by_value t _ (all_types_complete t)). cbn.
    exists t. split; [done|]. split.
    + by intros t' [= ->%value_inj].
    + intros Hno. by destruct (Hno t).
  - cbn. eexists. split; [reflexivity|]. split; [|done].
    intros t ->.
    change (default [] (Some (Wellness.value t))) with (Wellness.value t) in Hvalid.
    cbn [truthy_opt] in Hvalid. rewrite value_truthy in Hvalid.
    rewrite bool_decide_eq_true_2 in Hvalid; [done|].
    apply value_in_all_types. by exists t.
Qed.

(** ** The mock store and its counter *)

Lemma lit_inj (s1 s2 : string) : lit s1 = lit s2 → s1 = s2.
Proof.
  unfold lit. intros H.
  rewrite <- (string_of_list_ascii_of_string s1), <- (string_of_list_ascii_of_string s2).
  f_equal. revert H.
  generalize (list_ascii_of_string s1) (list_ascii_of_string s2).
  induction l as [|a l IH]; intros [|b l']; simpl; try done.
  intros [= Hab Hl]. f_equal; [|by apply IH].
  by rewrite <- (ascii_N_embedding a), <- (ascii_N_embedding b), Hab.
Qed.

Lemma str_of_int_inj (n m : Z) : str_of_int n = str_of_int m → n = m.
Proof.
  unfold str_of_int. intros H%lit_inj.
  assert (Hnn : ∀ z, Z.to_int z ≠ Decimal.Pos Decimal.Nil ∧
                     Z.to_int z ≠ Decimal.Neg Decimal.Nil).
  { intros [|p|p]; simpl; split; try discriminate;
      intros [= Hp]; by apply DecimalPos.Unsigned.to_uint_nonnil in Hp. }
  apply DecimalZ.to_int_inj.
  pose proof (NilZero.isi (Z.to_int n) (proj1 (Hnn n)) (proj2 (Hnn n))) as Hn.
  pose proof (NilZero.isi (Z.to_int m) (proj1 (Hnn m)) (proj2 (Hnn m))) as Hm.
  rewrite H in Hn. congruence.
Qed.

Lemma store_content_mock_run content content_type channel s :
  store_content_mock content content_type channel s =
    (Return (str_of_int (mock_content_id_counter s)),
     {| globals :=
          {| trace := trace (globals s);
             _discord_bot := _discord_bot (globals s);
             mock_content_store :=
               mock_content_store (globals s)
               ++ [ {| Wellness.item_id := str_of_int (mock_content_id_counter s);
                       Wellness.item_content := content;
                       Wellness.item_content_type := content_type;
                       Wellness.item_channel_id := channel;
                       Wellness.posted := false;
                       Wellness.item_posted_at := None |} ];
             wellness_content := wellness_content (globals s) |};
        mock_content_id_counter := mock_content_id_counter s + 1 |}).
Proof. reflexivity. Qed.

Lemma fresh_id s :
  well_numbered s →
  str_of_int (mock_content_id_counter s)
    ∉ Wellness.item_id <$> mock_content_store (globals s).
Proof.
  intros [_ Hlt] (item & Hid & Hin)%list_elem_of_fmap.
  destruct (Hlt item Hin) as (n & Hn & Hitem).
  rewrite Hitem in Hid. apply str_of_int_inj in Hid. lia.
Qed.

(** X28: in a mock store whose ids are distinct numbers below the counter,
    [store_content_mock] returns an id that no stored item has, adds one
    item and one to the counter, and the store stays so numbered. *)
Theorem stored_content_gets_a_fresh_id
    (content content_type channel : str) (s : store_state) :
  well_numbered s →
  ∃ s',
    store_content_mock content content_type channel s
      = (Return (str_of_int (mock_content_id_counter s)), s') ∧
    (str_of_int (mock_content_id_counter s)
       ∉ Wellness.item_id <$> mock_content_store (globals s)) ∧
    length (mock_content_store (globals s'))
      = S (length (mock_content_store (globals s))) ∧
    mock_content_id_counter s' = mock_content_id_counter s + 1 ∧
    well_numbered s'.
Proof.
  intros Hwn. rewrite store_content_mock_run. eexists. split; [reflexivity|].
  split; [by apply fresh_id|]. cbn [globals mock_content_store mock_content_id_counter].
  split; [rewrite length_app; simpl; lia|]. split; [done|].
  pose proof (fresh_id s Hwn) as Hfresh. destruct Hwn as [Hnd Hlt].
  unfold well_numbered. cbn [globals mock_content_store mock_content_id_counter]. split.
  - rewrite fmap_app. apply NoDup_app. split; [done|]. split.
    + intros x Hx [->|[]%elem_of_nil]%elem_of_cons. done.
    + simpl. apply NoDup_singleton.
  - intros item [Hin|Hin]%elem_of_app.
    + destruct (Hlt item Hin) as (n & Hn & Hitem). exists n. split; [lia|done].
    + apply list_elem_of_singleton in Hin as ->.
      exists (mock_content_id_counter s). split; [lia|done].
Qed.

(** X29: after [store_content_mock], [update_content_posted_status_mock]
    with the returned id returns [True] and marks the item just stored,
    the earlier items being as before. *)
Theorem stored_content_can_be_marked_posted
    (content content_type channel : str) (stamp : datetime) (s : store_state) :
  well_numbered s →
  ∃ content_id s1,
    store_content_mock content content_type channel s = (Return content_id, s1) ∧
    lift (update_content_posted_status_mock content_id true (Some stamp)) s1
    = (Return true,
       {| globals :=
            {| trace := trace (globals s);
               _discord_bot := _discord_bot (globals s);
               mock_content_store :=
                 mock_content_store (globals s)
                 ++ [ {| Wellness.item_id := content_id;
                         Wellness.item_content := content;
                         Wellness.item_content_type := content_type;
                         Wellness.item_channel_id := channel;
                         Wellness.posted := true;
                         Wellness.item_posted_at := Some stamp |} ];
               wellness_content := wellness_content (globals s) |};
          mock_content_id_counter := mock_content_id_counter s + 1 |}).
Proof.
  intros Hwn. rewrite store_content_mock_run. eexists _, _. split; [reflexivity|].
  unfold lift, update_content_posted_status_mock, mbind, M_bind, bind, gets.
  cbn [globals mock_content_store mock_content_id_counter fst snd].
  rewrite (mark_first_at (str_of_int (mock_content_id_counter s)) true (Some stamp)
             (mock_content_store (globals s))
             {| Wellness.item_id := str_of_int (mock_content_id_counter s);
                Wellness.item_content := content;
                Wellness.item_content_type := content_type;
                Wellness.item_channel_id := channel;
                Wellness.posted := false;
                Wellness.item_posted_at := None |} [] (fresh_id s Hwn) eq_refl).
  reflexivity.
Qed.

Lemma well_numbered_at_import (w : world) : well_numbered (at_import w).
Proof.
  split; [apply NoDup_nil_2|]. intros item Hin. by apply elem_of_nil in Hin.
Qed.

(** ** The removal of duplicate chunks *)

Lemma deduplicate_from_spec seen acc l :
  SiteExtraction.deduplicate_from seen acc l
  = (seen ∪ list_to_set (SiteExtraction.text <$> l), acc ++ first_occurrences seen l).
Proof.
  unfold SiteExtraction.deduplicate_from.
  revert seen acc. induction l as [|c l IH]; intros seen acc; simpl.
  - by rewrite app_nil_r, (right_id_L ∅ (∪)).
  - case_bool_decide as Hin; rewrite IH.
    + f_equal. apply set_eq. intros x.
      rewrite !elem_of_union, elem_of_singleton.
      split; [intros [?|?]; auto|intros [?|[->|?]]; auto].
    + rewrite <- app_assoc. simpl. f_equal. by rewrite (assoc_L (∪)).
Qed.

Lemma first_occurrences_unseen seen l c :
  c ∈ first_occurrences seen l → (SiteExtraction.text c ∉ seen) ∧ c ∈ l.
Proof.
  revert seen. induction l as [|c0 l IH]; intros seen; simpl; [by intros ?%elem_of_nil|].
  case_bool_decide as Hin.
  - intros [? ?]%IH. split; [done|]. by apply list_elem_of_further.
  - intros [->|[Hn ?]%IH]%elem_of_cons.
    + split; [done|]. apply list_elem_of_here.
    + split; [|by apply list_elem_of_further].
      intros Hs. apply Hn, elem_of_union. by left.
Qed.

Lemma first_occurrences_NoDup seen l :
  NoDup (SiteExtraction.text <$> first_occurrences seen l).
Proof.
  revert seen. induction l as [|c l IH]; intros seen; simpl; [apply NoDup_nil_2|].
  case_bool_decide as Hin; [apply IH|].
  simpl. apply NoDup_cons. split; [|apply IH].
  intros (c' & Heq & [Hn _]%first_occurrences_unseen)%list_elem_of_fmap.
  apply Hn, elem_of_union. right. by apply elem_of_singleton.
Qed.

Lemma first_occurrences_sublist seen l : sublist (first_occurrences seen l) l.
Proof.
  revert seen. induction l as [|c l IH]; intros seen; simpl; [done|].
  case_bool_decide; [apply sublist_cons|apply sublist_skip]; apply IH.
Qed.

Lemma first_occurrences_cover seen l c :
  c ∈ l →
  SiteExtraction.text c ∈ seen ∨
  SiteExtraction.text c ∈ SiteExtraction.text <$> first_occurrences seen l.
Proof.
  revert seen. induction l as [|c0 l IH]; intros seen; [by intros ?%elem_of_nil|].
  intros [->|Hin]%elem_of_cons; simpl; case_bool_decide as Hseen.
  - by left.
  - right. simpl. apply list_elem_of_here.
  - by apply IH.
  - destruct (IH (seen ∪ {[SiteExtraction.text c0]}) Hin) as [Hs|Hs].
    + apply elem_of_union in Hs as [Hs|Hs%elem_of_singleton]; [by left|].
      right. simpl. rewrite Hs. apply list_elem_of_here.
    + right. simpl. by apply list_elem_of_further.
Qed.

Lemma first_occurrences_fixed seen l :
  first_occurrences seen (first_occurrences seen l) = first_occurrences seen l.
Proof.
  revert seen. induction l as [|c l IH]; intros seen; simpl; [done|].
  case_bool_decide as Hin; [apply IH|].
  simpl. rewrite bool_decide_eq_false_2 by done. by rewrite IH.
Qed.

Lemma first_occurrences_all seen l :
  NoDup (SiteExtraction.text <$> l) →
  (∀ c, c ∈ l → SiteExtraction.text c ∉ seen) →
  first_occurrences seen l = l.
Proof.
  revert seen. induction l as [|c l IH]; intros seen; simpl; [done|].
  intros [Hc Hnd]%NoDup_cons Hseen.
  rewrite bool_decide_eq_false_2 by (apply Hseen, list_elem_of_here).
  f_equal. apply IH; [done|]. intros c' Hin.
  apply not_elem_of_union. split; [apply Hseen; by apply list_elem_of_further|].
  intros Heq%elem_of_singleton. apply Hc. rewrite <- Heq.
  apply list_elem_of_fmap. by exists c'.
Qed.

(** X30: the deduplication loop keeps, in order, the first chunk of every
    text: no text occurs twice in the result, the result is a sublist of
    the input and has all its texts, and deduplicating again, or
    deduplicating a list without duplicates, changes nothing. *)
Theorem deduplication_keeps_the_first_occurrences
    (all_chunks : list SiteExtraction.chunk) :
  SiteExtraction.deduplicated_chunks all_chunks = first_occurrences ∅ all_chunks ∧
  NoDup (SiteExtraction.text <$> SiteExtraction.deduplicated_chunks all_chunks) ∧
  sublist (SiteExtraction.deduplicated_chunks all_chunks) all_chunks ∧
  (∀ c, c ∈ all_chunks →
        SiteExtraction.text c
        ∈ SiteExtraction.text <$> SiteExtraction.deduplicated_chunks all_chunks) ∧
  SiteExtraction.deduplicated_chunks (SiteExtraction.deduplicated_chunks all_chunks)
  = SiteExtraction.deduplicated_chunks all_chunks ∧
  (NoDup (SiteExtraction.text <$> all_chunks) →
   SiteExtraction.deduplicated_chunks all_chunks = all_chunks).
Proof.
  assert (Hd : ∀ l, SiteExtraction.deduplicated_chunks l = first_occurrences ∅ l).
  { intros l. unfold SiteExtraction.deduplicated_chunks.
    by rewrite deduplicate_from_spec. }
  rewrite !Hd. split; [done|]. split; [apply first_occurrences_NoDup|].
  split; [apply first_occurrences_sublist|]. split; [|split].
  - intros c Hin. destruct (first_occurrences_cover ∅ _ _ Hin) as [Hs|Hs]; [|done].
    by apply elem_of_empty in Hs.
  - apply first_occurrences_fixed.
  - intros Hnd. apply first_occurrences_all; [done|]. intros c _. apply not_elem_of_empty.
Qed.

(** ** The further properties on concrete inputs *)

Lemma post_content_rejects_blank_content_witness :
  ∃ (res : Wellness.PostResult),
    post_content (Example.env 0) Example.manager (lit "  ") (Some (lit "123"))
      (Some (lit "7")) Example.start = (Return res, Example.start) ∧
    Wellness.success res = false ∧
    Wellness.error_message res = Some (lit "Empty content received") ∧
    Wellness.channel_id res = lit "123" ∧
    Wellness.content_id res = None ∧
    Wellness.posted_at res = None.
Proof.
  exact (post_content_rejects_blank_content (Example.env 0) Example.manager
           (lit "  ") (Some (lit "123")) (Some (lit "7")) Example.start eq_refl).
Defined.

Lemma post_content_needs_a_channel_witness :
  ∃ (res : Wellness.PostResult),
    post_content (Example.env 0) Example.manager Example.tip None (Some (lit "7"))
      Example.start = (Return res, Example.start) ∧
    Wellness.success res = false ∧
    Wellness.error_message res =
      Some (lit "Channel ID not found in parameters or environment variables") ∧
    Wellness.channel_id res = lit "unknown" ∧
    Wellness.content_id res = None ∧
    Wellness.posted_at res = None.
Proof.
  apply (post_content_needs_a_channel (Example.env 0) Example.manager Example.tip
           None (Some (lit "7")) Example.start); reflexivity.
Defined.

Lemma post_content_needs_a_client_witness :
  ∃ (res : Wellness.PostResult),
    post_content (Example.env 0) Sample.unmanned Example.tip (Some (lit "123"))
      (Some (lit "7")) Example.start = (Return res, Example.start) ∧
    Wellness.success res = false ∧
    Wellness.error_message res = Some (lit "Discord bot not initialized") ∧
    Wellness.channel_id res = lit "123" ∧
    Wellness.content_id res = None ∧
    Wellness.posted_at res = None.
Proof.
  apply (post_content_needs_a_client (Example.env 0) Sample.unmanned Example.tip
           (Some (lit "123")) (Some (lit "7")) (lit "123") Example.start).
  - reflexivity.
  - split; [reflexivity|left; reflexivity].
  - reflexivity.
Defined.

Lemma post_content_retries_an_unparsable_channel_witness :
  ∃ (res : Wellness.PostResult),
    post_content (Example.env 0) Example.manager Example.tip (Some (lit "general"))
      (Some (lit "7")) Example.start
      = (Return res, log Example.start [EvSleep 1; EvSleep 2]) ∧
    Wellness.success res = false ∧
    Wellness.error_message res =
      Some (lit "Failed to send wellness content after 3 attempts. Last error: "
            ++ lit "invalid literal for int()") ∧
    Wellness.channel_id res = lit "general" ∧
    Wellness.content_id res = Some (lit "7") ∧
    Wellness.posted_at res = None.
Proof.
  apply (post_content_retries_an_unparsable_channel (Example.env 0) Example.manager
           Example.tip (Some (lit "general")) (Some (lit "7")) (lit "general")
           Example.bot (lit "invalid literal for int()") Example.start).
  - reflexivity.
  - split; [reflexivity|left; reflexivity].
  - reflexivity.
  - reflexivity.
Defined.

Lemma process_needs_a_client_witness :
  ∃ (tc' : TaskContext) (res : SendReply.ResponseModel),
    process (Example.env 0) Sample.clientless
      (Example.context AnalyzeMessage.BREATHWORK Example.reply) Example.start
    = (Return tc', Example.start) ∧
    nodes tc' !! lit "SendReply" = Some (recorded res) ∧
    SendReply.success res = false ∧
    SendReply.error_message res = Some (lit "Discord bot not initialized").
Proof.
  destruct (process_needs_a_client (Example.env 0) Sample.clientless
              (Example.context AnalyzeMessage.BREATHWORK Example.reply)
              Example.start AnalyzeMessage.BREATHWORK Example.reply)
    as (tc' & res & Hrun & _ & Hlook & Hs & Hm & _).
  - split; eexists _, _; split; reflexivity.
  - discriminate.
  - reflexivity.
  - reflexivity.
  - exists tc', res. split; [exact Hrun|]. split; [exact Hlook|].
    split; [exact Hs|exact Hm].
Defined.

Lemma process_reports_an_entry_without_model_witness :
  ∃ (tc' : TaskContext) (res : SendReply.ResponseModel),
    process (Example.env 0) Example.node Sample.unfinished Example.start
    = (Return tc', Example.start) ∧
    nodes tc' !! lit "SendReply" = Some (recorded res) ∧
    SendReply.success res = false ∧
    SendReply.error_message res
      = Some (lit "Error in SendReply node: 'response_model'").
Proof.
  destruct (process_reports_an_entry_without_model (Example.env 0) Example.node
              Sample.unfinished Example.start None)
    as (tc' & res & Hrun & _ & Hlook & Hs & Hm & _).
  - reflexivity.
  - eexists. reflexivity.
  - exists tc', res. split; [exact Hrun|]. split; [exact Hlook|].
    split; [exact Hs|exact Hm].
Defined.

(** The delivery capability is down, and the client is in test mode. *)
Lemma test_mode_delivers_at_the_first_attempt_witness :
  process Example.down Sample.rehearsing_node
    (Example.context AnalyzeMessage.BREATHWORK Example.reply) Example.start =
    (Return (sent Sample.rehearsing_node
               (Example.context AnalyzeMessage.BREATHWORK Example.reply)
               Example.reply),
     log Example.start [EvSend 77 Example.reply None]).
Proof.
  refine (proj1 (test_mode_delivers_at_the_first_attempt Example.down
                   Sample.rehearsing_node
                   (Example.context AnalyzeMessage.BREATHWORK Example.reply)
                   Example.bot Example.reply Example.start
                   Sample.rehearsing_manager Example.tip (Some (lit "123"))
                   (Some (lit "7")) (lit "123") 123 Example.bot Example.start _ _)).
  - example_reaches_loop.
  - example_post_reaches_loop.
Defined.

Lemma update_keeps_the_shape_of_the_store_witness :
  length [updated true (Some 9) Sample.stored] = length [Sample.stored] ∧
  mark_first (lit "7") true (Some 9) [updated true (Some 9) Sample.stored]
  = Some [updated true (Some 9) Sample.stored].
Proof.
  destruct (update_keeps_the_shape_of_the_store (lit "7") true (Some 9)
              [Sample.stored] [updated true (Some 9) Sample.stored])
    as (Hlen & _ & _ & _ & _ & Hagain).
  - reflexivity.
  - split; [exact Hlen|exact Hagain].
Defined.

Lemma update_without_database_reports_presence_witness :
  (update_content_posted_status (Example.env 0) (lit "7") true (Some 9)
     Example.start).1 = Return true ∧
  (update_content_posted_status (Example.env 0) (lit "8") true (Some 9)
     Example.start).1 = Return false.
Proof.
  split.
  - refine (proj1 (update_without_database_reports_presence (Example.env 0)
                     (lit "7") true (Some 9) Example.start _)).
    reflexivity.
  - refine (proj1 (update_without_database_reports_presence (Example.env 0)
                     (lit "8") true (Some 9) Example.start _)).
    reflexivity.
Defined.

Lemma update_falls_back_to_the_mock_store_witness :
  mock_content_store
    (update_content_posted_status (Sample.with_database (Some (lit "connection lost")))
       (lit "7") true (Some 9) Example.start).2
  = default (mock_content_store Example.start)
            (mark_first (lit "7") true (Some 9) (mock_content_store Example.start)).
Proof.
  refine (proj1 (proj2 (update_falls_back_to_the_mock_store
                          (Sample.with_database (Some (lit "connection lost")))
                          (lit "7") true (Some 9) Example.start
                          (lit "connection lost") _ _))); reflexivity.
Defined.

Lemma update_in_the_database_leaves_the_mock_store_witness :
  mock_content_store
    (update_content_posted_status (Sample.with_database None)
       (lit "7") true (Some 9) Example.start).2
  = mock_content_store Example.start.
Proof.
  refine (proj1 (proj2 (proj2 (update_in_the_database_leaves_the_mock_store
                                 (Sample.with_database None)
                                 (lit "7") true (Some 9) Example.start _ _))));
    reflexivity.
Defined.

Lemma post_content_marks_the_posted_item_witness :
  ∃ (r : Wellness.PostResult) (w' : world),
    post_content (Example.env 1) Example.manager Example.tip (Some (lit "123"))
      (Some (lit "7")) Example.start = (Return r, w') ∧
    Wellness.success r = true ∧
    is_Some (Wellness.posted_at r) ∧
    mock_content_store w'
      = [] ++ updated true (Wellness.posted_at r) Sample.stored :: [].
Proof.
  apply (post_content_marks_the_posted_item (Example.env 1) 1 Example.manager
           Example.tip (Some (lit "123")) (lit "7") (lit "123") 123 Example.bot
           Example.start [] Sample.stored []).
  - lia.
  - example_post_reaches_loop.
  - example_fails_once.
  - reflexivity.
  - reflexivity.
  - reflexivity.
  - apply not_elem_of_nil.
  - reflexivity.
Defined.

Lemma get_discord_bot_fixes_the_client_at_creation_witness :
  (run_calls (Example.env 0)
     [(Some (lit "secret"), true); (Some (lit "other"), false); (None, false)]
     Example.fresh).1
  = [Return (Some (new_bot (Example.env 0) (lit "secret") true Example.fresh));
     Return (Some (new_bot (Example.env 0) (lit "secret") true Example.fresh));
     Return (Some (new_bot (Example.env 0) (lit "secret") true Example.fresh))].
Proof.
  refine (proj1 (get_discord_bot_fixes_the_client_at_creation (Example.env 0)
                   (lit "secret") true
                   [(Some (lit "other"), false); (None, false)] Example.fresh _)).
  reflexivity.
Defined.

Lemma determine_content_type_defaults_on_unknown_types_witness :
  determine_content_type [(Example.tip, lit "horoscope", 5)]
  = Wellness.MEDITATION_TIP.
Proof.
  apply (determine_content_type_defaults_on_unknown_types
           Example.tip (lit "horoscope") 5 []).
  intros t. destruct t; vm_compute; discriminate.
Defined.

Lemma nodes_and_managers_share_the_client_witness :
  WellnessContentManager_init (Sample.with_database None) Example.start =
    (Return {| Wellness.discord_bot := Some Example.bot |}, Example.start).
Proof.
  refine (proj1 (nodes_and_managers_share_the_client (Sample.with_database None)
                   (lit "SendReply") Example.start Example.start
                   {| SendReply.node_name := lit "SendReply";
                      SendReply.discord_bot := Some Example.bot |} _)).
  reflexivity.
Defined.

(** The client exists, and the manager built without a token has none. *)
Lemma manager_without_token_cannot_post_witness :
  ∃ (manager : Wellness.t) (r : Wellness.PostResult),
    WellnessContentManager_init (Example.env 0) Example.start
      = (Return manager, Example.start) ∧
    post_content (Example.env 0) manager Example.tip (Some (lit "123"))
      (Some (lit "7")) Example.start = (Return r, Example.start) ∧
    Wellness.success r = false.
Proof.
  apply (manager_without_token_cannot_post (Example.env 0) Example.start
           Example.tip (Some (lit "123")) (Some (lit "7"))).
  reflexivity.
Defined.

Lemma prepare_context_selects_the_content_type_witness :
  ∃ selected,
    prepare_context (Example.env 0) Sample.monday Sample.one_post Example.manager
      (Some (lit "123")) (Some (lit "gratitude practice")) Example.start
    = (Return {| ContentContext.day_of_week := lit "Monday";
                 ContentContext.content_type := selected;
                 ContentContext.previous_content := [Example.tip];
                 ContentContext.channel_id := lit "123" |}, Example.start) ∧
    selected = Wellness.GRATITUDE_PRACTICE.
Proof.
  destruct (prepare_context_selects_the_content_type (Example.env 0) Sample.monday
              Sample.one_post Example.manager (Some (lit "123"))
              (Some (lit "gratitude practice")) Example.start
              [(Example.tip, lit "breathwork technique", 5)] Example.start)
    as (selected & Hrun & Hvalid & _).
  - reflexivity.
  - exists selected. split; [exact Hrun|].
    apply (Hvalid Wellness.GRATITUDE_PRACTICE). reflexivity.
Defined.

Lemma stored_content_gets_a_fresh_id_witness :
  ∃ s',
    store_content_mock Example.tip (lit "breathwork technique") (lit "123")
      (at_import Example.start) = (Return (str_of_int 1), s') ∧
    mock_content_id_counter s' = 2.
Proof.
  destruct (stored_content_gets_a_fresh_id Example.tip (lit "breathwork technique")
              (lit "123") (at_import Example.start))
    as (s' & Hrun & _ & _ & Hcounter & _).
  - split; [apply NoDup_nil_2|]. intros item Hin. by apply elem_of_nil in Hin.
  - exists s'. split; [exact Hrun|exact Hcounter].
Defined.

Lemma stored_content_can_be_marked_posted_witness :
  ∃ content_id s1,
    store_content_mock Example.tip (lit "breathwork technique") (lit "123")
      (at_import Example.start) = (Return content_id, s1) ∧
    (lift (update_content_posted_status_mock content_id true (Some 9)) s1).1
    = Return true.
Proof.
  destruct (stored_content_can_be_marked_posted Example.tip
              (lit "breathwork technique") (lit "123") 9 (at_import Example.start))
    as (content_id & s1 & Hrun & Hmark).
  - split; [apply NoDup_nil_2|]. intros item Hin. by apply elem_of_nil in Hin.
  - exists content_id, s1. split; [exact Hrun|]. exact (f_equal fst Hmark).
Defined.
